(** * Colpensiones report parser: the recognition and normalisation engine

    A shallow embedding of [pdf_table_extractor.py] and proofs about it.

    Modelling conventions.
    - A Python [str] is a [string] whose characters are Unicode code points
      below 256 (Latin-1): every literal of the source lives there, and the
      character classes of Python ([str.isspace], [str.isdigit], [str.lower],
      the [\d] and [\s] of [re]) are written out for that range.  Literals
      with accents are written through [latin1], which decodes the UTF-8
      bytes of a literal of this file into code points.
    - A table cell is [option str] ([None] or a string), a row a list of
      cells, a raw table a list of rows, a page its raw tables and its text.
    - A Python [float] is a primitive binary64 [float]; [float(s)] and
      [round(x, 2)] are computed exactly (integer arithmetic, round to
      nearest even) and then injected into binary64.
    - [int(s)] is that of CPython 3.11 and later: a string of more than
      4300 digits raises [ValueError], as a malformed one does.
    - [None] results are [option]; an exception that leaves a function is a
      [Raise] of the [result] type.
    - Logging calls have no effect on results and are left out. *)

From Stdlib Require Import Bool Arith ZArith List String Ascii Lia.
From Stdlib Require Import Floats DecimalString.
From Stdlib Require Import Sorting.Sorted Sorting.Permutation.
Import ListNotations.

Open Scope string_scope.
Open Scope list_scope.
Open Scope nat_scope.

(* ================================================================= *)
(** ** Python built-ins on Latin-1 strings *)

Module Py.

Definition str := string.

Definition ord (c : ascii) : nat := nat_of_ascii c.

Definition between (lo hi : nat) (c : ascii) : bool :=
  (lo <=? ord c) && (ord c <=? hi).

(** [str.isspace] on one character; also the [\s] of [re]. *)
Definition isspace (c : ascii) : bool :=
  between 9 13 c || between 28 32 c || (ord c =? 133) || (ord c =? 160).

(** [str.isdecimal] on one character; also the [\d] of [re]. *)
Definition isdecimal (c : ascii) : bool := between 48 57 c.

(** [str.isdigit] on one character: the decimals and the superscripts
    two, three and one. *)
Definition isdigit_char (c : ascii) : bool :=
  isdecimal c || (ord c =? 178) || (ord c =? 179) || (ord c =? 185).

Definition isalpha_char (c : ascii) : bool :=
  between 65 90 c || between 97 122 c || (ord c =? 170) || (ord c =? 181)
  || (ord c =? 186) || between 192 214 c || between 216 246 c
  || between 248 255 c.

(** [str.isalnum] on one character: alphabetic, digit, or one of the
    vulgar fractions (numeric). *)
Definition isalnum_char (c : ascii) : bool :=
  isalpha_char c || isdigit_char c || between 188 190 c.

Definition lower_char (c : ascii) : ascii :=
  if between 65 90 c || between 192 214 c || between 216 222 c
  then ascii_of_nat (ord c + 32) else c.

Definition len (s : str) : nat := String.length s.

Fixpoint map_str (f : ascii -> ascii) (s : str) : str :=
  match s with
  | EmptyString => EmptyString
  | String c r => String (f c) (map_str f r)
  end.

Fixpoint all_str (p : ascii -> bool) (s : str) : bool :=
  match s with
  | EmptyString => true
  | String c r => p c && all_str p r
  end.

Definition is_empty (s : str) : bool :=
  match s with EmptyString => true | _ => false end.

(** Truth value of a string: non-empty. *)
Definition truthy (s : str) : bool := negb (is_empty s).

Definition lower (s : str) : str := map_str lower_char s.

Definition isdigit (s : str) : bool := truthy s && all_str isdigit_char s.

Definition isalnum (s : str) : bool := truthy s && all_str isalnum_char s.

Fixpoint lstrip_with (p : ascii -> bool) (s : str) : str :=
  match s with
  | EmptyString => EmptyString
  | String c r => if p c then lstrip_with p r else s
  end.

Fixpoint rstrip_with (p : ascii -> bool) (s : str) : str :=
  match s with
  | EmptyString => EmptyString
  | String c r =>
      let r' := rstrip_with p r in
      if is_empty r' && p c then EmptyString else String c r'
  end.

Definition strip_with (p : ascii -> bool) (s : str) : str :=
  rstrip_with p (lstrip_with p s).

(** [s.strip()] *)
Definition strip (s : str) : str := strip_with isspace s.

(** [sub in s] *)
Fixpoint contains (sub s : str) : bool :=
  String.prefix sub s ||
  match s with
  | EmptyString => false
  | String _ r => contains sub r
  end.

(** [c in s] for a one-character [c]. *)
Fixpoint has_char (c : ascii) (s : str) : bool :=
  match s with
  | EmptyString => false
  | String d r => Ascii.eqb c d || has_char c r
  end.

(** [s.split(c)] for a one-character separator. *)
Fixpoint split (c : ascii) (s : str) : list str :=
  match s with
  | EmptyString => [EmptyString]
  | String d r =>
      if Ascii.eqb c d then EmptyString :: split c r
      else match split c r with
           | [] => [String d EmptyString]
           | w :: ws => String d w :: ws
           end
  end.

(** [s.replace(c, by)] for a one-character [c]. *)
Fixpoint replace (c : ascii) (by_ : str) (s : str) : str :=
  match s with
  | EmptyString => EmptyString
  | String d r =>
      if Ascii.eqb c d then String.append by_ (replace c by_ r)
      else String d (replace c by_ r)
  end.

(** Characters of [s] that do not satisfy [p]: [re.sub] of a character
    class by the empty string. *)
Fixpoint remove_chars (p : ascii -> bool) (s : str) : str :=
  match s with
  | EmptyString => EmptyString
  | String d r => if p d then remove_chars p r else String d (remove_chars p r)
  end.

(** [s in l] for a list of strings. *)
Definition in_list (s : str) (l : list str) : bool :=
  existsb (String.eqb s) l.

(** Decoding of the UTF-8 bytes of a literal into Latin-1 code points
    (two-byte sequences led by 0xC2 or 0xC3). *)
Fixpoint latin1 (s : string) : str :=
  match s with
  | EmptyString => EmptyString
  | String c r =>
      match r with
      | String d r' =>
          if ord c =? 194 then String d (latin1 r')
          else if ord c =? 195 then String (ascii_of_nat (ord d + 64)) (latin1 r')
          else String c (latin1 r)
      | EmptyString => String c EmptyString
      end
  end.

(* ----------------------------------------------------------------- *)
(** *** Numbers *)

Definition digit_value (c : ascii) : Z := Z.of_nat (ord c - 48).

(** Value of a run of decimal digits and underscores, most significant
    first, continuing from [acc]; underscores carry no value. *)
Fixpoint digits_value (acc : Z) (s : str) : Z :=
  match s with
  | EmptyString => acc
  | String c r =>
      if isdecimal c then digits_value (10 * acc + digit_value c) r
      else digits_value acc r
  end.

(** Longest prefix of decimal digits, and the rest. *)
Fixpoint span_digits (s : str) : str * str :=
  match s with
  | EmptyString => (EmptyString, EmptyString)
  | String c r =>
      if isdecimal c then let (a, b) := span_digits r in (String c a, b)
      else (EmptyString, s)
  end.

(** What the conversions of [int] and [float] do to a string first:
    a space above 127 becomes an ASCII space. *)
Definition to_ascii_space (c : ascii) : ascii :=
  if (128 <=? ord c) && isspace c then " "%char else c.

(** The C [isspace] that [int] and [float] strip with. *)
Definition c_isspace (c : ascii) : bool := between 9 13 c || (ord c =? 32).

Definition split_sign (s : str) : bool * str :=
  match s with
  | String "+" r => (false, r)
  | String "-" r => (true, r)
  | _ => (false, s)
  end.

(** After a digit: digits, each possibly preceded by one underscore. *)
Fixpoint digitpart_tail (s : str) : bool :=
  match s with
  | EmptyString => true
  | String c r =>
      if isdecimal c then digitpart_tail r
      else if Ascii.eqb c "_" then
        match r with
        | String d r' => isdecimal d && digitpart_tail r'
        | EmptyString => false
        end
      else false
  end.

Definition digitpart (s : str) : bool :=
  match s with
  | String c r => isdecimal c && digitpart_tail r
  | EmptyString => false
  end.

(** The number of decimal digits of [s]. *)
Fixpoint count_digits (s : str) : Z :=
  match s with
  | EmptyString => 0%Z
  | String c r =>
      if isdecimal c then (1 + count_digits r)%Z else count_digits r
  end.

(** [sys.int_max_str_digits]: the digits that [int] converts, underscores
    and sign apart, since CPython 3.11. *)
Definition int_max_str_digits : Z := 4300.

(** [int(s)]; [None] stands for [ValueError], which a string of more than
    [int_max_str_digits] digits raises as a malformed one does. *)
Definition int_ (s : str) : option Z :=
  let t := strip_with c_isspace (map_str to_ascii_space s) in
  let (neg, body) := split_sign t in
  if digitpart body && (count_digits body <=? int_max_str_digits)%Z
  then Some (if neg then (- digits_value 0 body)%Z else digits_value 0 body)
  else None.

(* ----------------------------------------------------------------- *)
(** *** Floats *)

(** Quotient of [n] by [d > 0] rounded to the nearest integer, ties to
    even. *)
Definition div_half_even (n d : Z) : Z :=
  let q := (n / d)%Z in
  match (2 * (n mod d) ?= d)%Z with
  | Lt => q
  | Gt => (q + 1)%Z
  | Eq => if Z.even q then q else (q + 1)%Z
  end.

Definition pow2 (e : Z) : Z := (2 ^ Z.max e 0)%Z.

(** The binary64 number nearest to [n / d] (for [0 <= n], [0 < d]), ties
    to even, with the sign [neg]: what a correctly rounded conversion
    returns.  [k] is the position of the leading bit of the quotient and
    [e] the weight of the last bit kept. *)
Definition nearest_binary64 (neg : bool) (n d : Z) : float :=
  if (n =? 0)%Z then (if neg then neg_zero else zero) else
  let k0 := (Z.log2 n - Z.log2 d)%Z in
  let k := if (n * pow2 (- k0) <? d * pow2 k0)%Z then (k0 - 1)%Z else k0 in
  let e := Z.max (k - 52) (-1074) in
  let q := div_half_even (n * pow2 (- e)) (d * pow2 e) in
  if (971 <? e)%Z || ((e =? 971)%Z && (2 ^ 53 <=? q)%Z)
  then (if neg then neg_infinity else infinity)
  else match q with
       | Zpos m => SF2Prim (S754_finite neg m e)
       | _ => if neg then neg_zero else zero
       end.

(** The binary64 number nearest to [m * 10 ^ x].  Exponents far outside
    the range of binary64 are settled without computing the power. *)
Definition decimal_to_float (neg : bool) (m x : Z) : float :=
  if (m =? 0)%Z then (if neg then neg_zero else zero)
  else if (310 <? Z.log2 m / 4 + x)%Z
       then (if neg then neg_infinity else infinity)
  else if (Z.log2 m / 3 + 1 + x <? -330)%Z
       then (if neg then neg_zero else zero)
  else nearest_binary64 neg (m * 10 ^ Z.max x 0) (10 ^ Z.max (- x) 0).

(** The check CPython makes when a numeric literal holds underscores: an
    underscore stands after a digit and before a digit. *)
Fixpoint underscores_ok (prev : ascii) (s : str) : bool :=
  match s with
  | EmptyString => negb (Ascii.eqb prev "_")
  | String c r =>
      (if Ascii.eqb c "_" then isdecimal prev
       else negb (Ascii.eqb prev "_") || isdecimal c)
      && underscores_ok c r
  end.

(** Mantissa and decimal exponent of [digits* [. digits*] [e [sign] digits+]]
    with at least one mantissa digit; the whole string must be used. *)
Definition parse_decimal (s : str) : option (Z * Z) :=
  let (ip, r1) := span_digits s in
  let (fp, r2) := match r1 with
                  | String "." r => span_digits r
                  | _ => (EmptyString, r1)
                  end in
  if is_empty ip && is_empty fp then None else
  let m := digits_value 0 (String.append ip fp) in
  let x := (- Z.of_nat (len fp))%Z in
  match r2 with
  | EmptyString => Some (m, x)
  | String c r3 =>
      if Ascii.eqb c "e" || Ascii.eqb c "E" then
        let (eneg, r4) := split_sign r3 in
        let (ed, r5) := span_digits r4 in
        if is_empty ed || truthy r5 then None
        else let ev := digits_value 0 ed in
             Some (m, ((if eneg then - ev else ev) + x)%Z)
      else None
  end.

(** [float(s)]; [None] stands for [ValueError]. *)
Definition float_ (s : str) : option float :=
  let t := map_str to_ascii_space s in
  if has_char "_" t && negb (underscores_ok Ascii.zero t) then None else
  let t := strip_with c_isspace (remove_chars (Ascii.eqb "_") t) in
  let (neg, body) := split_sign t in
  match parse_decimal body with
  | Some (m, x) => Some (decimal_to_float neg m x)
  | None =>
      let w := lower body in
      if String.eqb w "inf" || String.eqb w "infinity"
      then Some (if neg then neg_infinity else infinity)
      else if String.eqb w "nan" then Some nan
      else None
  end.

(** [round(x, 2)]: the exact value of [x] rounded to two decimals, ties to
    even, and converted back; zeros, infinities and NaN are returned as
    they are. *)
Definition round2 (x : float) : float :=
  match Prim2SF x with
  | S754_finite neg m e =>
      nearest_binary64 neg
        (div_half_even (Zpos m * 100 * pow2 e) (pow2 (- e))) 100
  | _ => x
  end.

(** Truth value of a float: not zero. *)
Definition float_truthy (x : float) : bool := negb (PrimFloat.eqb x 0%float).

End Py.

(* ================================================================= *)
(** ** Raw pages *)

Import Py.

Definition cell := option str.
Definition row := list cell.
Definition table := list row.

(** What the layout engine gives for a page: [page.extract_tables()] and
    [page.extract_text()]. *)
Record page := mkPage {
  extract_tables : list table;
  extract_text : option str
}.

(** Truth value of a cell: a non-empty string. *)
Definition cell_truthy (c : cell) : bool :=
  match c with Some s => truthy s | None => false end.

(** [cell.strip() if cell else ''] *)
Definition cell_text (c : cell) : str :=
  match c with
  | Some s => if truthy s then strip s else EmptyString
  | None => EmptyString
  end.

(** [cell.strip() if cell else None] *)
Definition cell_strip_or_none (c : cell) : option str :=
  match c with
  | Some s => if truthy s then Some (strip s) else None
  | None => None
  end.

(** [row[i]] on a row long enough, [None] otherwise. *)
Definition nth_cell (r : row) (i : nat) : cell := nth i r None.

(** [not s or s.strip() in l]: the guard that opens every cleaning
    function. *)
Definition blank_or_in (c : cell) (l : list str) : bool :=
  match c with
  | None => true
  | Some s => is_empty s || in_list (strip s) l
  end.

(** The float [0.01]. *)
Definition float_0_01 : float := 0x1.47ae147ae147bp-7%float.

(* ================================================================= *)
(** ** Regular expressions of the source

    Each compiled pattern is written as the matcher it denotes.  Every
    pattern of the source is deterministic: a greedy run of digits is
    followed by a character that is not a digit, so giving a digit back
    never lets a failed match succeed. *)

Module Re.

(** Up to [n] decimal digits from the front, greedily. *)
Fixpoint digits_upto (n : nat) (s : str) : str * str :=
  match n, s with
  | S n', String c r =>
      if isdecimal c then let (a, b) := digits_upto n' r in (String c a, b)
      else (EmptyString, s)
  | _, _ => (EmptyString, s)
  end.

(** Exactly [n] decimal digits from the front. *)
Definition digits_exactly (n : nat) (s : str) : option (str * str) :=
  let (a, b) := digits_upto n s in
  if len a =? n then Some (a, b) else None.

(** The literal character [c] at the front. *)
Definition lit (c : ascii) (s : str) : option str :=
  match s with
  | String d r => if Ascii.eqb c d then Some r else None
  | EmptyString => None
  end.

(** [\d{1,2}] followed by the separator [sep]. *)
Definition day_or_month (sep : ascii) (s : str) : option (str * str) :=
  let (a, b) := digits_upto 2 s in
  if is_empty a then None
  else match lit sep b with Some r => Some (a, r) | None => None end.

(** [(\d{1,2})SEP(\d{1,2})SEP(\d{4})] at the start of [s]: the groups. *)
Definition date_dd_mm_yyyy_sep (sep : ascii) (s : str)
  : option (str * str * str) :=
  match day_or_month sep s with
  | Some (d, r1) =>
      match day_or_month sep r1 with
      | Some (m, r2) =>
          match digits_exactly 4 r2 with
          | Some (y, _) => Some (d, m, y)
          | None => None
          end
      | None => None
      end
  | None => None
  end.

(** [(\d{4})-(\d{1,2})-(\d{1,2})] at the start of [s]: the groups. *)
Definition date_yyyy_mm_dd (s : str) : option (str * str * str) :=
  match digits_exactly 4 s with
  | Some (y, r1) =>
      match lit "-" r1 with
      | Some r2 =>
          match day_or_month "-" r2 with
          | Some (m, r3) =>
              let (d, _) := digits_upto 2 r3 in
              if is_empty d then None else Some (y, m, d)
          | None => None
          end
      | None => None
      end
  | None => None
  end.

(** [(\d{4})(\d{2})] at the start of [s]: the groups. *)
Definition period_yyyymm (s : str) : option (str * str) :=
  match digits_exactly 4 s with
  | Some (y, r1) =>
      match digits_exactly 2 r1 with
      | Some (m, _) => Some (y, m)
      | None => None
      end
  | None => None
  end.

(** [^\s*\[\d+\]\s*$] *)
Definition header_flag (s : str) : bool :=
  match lit "[" (lstrip_with isspace s) with
  | Some r1 =>
      let (d, r2) := span_digits r1 in
      if is_empty d then false
      else match lit "]" r2 with
           | Some r3 => is_empty (lstrip_with isspace r3)
           | None => false
           end
  | None => false
  end.

(** [pattern.findall(s)] for a pattern with one group that never matches
    the empty string: [m] gives the match at the front of a string and what
    follows it.  The scan resumes after a match and one character further
    after a failure; [fuel] bounds the positions tried. *)
Fixpoint findall_from (m : str -> option (str * str)) (fuel : nat) (s : str)
  : list str :=
  match fuel with
  | O => []
  | S fuel' =>
      match m s with
      | Some (w, rest) => w :: findall_from m fuel' rest
      | None =>
          match s with
          | EmptyString => []
          | String _ r => findall_from m fuel' r
          end
      end
  end.

Definition findall (m : str -> option (str * str)) (s : str) : list str :=
  findall_from m (S (len s)) s.

(** [,\d{2}] *)
Definition comma_two_digits (s : str) : option (str * str) :=
  match lit "," s with
  | Some r =>
      match digits_exactly 2 r with
      | Some (d, rest) => Some (String "," d, rest)
      | None => None
      end
  | None => None
  end.

(** [(\d+,\d{2})]: patterns [summary_numeric_comma] and
    [colombian_number_simple]. *)
Definition summary_numeric_comma (s : str) : option (str * str) :=
  let (a, r) := span_digits s in
  if is_empty a then None
  else match comma_two_digits r with
       | Some (d, rest) => Some (String.append a d, rest)
       | None => None
       end.

(** [(\d+)] *)
Definition summary_numeric_digits (s : str) : option (str * str) :=
  let (a, r) := span_digits s in
  if is_empty a then None else Some (a, r).

(** Groups of a dot and three digits, greedily; [fuel] bounds the number
    of groups. *)
Fixpoint thousands_groups (fuel : nat) (s : str) : str * str :=
  match fuel with
  | O => (EmptyString, s)
  | S fuel' =>
      match lit "." s with
      | Some r =>
          match digits_exactly 3 r with
          | Some (d, rest) =>
              let (g, rest') := thousands_groups fuel' rest in
              (String "." (String.append d g), rest')
          | None => (EmptyString, s)
          end
      | None => (EmptyString, s)
      end
  end.

(** Pattern [colombian_number_no_decimal]: one to three digits, then
    groups of a dot and three digits. *)
Definition colombian_number_no_decimal (s : str) : option (str * str) :=
  let (a, r) := digits_upto 3 s in
  if is_empty a then None
  else let (g, rest) := thousands_groups (len r) r in
       Some (String.append a g, rest).

(** Pattern [colombian_number_full]: as [colombian_number_no_decimal],
    then a comma and two digits. *)
Definition colombian_number_full (s : str) : option (str * str) :=
  match colombian_number_no_decimal s with
  | Some (a, r) =>
      match comma_two_digits r with
      | Some (d, rest) => Some (String.append a d, rest)
      | None => None
      end
  | None => None
  end.

(** [(\d{4,})] *)
Definition colombian_number_4plus_no_decimal (s : str) : option (str * str) :=
  let (a, r) := span_digits s in
  if 4 <=? len a then Some (a, r) else None.

(** [(\d{4,},\d{2})] *)
Definition colombian_number_4plus (s : str) : option (str * str) :=
  match colombian_number_4plus_no_decimal s with
  | Some (a, r) =>
      match comma_two_digits r with
      | Some (d, rest) => Some (String.append a d, rest)
      | None => None
      end
  | None => None
  end.

End Re.

(* ================================================================= *)
(** ** [ColpensionesPDFExtractor]: the contribution-weeks table *)

Module Weeks.

Definition expected_headers : list str :=
  map latin1
    [ "Identificación aportante"; "Nombre o razón Social"; "Desde"; "Hasta";
      "Último salario"; "Semanas"; "Licencias (Lic.)"; "Simultáneos (Sim.)";
      "Total" ].

(* ----------------------------------------------------------------- *)
(** *** Dates *)

Definition is_leap (y : Z) : bool :=
  ((y mod 4 =? 0) && negb (y mod 100 =? 0) || (y mod 400 =? 0))%Z.

Definition days_in_month (y m : Z) : Z :=
  if (m =? 2)%Z then (if is_leap y then 29 else 28)%Z
  else if ((m =? 4) || (m =? 6) || (m =? 9) || (m =? 11))%Z then 30%Z
  else 31%Z.

Definition str_of_Z (z : Z) : str :=
  NilZero.string_of_uint (N.to_uint (Z.to_N z)).

(** Two digits, zero padded: the [%m] and [%d] of [strftime]. *)
Definition pad2 (z : Z) : str :=
  if (z <? 10)%Z then String.append "0" (str_of_Z z) else str_of_Z z.

(** [datetime(year, month, day).strftime('%Y-%m-%d')]; [None] stands for
    the [ValueError] of a date that does not exist.  [%Y] is the year
    without padding, as the C library of Linux prints it. *)
Definition datetime_strftime (year month day : Z) : option str :=
  if ((1 <=? year) && (year <=? 9999) && (1 <=? month) && (month <=? 12)
      && (1 <=? day) && (day <=? days_in_month year month))%Z
  then Some (String.append (str_of_Z year)
               (String.append "-" (String.append (pad2 month)
                  (String.append "-" (pad2 day)))))
  else None.

(** The body of the loop over the patterns, for one match: [int] of the
    three groups, then the date. *)
Definition date_of_groups (year month day : str) : option str :=
  match int_ year, int_ month, int_ day with
  | Some y, Some m, Some d => datetime_strftime y m d
  | _, _, _ => None
  end.

Definition normalize_date (date_str : cell) : option str :=
  if blank_or_in date_str [""; "--"; "N/A"] then None else
  match date_str with
  | None => None
  | Some raw =>
      let date_str := strip raw in
      let try1 :=
        match Re.date_dd_mm_yyyy_sep "/" date_str with
        | Some (day, month, year) => date_of_groups year month day
        | None => None
        end in
      let try2 :=
        match Re.date_dd_mm_yyyy_sep "-" date_str with
        | Some (day, month, year) => date_of_groups year month day
        | None => None
        end in
      let try3 :=
        match Re.date_yyyy_mm_dd date_str with
        | Some (year, month, day) => date_of_groups year month day
        | None => None
        end in
      match try1, try2, try3 with
      | Some d, _, _ => Some d
      | None, Some d, _ => Some d
      | None, None, r => r
      end
  end.

(* ----------------------------------------------------------------- *)
(** *** Numbers in Colombian format *)

Definition dot : str := ".".

(** The character class [[$,\s]] of [re.sub] in [clean_salary]. *)
Definition currency_noise (c : ascii) : bool :=
  Ascii.eqb c "$" || Ascii.eqb c "," || isspace c.

Definition clean_salary (salary_str : cell) : option float :=
  if blank_or_in salary_str [""; "--"; "N/A"; "0"] then None else
  match salary_str with
  | None => None
  | Some raw =>
      let cleaned := remove_chars currency_noise (strip raw) in
      let cleaned :=
        if has_char "," cleaned && has_char "." cleaned then
          match split "," cleaned with
          | [integer_part; decimal_part] =>
              String.append (replace "." "" integer_part)
                (String.append dot decimal_part)
          | _ => cleaned
          end
        else if has_char "," cleaned && negb (has_char "." cleaned) then
          match split "," cleaned with
          | [p0; p1] =>
              if len p1 <=? 2 then String.append p0 (String.append dot p1)
              else replace "," "" cleaned
          | _ => replace "," "" cleaned
          end
        else if has_char "." cleaned && negb (has_char "," cleaned) then
          match split "." cleaned with
          | [p0; p1] =>
              if len p1 <=? 2 then cleaned else replace "." "" cleaned
          | _ => replace "." "" cleaned
          end
        else cleaned in
      match float_ cleaned with
      | Some x => Some (round2 x)
      | None => None
      end
  end.

Definition clean_numeric_colombian (value_str : cell) : option float :=
  if blank_or_in value_str [""; "--"; "N/A"; "0"] then None else
  match value_str with
  | None => None
  | Some raw =>
      let value_str := strip raw in
      let cleaned := replace " " "" value_str in
      let cleaned :=
        if has_char "," cleaned && has_char "." cleaned then
          match split "," cleaned with
          | [integer_part; decimal_part] =>
              String.append (replace "." "" integer_part)
                (String.append dot decimal_part)
          | _ => cleaned
          end
        else if has_char "," cleaned && negb (has_char "." cleaned) then
          match split "," cleaned with
          | [p0; p1] =>
              if len p1 <=? 3 then String.append p0 (String.append dot p1)
              else replace "," "" cleaned
          | _ => replace "," "" cleaned
          end
        else if has_char "." cleaned && negb (has_char "," cleaned) then
          match split "." cleaned with
          | [p0; p1] =>
              if 3 <? len p1 then String.append p0 p1 else cleaned
          | _ => cleaned
          end
        else cleaned in
      float_ cleaned
  end.

Definition clean_numeric (value_str : cell) : option float :=
  clean_numeric_colombian value_str.

(* ----------------------------------------------------------------- *)
(** *** Header matching *)

(** The inner loop of [_count_header_matches]: [true] when some header
    makes the loop [break]. *)
Fixpoint header_loop (expected_lower : str) (headers : list str) : bool :=
  match headers with
  | [] => false
  | header :: rest =>
      let header_lower := lower header in
      if contains expected_lower header_lower
         || contains header_lower expected_lower
      then true
      else header_loop expected_lower rest
  end.

(** The outer loop of [_count_header_matches], with the counter. *)
Fixpoint expected_loop (matches : nat) (expected : list str)
  (headers : list str) : nat :=
  match expected with
  | [] => matches
  | e :: rest =>
      let expected_lower := lower e in
      expected_loop
        (if header_loop expected_lower headers then matches + 1 else matches)
        rest headers
  end.

Definition _count_header_matches (headers : list str) : nat :=
  expected_loop 0 expected_headers headers.

(** [[cell.strip() if cell else '' for cell in table[0]]] *)
Definition headers_of (t : table) : list str :=
  match t with
  | r :: _ => map cell_text r
  | [] => []
  end.

(** [find_table_with_headers], on the raw tables of the page. *)
Fixpoint find_table_with_headers (tables : list table) : option table :=
  match tables with
  | [] => None
  | t :: rest =>
      if List.length t <? 2 then find_table_with_headers rest
      else
        let headers := headers_of t in
        if List.length headers =? 9 then
          let matches := _count_header_matches headers in
          if 6 <=? matches then Some t
          else find_table_with_headers rest
        else find_table_with_headers rest
  end.

(** The test that every loop over the tables of a page repeats: at least
    two rows, nine header cells, at least six header matches. *)
Definition table_matches (t : table) : bool :=
  if List.length t <? 2 then false
  else
    let headers := headers_of t in
    if List.length headers =? 9 then 6 <=? _count_header_matches headers
    else false.

Definition _has_table_headers_cached (tables : list table) : bool :=
  existsb table_matches tables.

Definition end_indicators : list str :=
  [ "total semanas cotizadas"; "total de semanas cotizadas"; "total semanas";
    "resumen de semanas"; "total general" ].

(** [check_for_table_end(page, tables_cache)] *)
Definition check_for_table_end (p : page) (tables_cache : option (list table))
  : bool :=
  let tables := match tables_cache with
                | None => extract_tables p
                | Some c => c
                end in
  let has_valid_table := existsb table_matches tables in
  if has_valid_table then false
  else match extract_text p with
       | Some text =>
           if truthy text then
             let text_lower := lower text in
             existsb (fun indicator => contains indicator text_lower)
               end_indicators
           else false
       | None => false
       end.

(* ----------------------------------------------------------------- *)
(** *** Rows *)

Record week_record := mkWeek {
  cont_id : option str;
  cont_name : option str;
  cont_from : option str;
  cont_to : option str;
  cont_last_salary : option float;
  cont_weeks : option float;
  cont_deduction_weeks : option float;
  sim_weeks : option float;
  net_weeks : option float
}.

Definition clean_row_data (r : row) : option week_record :=
  if negb (List.length r =? 9) then None
  else Some {|
    cont_id := cell_strip_or_none (nth_cell r 0);
    cont_name := cell_strip_or_none (nth_cell r 1);
    cont_from := normalize_date (nth_cell r 2);
    cont_to := normalize_date (nth_cell r 3);
    cont_last_salary := clean_salary (nth_cell r 4);
    cont_weeks := clean_numeric (nth_cell r 5);
    cont_deduction_weeks := clean_numeric (nth_cell r 6);
    sim_weeks := clean_numeric (nth_cell r 7);
    net_weeks := clean_numeric (nth_cell r 8)
  |}.

Definition total_indicators : list str :=
  [ "total"; "suma"; "resumen"; "subtotal"; "gran total" ].

Definition header_indicators : list str :=
  map latin1
    [ "[1] identificación"; "identificación aportante";
      "identificacion aportante"; "identificación"; "identificacion" ].

Definition is_data_row (r : row) : bool :=
  if List.length r <? 3 then false else
  let first_cell := cell_text (nth_cell r 0) in
  if existsb (fun indicator => contains indicator (lower first_cell))
       total_indicators then false else
  let first_cell_lower := lower first_cell in
  if existsb (fun indicator => contains indicator first_cell_lower)
       header_indicators then false else
  if is_empty first_cell then false else
  if len first_cell <? 2 then false else
  if isdigit first_cell && (6 <=? len first_cell) then true else
  if isalnum (replace "." "" (replace "-" "" (replace " " "" first_cell)))
  then true
  else true.

(** [row and any(cell for cell in row)] *)
Definition row_not_empty (r : row) : bool := existsb cell_truthy r.

(* ----------------------------------------------------------------- *)
(** *** Summary values mined from the page text *)

Definition newline : ascii := "010"%char.

(** [matches[-1]] of a list known to be non-empty. *)
Definition last_match (matches : list str) : str := last matches EmptyString.

(** The loop over the patterns that [extract_summary_numeric] and
    [extract_numeric_from_line] share: the last match of the first pattern
    that gives a value which is not a bare one- or two-digit number and
    not below 0.01.  [standard] rewrites the match for [float]; a failure
    of [float] is caught by the [except] of the caller and gives [None]. *)
Fixpoint pattern_loop (standard : str -> str)
  (patterns : list (str -> option (str * str))) (line : str) : option float :=
  match patterns with
  | [] => None
  | pattern :: rest =>
      let matches := Re.findall pattern line in
      match matches with
      | [] => pattern_loop standard rest line
      | _ :: _ =>
          let value_str := last_match matches in
          if (len value_str <=? 2) && isdigit value_str
          then pattern_loop standard rest line
          else match float_ (standard value_str) with
               | None => None
               | Some result =>
                   if PrimFloat.ltb result float_0_01
                   then pattern_loop standard rest line
                   else Some result
               end
      end
  end.

Definition summary_standard (value_str : str) : str :=
  if has_char "," value_str then replace "," dot value_str else value_str.

Definition extract_summary_numeric (line : str) : option float :=
  if Re.header_flag (strip line) then None
  else pattern_loop summary_standard
         [Re.summary_numeric_comma; Re.summary_numeric_digits] line.

Definition colombian_standard (value_str : str) : str :=
  if has_char "," value_str && has_char "." value_str then
    let parts := split "," value_str in
    let integer_part := replace "." "" (nth 0 parts EmptyString) in
    let decimal_part := nth 1 parts EmptyString in
    String.append integer_part (String.append dot decimal_part)
  else if has_char "," value_str then
    let parts := split "," value_str in
    if (List.length parts =? 2) && (len (nth 1 parts EmptyString) <=? 2)
    then replace "," dot value_str
    else replace "," "" value_str
  else if has_char "." value_str then
    let parts := split "." value_str in
    if (List.length parts =? 2) && (len (nth 1 parts EmptyString) <=? 2)
    then value_str
    else replace "." "" value_str
  else value_str.

Definition extract_numeric_from_line (line : str) : option float :=
  if Re.header_flag (strip line) then None
  else pattern_loop colombian_standard
         [Re.colombian_number_full; Re.colombian_number_4plus;
          Re.summary_numeric_comma; Re.colombian_number_no_decimal;
          Re.colombian_number_4plus_no_decimal; Re.summary_numeric_digits]
         line.

Record summary := mkSummary {
  weeks_total_report : option float;
  weeks_high_risk : option float
}.

Definition no_summary : summary :=
  {| weeks_total_report := None; weeks_high_risk := None |}.

(** [range(a, b)] *)
Definition range (a b : nat) : list nat := seq a (b - a).

(** The loop over the lines that follow a marker: the first value that
    [extract] finds on a non-empty line [lines[j]] and that [accept]
    keeps; [None] when the loop ends without a [break]. *)
Fixpoint lookahead (extract : str -> option float) (accept : float -> bool)
  (lines : list str) (js : list nat) : option float :=
  match js with
  | [] => None
  | j :: rest =>
      let next_line := strip (nth j lines EmptyString) in
      if truthy next_line then
        match extract next_line with
        | Some value =>
            if accept value then Some value
            else lookahead extract accept lines rest
        | None => lookahead extract accept lines rest
        end
      else lookahead extract accept lines rest
  end.

(** [value != tag] *)
Definition differs (tag value : float) : bool := negb (PrimFloat.eqb value tag).

(** [value > 100] *)
Definition above_100 (value : float) : bool := PrimFloat.ltb 100 value.

(** Truth value of an optional float: neither [None] nor zero. *)
Definition opt_float_truthy (o : option float) : bool :=
  match o with Some x => float_truthy x | None => false end.

Definition set_total (sv : summary) (v : float) : summary :=
  {| weeks_total_report := Some v; weeks_high_risk := weeks_high_risk sv |}.

Definition set_high_risk (sv : summary) (v : float) : summary :=
  {| weeks_total_report := weeks_total_report sv; weeks_high_risk := Some v |}.

(** The body of the loop of [extract_summary_values] for the line of
    index [i]. *)
Definition line_step (lines : list str) (sv : summary) (i : nat) : summary :=
  let line := strip (nth i lines EmptyString) in
  if contains "[26]" line && contains "total semanas" (lower line) then
    let same_line :=
      match extract_summary_numeric line with
      | Some value => if differs 26 value then Some value else None
      | None => None
      end in
    match same_line with
    | Some value => set_total sv value
    | None =>
        match lookahead extract_summary_numeric
                (fun value => differs 26 value && above_100 value) lines
                (range (i + 1) (Nat.min (i + 5) (List.length lines))) with
        | Some value => set_total sv value
        | None => sv
        end
    end
  else if contains "total semanas" (lower line)
          && negb (opt_float_truthy (weeks_total_report sv)) then
    match extract_summary_numeric line with
    | Some value => if above_100 value then set_total sv value else sv
    | None => sv
    end
  else if contains "[11]" line
          && contains "semanas cotizadas con tarifa de alto riesgo"
               (lower line) then
    let same_line :=
      match extract_numeric_from_line line with
      | Some value => if differs 11 value then Some value else None
      | None => None
      end in
    match same_line with
    | Some value => set_high_risk sv value
    | None =>
        match lookahead extract_numeric_from_line (differs 11) lines
                (range (i + 1) (Nat.min (i + 3) (List.length lines))) with
        | Some value => set_high_risk sv value
        | None => sv
        end
    end
  else sv.

Definition extract_summary_values (p : page) : summary :=
  match extract_text p with
  | None => no_summary
  | Some text =>
      if is_empty text then no_summary
      else
        let lines := split newline text in
        fold_left (line_step lines) (range 0 (List.length lines)) no_summary
  end.

(* ----------------------------------------------------------------- *)
(** *** The page loop of [extract_table_and_summary_from_pdf] *)

(** The local variables of the function that live across pages. *)
Record session := mkSession {
  all_rows : list week_record;
  summary_values : summary;
  table_found : bool;
  headers_processed : bool
}.

Definition initial_session : session :=
  {| all_rows := []; summary_values := no_summary;
     table_found := false; headers_processed := false |}.

(** The two [if page_summary[...] is not None] assignments. *)
Definition merge_summary (sv page_summary : summary) : summary :=
  {| weeks_total_report :=
       match weeks_total_report page_summary with
       | Some v => Some v
       | None => weeks_total_report sv
       end;
     weeks_high_risk :=
       match weeks_high_risk page_summary with
       | Some v => Some v
       | None => weeks_high_risk sv
       end |}.

Definition with_summary (s : session) (sv : summary) : session :=
  {| all_rows := all_rows s; summary_values := sv;
     table_found := table_found s; headers_processed := headers_processed s |}.

(** [for row in table[start_row:]] *)
Fixpoint rows_loop (acc : list week_record) (rows : list row)
  : list week_record :=
  match rows with
  | [] => acc
  | r :: rest =>
      let acc' :=
        if row_not_empty r then
          if is_data_row r then
            match clean_row_data r with
            | Some cleaned_row => acc ++ [cleaned_row]
            | None => acc
            end
          else acc
        else acc in
      rows_loop acc' rest
  end.

(** [for table in tables], up to the [break] after the first table that
    matches. *)
Fixpoint tables_loop (p : page) (s : session) (tables : list table)
  : session :=
  match tables with
  | [] => s
  | t :: rest =>
      if table_matches t then
        let start_row := if headers_processed s then 0 else 1 in
        {| all_rows := rows_loop (all_rows s) (skipn start_row t);
           summary_values :=
             merge_summary (summary_values s) (extract_summary_values p);
           table_found := true;
           headers_processed := true |}
      else tables_loop p s rest
  end.

Inductive flow := Continue | Break.

(** The body of [for page_num, page in enumerate(pdf.pages)]. *)
Definition page_step (s : session) (p : page) : session * flow :=
  let tables := extract_tables p in
  if negb (_has_table_headers_cached tables) then
    let s' := with_summary s
                (merge_summary (summary_values s) (extract_summary_values p)) in
    (s', if table_found s then Break else Continue)
  else if check_for_table_end p (Some tables) then
    (with_summary s
       (merge_summary (summary_values s) (extract_summary_values p)), Break)
  else (tables_loop p s tables, Continue).

Fixpoint pages_loop (s : session) (pages : list page) : session :=
  match pages with
  | [] => s
  | p :: rest =>
      match page_step s p with
      | (s', Break) => s'
      | (s', Continue) => pages_loop s' rest
      end
  end.

(** The records of the data frame, in order, and the summary values. *)
Definition extract_table_and_summary_from_pdf (pages : list page)
  : list week_record * summary :=
  let s := pages_loop initial_session pages in
  (all_rows s, summary_values s).

(* ----------------------------------------------------------------- *)
(** *** [extract_table_from_pdf]: the table without the summary *)

(** [has_table_headers(page)]: the same loop as
    [_has_table_headers_cached], on the tables of the page. *)
Definition has_table_headers (p : page) : bool :=
  existsb table_matches (extract_tables p).

(** The local variables of [extract_table_from_pdf] that live across
    pages. *)
Record table_session := mkTableSession {
  t_all_rows : list week_record;
  t_table_found : bool;
  t_headers_processed : bool
}.

Definition initial_table_session : table_session :=
  {| t_all_rows := []; t_table_found := false; t_headers_processed := false |}.

(** [for table in tables], up to the [break] after the first table that
    matches. *)
Fixpoint table_only_tables_loop (s : table_session) (tables : list table)
  : table_session :=
  match tables with
  | [] => s
  | t :: rest =>
      if table_matches t then
        let start_row := if t_headers_processed s then 0 else 1 in
        {| t_all_rows := rows_loop (t_all_rows s) (skipn start_row t);
           t_table_found := true;
           t_headers_processed := true |}
      else table_only_tables_loop s rest
  end.

(** The body of the loop over the pages: a page without headers is
    skipped in every case. *)
Definition table_only_page_step (s : table_session) (p : page)
  : table_session * flow :=
  let tables := extract_tables p in
  if negb (_has_table_headers_cached tables) then (s, Continue)
  else if check_for_table_end p (Some tables) then (s, Break)
  else (table_only_tables_loop s tables, Continue).

Fixpoint table_only_pages_loop (s : table_session) (pages : list page)
  : table_session :=
  match pages with
  | [] => s
  | p :: rest =>
      match table_only_page_step s p with
      | (s', Break) => s'
      | (s', Continue) => table_only_pages_loop s' rest
      end
  end.

(** The records of the data frame, in order. *)
Definition extract_table_from_pdf (pages : list page) : list week_record :=
  t_all_rows (table_only_pages_loop initial_table_session pages).

End Weeks.

(* ================================================================= *)
(** ** [ColpensionesPost1995PaymentsExtractor]: the payments table *)

(** An exception that leaves a function. *)
Inductive exn := ValueError | IndexError.

Inductive result (A : Type) :=
| Ret (a : A)
| Raise (e : exn).

Arguments Ret {A} a.
Arguments Raise {A} e.

Module Payments.

Definition normalize_period (period_str : cell) : option str :=
  if blank_or_in period_str [""; "--"; "N/A"] then None else
  match period_str with
  | None => None
  | Some raw =>
      let period_str := strip raw in
      match Re.period_yyyymm period_str with
      | Some (year, month) =>
          match int_ month with
          | Some month_int =>
              if ((1 <=? month_int) && (month_int <=? 12))%Z
              then Some (String.append year (String.append "-" month))
              else None
          | None => None
          end
      | None => None
      end
  end.

Definition clean_ibc_value (ibc_str : cell) : option float :=
  if blank_or_in ibc_str [""; "--"; "N/A"; "0"] then None else
  match ibc_str with
  | None => None
  | Some raw =>
      let cleaned := remove_chars Weeks.currency_noise (strip raw) in
      let cleaned :=
        if has_char "." cleaned then replace "." "" cleaned else cleaned in
      match float_ cleaned with
      | Some x => Some (round2 x)
      | None => None
      end
  end.

Definition clean_days_value (days_str : cell) : option Z :=
  if blank_or_in days_str [""; "--"; "N/A"; "0"] then None else
  match days_str with
  | None => None
  | Some raw => int_ (strip raw)
  end.

Record payment_record := mkPayment {
  cont_id : option str;
  cont_name : option str;
  cont_period : option str;
  cont_reported_ibc : option float;
  cont_reported_days : option Z;
  cont_contributed_days : option Z
}.

(** Truth values of the optional fields. *)
Definition opt_str_truthy (o : option str) : bool :=
  match o with Some s => truthy s | None => false end.

Definition opt_int_truthy (o : option Z) : bool :=
  match o with Some z => negb (z =? 0)%Z | None => false end.

(** [cell and str(cell).strip()] *)
Definition cell_has_text (c : cell) : bool :=
  match c with
  | Some s => truthy s && truthy (strip s)
  | None => false
  end.

(** [str(cell).strip()] of a cell that holds a string. *)
Definition cell_str (c : cell) : str :=
  match c with Some s => strip s | None => EmptyString end.

(** The loop that looks for a period among all the cells; [old] is the
    value the field keeps when no cell qualifies. *)
Fixpoint sniff_period (old : option str) (cells : row) : option str :=
  match cells with
  | [] => old
  | c :: rest =>
      if cell_has_text c then
        let cell_str := cell_str c in
        if (len cell_str =? 6) && isdigit cell_str
        then normalize_period (Some cell_str)
        else sniff_period old rest
      else sniff_period old rest
  end.

(** The loop that looks for an income base among all the cells; [old] is
    the value the field keeps when no cell qualifies. *)
Fixpoint sniff_ibc (old : option float) (cells : row) : option float :=
  match cells with
  | [] => old
  | c :: rest =>
      if cell_has_text c then
        let cell_str := cell_str c in
        if has_char "$" cell_str
           || (has_char "." cell_str && has_char "," cell_str)
        then clean_ibc_value (Some cell_str)
        else sniff_ibc old rest
      else sniff_ibc old rest
  end.

(** The loop that looks for the two day counts among all the cells, with
    its counter [days_found] and the two fields it assigns.  [int] raises
    on a cell that [isdigit] accepts and that is not decimal, or that
    holds more digits than it converts. *)
Fixpoint sniff_days (days_found : nat) (rep cot : option Z) (cells : row)
  : result (option Z * option Z) :=
  match cells with
  | [] => Ret (rep, cot)
  | c :: rest =>
      if cell_has_text c then
        let cell_str := cell_str c in
        if isdigit cell_str then
          match int_ cell_str with
          | None => Raise ValueError
          | Some n =>
              if ((1 <=? n) && (n <=? 31))%Z then
                if days_found =? 0
                then sniff_days (days_found + 1)
                       (clean_days_value (Some cell_str)) cot rest
                else if days_found =? 1
                then Ret (rep, clean_days_value (Some cell_str))
                else sniff_days days_found rep cot rest
              else sniff_days days_found rep cot rest
          end
        else sniff_days days_found rep cot rest
      else sniff_days days_found rep cot rest
  end.

Definition clean_row_data (r : row) : result (option payment_record) :=
  if List.length r <? 3 then Ret None else
  let id := cell_strip_or_none (nth_cell r 0) in
  let name := cell_strip_or_none (nth_cell r 1) in
  let positional := 13 <=? List.length r in
  let period := if positional then normalize_period (nth_cell r 3) else None in
  let ibc := if positional then clean_ibc_value (nth_cell r 6) else None in
  let rep := if positional then clean_days_value (nth_cell r 10) else None in
  let cot := if positional then clean_days_value (nth_cell r 11) else None in
  let period := if opt_str_truthy period then period
                else sniff_period period r in
  let ibc := if Weeks.opt_float_truthy ibc then ibc else sniff_ibc ibc r in
  let days := if opt_int_truthy rep && opt_int_truthy cot then Ret (rep, cot)
              else sniff_days 0 rep cot r in
  match days with
  | Raise e => Raise e
  | Ret (rep, cot) =>
      if opt_str_truthy id && opt_str_truthy name
      then Ret (Some {| cont_id := id; cont_name := name;
                        cont_period := period; cont_reported_ibc := ibc;
                        cont_reported_days := rep;
                        cont_contributed_days := cot |})
      else Ret None
  end.

(* ----------------------------------------------------------------- *)
(** *** [get_missing_periods_json]

    The function is a chain of pandas calls.  Each call is modelled from
    its documented behaviour on the column [cont_period] of the frame, a
    list of cells.  A timestamp that [to_datetime] builds from a year and
    a month is the first instant of that month: it is represented by the
    index [12 * year + month - 1] of the month. *)

Inductive timestamp :=
| NaT
| MonthStart (n : Z).

Inductive date_format :=
| Y_dash_m   (* '%Y-%m' *)
| Ym.        (* '%Y%m' *)

(** The directive [%m]: [1[0-2]|0[1-9]|[1-9]], the alternatives in this
    order. *)
Definition month_directive (s : str) : option (Z * str) :=
  match s with
  | String a r =>
      let one_digit :=
        if between 49 57 a then Some (digit_value a, r) else None in
      match r with
      | String b r' =>
          if Ascii.eqb a "1" && between 48 50 b
          then Some ((10 + digit_value b)%Z, r')
          else if Ascii.eqb a "0" && between 49 57 b
          then Some (digit_value b, r')
          else one_digit
      | EmptyString => one_digit
      end
  | EmptyString => None
  end.

(** The month that the whole of [s] denotes under the format: four digits
    of year ([%Y]), the dash of the format if it has one, a month. *)
Definition strptime (f : date_format) (s : str) : option Z :=
  match Re.digits_exactly 4 s with
  | Some (y, r1) =>
      let after_sep := match f with
                       | Y_dash_m => Re.lit "-" r1
                       | Ym => Some r1
                       end in
      match after_sep with
      | Some r2 =>
          match month_directive r2 with
          | Some (m, EmptyString) => Some (12 * digits_value 0 y + m - 1)%Z
          | _ => None
          end
      | None => None
      end
  | None => None
  end.

(** Months that a nanosecond timestamp can hold: October 1677 to April
    2262. *)
Definition in_bounds (n : Z) : bool :=
  ((12 * 1677 + 9 <=? n) && (n <=? 12 * 2262 + 3))%Z.

(** The strings that pandas reads as a missing value. *)
Definition nat_strings : list str :=
  [ "NaT"; "nat"; "NAT"; "nan"; "NaN"; "NAN" ].

(** [pd.to_datetime] on one value of the column. *)
Definition to_datetime_one (f : date_format) (c : cell) : result timestamp :=
  match c with
  | None => Ret NaT
  | Some s =>
      if is_empty s || in_list s nat_strings then Ret NaT
      else match strptime f s with
           | Some n => if in_bounds n then Ret (MonthStart n)
                       else Raise ValueError
           | None => Raise ValueError
           end
  end.

(** [pd.to_datetime(column, format=f)] *)
Fixpoint to_datetime (f : date_format) (col : list cell)
  : result (list timestamp) :=
  match col with
  | [] => Ret []
  | c :: rest =>
      match to_datetime_one f c with
      | Raise e => Raise e
      | Ret t =>
          match to_datetime f rest with
          | Raise e => Raise e
          | Ret ts => Ret (t :: ts)
          end
      end
  end.

(** [column.astype(str).str.contains('-').any()] *)
Definition any_contains_dash (col : list cell) : bool :=
  existsb (fun c => match c with
                    | Some s => has_char "-" s
                    | None => false
                    end) col.

(** The order of [sort_values]: ascending, missing values last. *)
Definition ts_leb (a b : timestamp) : bool :=
  match a, b with
  | MonthStart x, MonthStart y => (x <=? y)%Z
  | MonthStart _, NaT => true
  | NaT, MonthStart _ => false
  | NaT, NaT => true
  end.


Fixpoint insert_sorted (t : timestamp) (l : list timestamp) : list timestamp :=
  match l with
  | [] => [t]
  | u :: rest => if ts_leb t u then t :: l else u :: insert_sorted t rest
  end.

(** [sort_values], a stable sort. *)
Definition sort_values (l : list timestamp) : list timestamp :=
  fold_right insert_sorted [] l.

(** [pd.date_range(start, end, freq='MS')] between two month starts. *)
Definition date_range (a b : Z) : list Z :=
  map (fun i => (a + Z.of_nat i)%Z) (seq 0 (Z.to_nat (b - a + 1))).

(** [p in existing_periods] *)
Definition ts_mem (n : Z) (l : list timestamp) : bool :=
  existsb (fun t => match t with
                    | MonthStart m => (n =? m)%Z
                    | NaT => false
                    end) l.

(** [strftime('%Y-%m')] *)
Definition strftime_Y_m (n : Z) : str :=
  String.append (Weeks.str_of_Z (n / 12))
    (String.append "-" (Weeks.pad2 (n mod 12 + 1))).

Record gap_report := mkGap {
  missing_periods : list str;
  start_period : str;
  end_period : str;
  n_missing : nat
}.

Definition get_missing_periods_json (col : list cell) : result gap_report :=
  let f := if any_contains_dash col then Y_dash_m else Ym in
  match to_datetime f col with
  | Raise e => Raise e
  | Ret dts =>
      let df_sorted := sort_values dts in
      match df_sorted with
      | [] => Raise IndexError
      | first :: _ =>
          match first, last df_sorted NaT with
          | MonthStart a, MonthStart b =>
              let all_periods := date_range a b in
              let missing :=
                filter (fun p => negb (ts_mem p df_sorted)) all_periods in
              Ret {| missing_periods := map strftime_Y_m missing;
                     start_period := strftime_Y_m a;
                     end_period := strftime_Y_m b;
                     n_missing := List.length missing |}
          | _, _ => Raise ValueError
          end
      end
  end.

(* ----------------------------------------------------------------- *)
(** *** Rows and tables of the payments schema *)

Definition expected_headers : list str :=
  map latin1
    [ "Identificación Aportante"; "Nombre o Razón Social"; "RA"; "Período";
      "Fecha De Pago"; "Referencia de Pago"; "IBC Reportado";
      "Cotización Pagada"; "Cotización Mora Sin Intereses"; "Nov.";
      "Días Rep."; "Días Cot."; "Observación" ].

Definition header_patterns : list str :=
  map latin1
    [ "[34] Identificación Aportante"; "[35] Nombre o Razón Social";
      "[36] RA"; "[37] Período"; "[38] Fecha De Pago";
      "[39] Referencia de Pago"; "[40] IBC Reportado";
      "[41] Cotización Pagada"; "[42] Cotización Mora Sin Intereses";
      "[43] Nov."; "[44] Días Rep."; "[45] Días Cot."; "[46] Observación" ].

(** The tags [[34]] to [[46]]: the list written out in the source, and the
    strings [f'[{num}]'] for [num] in [range(34, 47)]. *)
Definition numbered_tags : list str :=
  [ "[34]"; "[35]"; "[36]"; "[37]"; "[38]"; "[39]"; "[40]"; "[41]"; "[42]";
    "[43]"; "[44]"; "[45]"; "[46]" ].

Definition total_indicators : list str :=
  [ "total"; "suma"; "resumen"; "subtotal"; "gran total" ].

Definition header_indicators : list str :=
  map latin1
    [ "[34] identificación"; "[35] nombre"; "[36] ra"; "[37] período";
      "[38] fecha"; "[39] referencia"; "[40] ibc"; "[41] cotización";
      "[42] mora"; "[43] nov"; "[44] días rep"; "[45] días cot";
      "[46] observación"; "identificación aportante";
      "identificacion aportante"; "identificación empleador";
      "identificacion empleador"; "nombre o razón"; "nombre o razon";
      "período"; "periodo"; "fecha de pago"; "ibc reportado"; "días rep";
      "dias rep"; "días cot"; "dias cot" ].

(** Some header indicator occurs in [s]. *)
Definition has_header_indicator (s : str) : bool :=
  existsb (fun indicator => contains indicator s) header_indicators.

(** [[part.strip().lower() for part in s.split('\n')]] *)
Definition line_parts (s : str) : list str :=
  map (fun part => lower (strip part)) (split Weeks.newline s).

(** The test of the loop over all the cells: a cell with a line break, one
    of whose parts holds a numbered tag and a header indicator. *)
Definition numbered_header_cell (c : cell) : bool :=
  match c with
  | Some raw =>
      truthy raw && has_char Weeks.newline raw
      && existsb
           (fun part =>
              existsb (fun tag => contains tag part) numbered_tags
              && has_header_indicator part)
           (line_parts (lower (strip raw)))
  | None => false
  end.

(** The counter [header_count] over the first three cells. *)
Definition header_count (r : row) : nat :=
  List.length
    (filter (fun c => match c with
                      | Some raw =>
                          truthy raw && has_header_indicator (lower (strip raw))
                      | None => false
                      end) (firstn 3 r)).

(** The counter [none_count]. *)
Definition none_count (r : row) : nat :=
  List.length
    (filter (fun c => match c with
                      | None => true
                      | Some raw =>
                          in_list (strip raw) [""; "None"; "NaN"; "nan"]
                      end) r).

Definition is_data_row (r : row) : bool :=
  if List.length r <? 3 then false else
  let first_cell := cell_text (nth_cell r 0) in
  if existsb (fun indicator => contains indicator (lower first_cell))
       total_indicators then false else
  let first_cell_lower := lower first_cell in
  if has_header_indicator first_cell_lower then false else
  if has_char Weeks.newline first_cell
     && existsb has_header_indicator (line_parts first_cell) then false else
  if existsb numbered_header_cell r then false else
  if 2 <=? header_count r then false else
  if (1 <? List.length r) && is_empty first_cell && cell_truthy (nth_cell r 1)
     && has_header_indicator (lower (cell_text (nth_cell r 1))) then false else
  if (3 <=? none_count r) && (1 <=? header_count r) then false else
  if is_empty first_cell then false else
  if isdigit first_cell && (6 <=? len first_cell) then true else
  if isalnum (replace "." "" (replace "-" "" (replace " " "" first_cell)))
     && (6 <=? len first_cell) then true else
  if (2 <=? List.length r) && isdigit first_cell && (6 <=? len first_cell)
     && (let second_cell := cell_text (nth_cell r 1) in
         truthy second_cell && negb (all_str (fun ch => negb (isalpha_char ch))
                                       second_cell)
         && has_char " " second_cell)
  then true
  else true.

(** The count of expected headers that some header matches, as
    [find_table_with_headers] and the second method of the page loop
    compute it. *)
Fixpoint expected_loop (matches : nat) (expected : list str)
  (headers : list str) : nat :=
  match expected with
  | [] => matches
  | e :: rest =>
      expected_loop
        (if existsb (fun header => contains (lower e) (lower header)
                                   || contains (lower header) (lower e))
              headers
         then matches + 1 else matches)
        rest headers
  end.

Fixpoint find_table_with_headers (tables : list table) : option table :=
  match tables with
  | [] => None
  | t :: rest =>
      if List.length t <? 2 then find_table_with_headers rest
      else
        let headers := Weeks.headers_of t in
        if List.length headers =? 13 then
          if 8 <=? expected_loop 0 expected_headers headers then Some t
          else find_table_with_headers rest
        else find_table_with_headers rest
  end.

(* ----------------------------------------------------------------- *)
(** *** The page loop of [extract_post1995_payments_from_pdf] *)

(** The first word fragment at the front of [s] and the words after it. *)
Fixpoint words_from (s : str) : str * list str :=
  match s with
  | EmptyString => (EmptyString, [])
  | String c r =>
      let (w, ws) := words_from r in
      if isspace c then (EmptyString, if is_empty w then ws else w :: ws)
      else (String c w, ws)
  end.

(** [s.split()]: the words between runs of white space. *)
Definition split_ws (s : str) : list str :=
  let (w, ws) := words_from s in
  if is_empty w then ws else w :: ws.

(** [' '.join(l)] *)
Definition join_space (l : list str) : str := String.concat " " l.

(** The first method: the count of headers that hold a word of the
    pattern of their column, the numbered tag apart.  The loop of the
    source runs over the headers and guards with [i < len(header_patterns)],
    which pairs each header with the pattern of its index. *)
Definition numbered_matches (headers : list str) : nat :=
  List.length
    (filter
       (fun hp : str * str =>
          let (header, pattern) := hp in
          let expected_pattern := lower pattern in
          let header_lower := lower header in
          existsb (fun part => contains part header_lower)
            (filter (fun part => negb (in_list part numbered_tags))
               (split_ws expected_pattern)))
       (combine headers header_patterns)).

Definition payments_keywords : list str :=
  map latin1
    [ "pago"; "ibc"; "días"; "período"; "fecha"; "detalle"; "posterior";
      "efectuados" ].

Definition payments_titles : list str :=
  [ "detalle de pagos"; "pagos efectuados"; "posterior a 1995" ].

(** The four methods, tried in order until one accepts. *)
Definition is_payments_table (headers : list str) : bool :=
  ((List.length headers =? 13) && (8 <=? numbered_matches headers))
  || ((List.length headers =? 13)
      && (8 <=? expected_loop 0 expected_headers headers))
  || (let header_text := lower (join_space headers) in
      4 <=? List.length
              (filter (fun kw => contains kw header_text) payments_keywords))
  || (let header_text := lower (join_space headers) in
      existsb (fun title => contains title header_text) payments_titles).

(** [for row in table[start_row:]]; an exception of [clean_row_data]
    leaves the loop and the function. *)
Fixpoint rows_loop (acc : list payment_record) (rows : list row)
  : result (list payment_record) :=
  match rows with
  | [] => Ret acc
  | r :: rest =>
      if Weeks.row_not_empty r then
        if is_data_row r then
          match clean_row_data r with
          | Raise e => Raise e
          | Ret (Some cleaned_row) => rows_loop (acc ++ [cleaned_row]) rest
          | Ret None => rows_loop acc rest
          end
        else rows_loop acc rest
      else rows_loop acc rest
  end.

(** The local variables of the function that live across pages. *)
Record session := mkSession {
  all_rows : list payment_record;
  table_found : bool;
  headers_processed : bool
}.

Definition initial_session : session :=
  {| all_rows := []; table_found := false; headers_processed := false |}.

(** [for table in tables], up to the [break] after the first payments
    table. *)
Fixpoint tables_loop (s : session) (tables : list table) : result session :=
  match tables with
  | [] => Ret s
  | t :: rest =>
      if List.length t <? 2 then tables_loop s rest
      else if is_payments_table (Weeks.headers_of t) then
        let start_row := if headers_processed s then 0 else 1 in
        match rows_loop (all_rows s) (skipn start_row t) with
        | Raise e => Raise e
        | Ret rows =>
            Ret {| all_rows := rows; table_found := true;
                   headers_processed := true |}
        end
      else tables_loop s rest
  end.

(** [for page_num, page in enumerate(pdf.pages)]: every page is read. *)
Fixpoint pages_loop (s : session) (pages : list page) : result session :=
  match pages with
  | [] => Ret s
  | p :: rest =>
      match tables_loop s (extract_tables p) with
      | Raise e => Raise e
      | Ret s' => pages_loop s' rest
      end
  end.

(** The records of the data frame, in order, or the exception that the
    function raises again. *)
Definition extract_post1995_payments_from_pdf (pages : list page)
  : result (list payment_record) :=
  match pages_loop initial_session pages with
  | Raise e => Raise e
  | Ret s => Ret (all_rows s)
  end.

End Payments.

(* ================================================================= *)
(** ** [ColpensionesUnifiedExtractor] *)

Module Unified.

(** [extract_all_from_pdf]: the weeks and the summary first, then the
    payments, on the same pages. *)
Definition extract_all_from_pdf (pages : list page)
  : result (list Weeks.week_record * Weeks.summary
            * list Payments.payment_record) :=
  let (weeks_df, summary_values) :=
    Weeks.extract_table_and_summary_from_pdf pages in
  match Payments.extract_post1995_payments_from_pdf pages with
  | Raise e => Raise e
  | Ret payments_df => Ret (weeks_df, summary_values, payments_df)
  end.

End Unified.

(* ================================================================= *)
(** ** Notions of the specification

    Definitions that follow the words of the specification, to be compared
    with the functions above. *)

Module Spec.

(** Symmetric partial containment of a header cell and an expected label,
    case-insensitively. *)
Definition symmetric_containment (label header : str) : bool :=
  contains (lower header) (lower label) || contains (lower label) (lower header).

(** The acceptance score: the number of expected labels that some header
    cell matches; a label counts once. *)
Definition acceptance_score (headers : list str) : nat :=
  List.length
    (filter (fun label => existsb (symmetric_containment label) headers)
       Weeks.expected_headers).

(** A cell that is missing, empty or made of white space only. *)
Definition blank_cell (c : cell) : Prop :=
  match c with
  | None => True
  | Some s => all_str isspace s = true
  end.

(** The page has a table that passes the schema match. *)
Definition has_matching_table (p : page) : bool :=
  existsb Weeks.table_matches (extract_tables p).

(** The pages that the run of the weeks schema visits, each of which is
    mined for summary values: every page up to and including the first
    page without a matching table that comes after a page with one.
    [found] tells whether a matching table was met before. *)
Fixpoint mined_pages (found : bool) (pages : list page) : list page :=
  match pages with
  | [] => []
  | p :: rest =>
      if has_matching_table p then p :: mined_pages true rest
      else if found then [p]
      else p :: mined_pages false rest
  end.

(** Last value that is not null in a sequence of optional values. *)
Fixpoint last_non_null {A : Type} (l : list (option A)) : option A :=
  match l with
  | [] => None
  | o :: rest =>
      match last_non_null rest with
      | Some v => Some v
      | None => o
      end
  end.

(** The line of index [j], stripped, is not empty and [extract] reads on it
    the value [v], which [accept] keeps. *)
Definition line_yields (extract : str -> option float)
  (accept : float -> bool) (lines : list str) (j : nat) (v : float) : Prop :=
  truthy (strip (nth j lines EmptyString)) = true
  /\ extract (strip (nth j lines EmptyString)) = Some v
  /\ accept v = true.

(** A plausible primary total in the lines after the marker: not the tag
    26 of the marker and above 100. *)
Definition plausible_total (v : float) : bool :=
  Weeks.differs 26 v && Weeks.above_100 v.

(** A plausible day count: null or between 1 and 31. *)
Definition day_in_range (o : option Z) : Prop :=
  match o with
  | None => True
  | Some d => (1 <= d <= 31)%Z
  end.

End Spec.

(* ================================================================= *)
(** ** Sample inputs *)

Module Examples.

Definition cells (l : list string) : row := map (fun s => Some (latin1 s)) l.

(** The header row as the reports print it. *)
Definition numbered_header : row :=
  cells [ "[1] Identificación aportante"; "[2] Nombre o razón Social";
          "[3] Desde"; "[4] Hasta"; "[5] Último salario"; "[6] Semanas";
          "[7] Lic"; "[8] Sim"; "[9] Total" ].

(** A header row that the matcher accepts and whose first cell holds no
    header marker. *)
Definition plain_header : row :=
  cells [ "Aportante"; "Nombre"; "Desde"; "Hasta"; "Salario"; "Semanas";
          "Lic"; "Sim"; "Total" ].

Definition data_row : row :=
  cells [ "890326878"; "ACME"; "01/01/2000"; "31/12/2000"; "$ 1.235.000";
          "51,43"; "0,00"; "0,00"; "51,43" ].

Definition lines (l : list string) : str :=
  String.concat (String Weeks.newline EmptyString) l.

(** A page with a matching table and the text of an end of table. *)
Definition table_and_end_text : page :=
  {| extract_tables := [[numbered_header; data_row]];
     extract_text := Some "TOTAL SEMANAS COTIZADAS" |}.

Definition plain_page : page :=
  {| extract_tables := [[plain_header; data_row]]; extract_text := None |}.

Definition total_page (value : string) : page :=
  {| extract_tables := [];
     extract_text := Some (lines ["[26] TOTAL SEMANAS"; ""; value]) |}.

(** A payments row in the layout of thirteen columns whose day cells hold
    45. *)
Definition payment_row_45_days : row :=
  cells [ "16610898"; "ACME SA"; "X"; "199712"; "1998-01-05"; "ref";
          "$ 471.800"; "63.700"; "0"; ""; "45"; "45"; "" ].

(** A payments row of six cells. *)
Definition short_payment_row : row :=
  cells [ "16610898"; "ACME SA"; "199712"; "$ 471.800"; "30"; "28" ].

(** A page whose text is the given lines. *)
Definition text_page (l : list string) : page :=
  {| extract_tables := []; extract_text := Some (lines l) |}.

(** The column of periods of the example of the specification. *)
Definition periods_2020 : list cell :=
  [Some "2020-01"; Some "2020-03"; Some "2020-04"].

(** A page with a second table, and a page with neither table nor text. *)
Definition second_table_page : page :=
  {| extract_tables :=
       [[numbered_header;
         cells [ "800123456"; "BETA"; "01/01/2001"; "31/12/2001"; "$ 900.000";
                 "51,43"; "0,00"; "0,00"; "51,43" ]]];
     extract_text := None |}.

Definition empty_page : page :=
  {| extract_tables := []; extract_text := None |}.

(** A page with a payments table: the numbered header and two rows. *)
Definition payments_page : page :=
  {| extract_tables :=
       [[cells [ "[34] Identificación Aportante"; "[35] Nombre o Razón Social";
                 "[36] RA"; "[37] Período"; "[38] Fecha De Pago";
                 "[39] Referencia de Pago"; "[40] IBC Reportado";
                 "[41] Cotización Pagada";
                 "[42] Cotización Mora Sin Intereses"; "[43] Nov.";
                 "[44] Días Rep."; "[45] Días Cot."; "[46] Observación" ];
         payment_row_45_days;
         cells [ "TOTAL"; "x"; "y" ]]];
     extract_text := None |}.

(** The same page without accents, in ASCII. *)
Definition ascii_payments_page : page :=
  {| extract_tables :=
       [[cells [ "[34] Identificacion Aportante"; "[35] Nombre o Razon Social";
                 "[36] RA"; "[37] Periodo"; "[38] Fecha De Pago";
                 "[39] Referencia de Pago"; "[40] IBC Reportado";
                 "[41] Cotizacion Pagada";
                 "[42] Cotizacion Mora Sin Intereses"; "[43] Nov.";
                 "[44] Dias Rep."; "[45] Dias Cot."; "[46] Observacion" ];
         payment_row_45_days]];
     extract_text := None |}.

(** A row whose identifier is a single letter. *)
Definition one_letter_row : row := cells [ "x"; "ACME"; "1997" ].

(** A page with a titled table before the payments table. *)
Definition titled_page : page :=
  {| extract_tables :=
       [ cells [ "Detalle de pagos efectuados" ]; cells [ "nota" ] ]
       :: extract_tables payments_page;
     extract_text := None |}.

(** A row whose first cell holds 4301 digits, and a page with it under
    the header of the payments table. *)
Definition long_digit_row : row :=
  [ Some (string_of_list_ascii (repeat "1"%char (Z.to_nat 4301)));
    Some "ACME"; Some "x" ].

Definition long_digit_page : page :=
  {| extract_tables :=
       [[nth 0 (nth 0 (extract_tables ascii_payments_page) []) [];
         long_digit_row]];
     extract_text := None |}.

(** A row with a superscript two in a cell. *)
Definition superscript_row : row :=
  [ Some "16610898"; Some "ACME"; Some (latin1 "²") ].


End Examples.

(* ================================================================= *)
(** ** Notions used by the further properties *)

Module Inv.

(** A property that holds of the values a summary has. *)
Definition summary_all (P : float -> Prop) (sv : Weeks.summary) : Prop :=
  (forall v, Weeks.weeks_total_report sv = Some v -> P v)
  /\ (forall v, Weeks.weeks_high_risk sv = Some v -> P v).

(** Not below 0.01, in the sense of the comparison of the source. *)
Definition at_least_cent (v : float) : Prop :=
  PrimFloat.ltb v float_0_01 = false.

(** The string [x] occurs in the string [s]. *)
Definition occurs_in (x s : str) : Prop :=
  exists pre post, s = String.append pre (String.append x post).

(** A cell that holds nothing, or ASCII characters only and no more of
    them than [int] converts. *)
Definition short_ascii_cell (c : cell) : Prop :=
  match c with
  | Some s =>
      all_str (fun ch => ord ch <? 128) s
      && (Z.of_nat (len s) <=? int_max_str_digits)%Z = true
  | None => True
  end.

(** A canonical period: four decimal digits, a dash, and two decimal
    digits that are a month from 01 to 12. *)
Definition canonical_period (p : str) : Prop :=
  exists y m,
    p = String.append y (String.append "-" m)
    /\ len y = 4 /\ len m = 2
    /\ all_str isdecimal y = true /\ all_str isdecimal m = true
    /\ (1 <= digits_value 0 m <= 12)%Z.

(** The first matching table of every page that has one, in page order. *)
Fixpoint first_tables (pages : list page) : list table :=
  match pages with
  | [] => []
  | p :: rest =>
      match find Weeks.table_matches (extract_tables p) with
      | Some t => t :: first_tables rest
      | None => first_tables rest
      end
  end.

(** The rows of a sequence of tables read as one table: the first row of
    the first table is the header, every other row is kept. *)
Definition stitched_rows (tables : list table) : list row :=
  match tables with
  | [] => []
  | t :: rest => skipn 1 t ++ List.concat rest
  end.

(** The rows still to read from a sequence of tables, given whether the
    header was consumed before. *)
Definition pending_rows (headers_done : bool) (tables : list table)
  : list row :=
  if headers_done then List.concat tables else stitched_rows tables.

(** The identifier of a record that the weeks schema emits: at least two
    characters and none of the words that mark a total or a header. *)
Definition plausible_id (rec : Weeks.week_record) : Prop :=
  exists id,
    Weeks.cont_id rec = Some id
    /\ 2 <= len id
    /\ existsb (fun indicator => contains indicator (lower id))
         (Weeks.total_indicators ++ Weeks.header_indicators) = false.

(** The test of the payments page loop on a raw table: at least two rows
    and headers that one of the four methods accepts. *)
Definition payments_table (t : table) : bool :=
  negb (List.length t <? 2)
  && Payments.is_payments_table (Weeks.headers_of t).

(** The first payments table of every page that has one, in page order. *)
Fixpoint first_payment_tables (pages : list page) : list table :=
  match pages with
  | [] => []
  | p :: rest =>
      match find payments_table (extract_tables p) with
      | Some t => t :: first_payment_tables rest
      | None => first_payment_tables rest
      end
  end.

(** What the payments schema promises of a record it emits: an identifier
    that is not empty and holds no word of a total, a name that is not
    empty, a period that is null or canonical. *)
Definition payment_record_ok (rec : Payments.payment_record) : Prop :=
  (exists id,
      Payments.cont_id rec = Some id /\ truthy id = true
      /\ existsb (fun indicator => contains indicator (lower id))
           Payments.total_indicators = false)
  /\ (exists name, Payments.cont_name rec = Some name /\ truthy name = true)
  /\ match Payments.cont_period rec with
     | None => True
     | Some p => canonical_period p
     end.

(** A page whose table cells are all such cells. *)
Definition short_ascii_page (p : page) : Prop :=
  Forall (Forall (Forall short_ascii_cell)) (extract_tables p).

(** A string of [n] decimal digits whose value is [v]. *)
Definition digits_of (n : nat) (v : Z) (s : str) : Prop :=
  len s = n /\ all_str isdecimal s = true /\ digits_value 0 s = v.

Definition digits_ofb (n : nat) (v : Z) (s : str) : bool :=
  (len s =? n) && all_str isdecimal s && (digits_value 0 s =? v)%Z.

(** A cell in which no header indicator of the payments schema occurs,
    in any case of the letters. *)
Definition no_header_word (c : cell) : bool :=
  match c with
  | Some raw => negb (Payments.has_header_indicator (lower raw))
  | None => true
  end.

(** A canonical period that a nanosecond timestamp can hold: the year
    from 1678 to 2261. *)
Definition datable_period (p : str) : Prop :=
  exists y m,
    p = String.append y (String.append "-" m)
    /\ len y = 4 /\ len m = 2
    /\ all_str isdecimal y = true /\ all_str isdecimal m = true
    /\ (1 <= digits_value 0 m <= 12)%Z
    /\ (1678 <= digits_value 0 y <= 2261)%Z.

(** The ten decimal digits. *)
Definition decimal_digits : list ascii :=
  [ "0"; "1"; "2"; "3"; "4"; "5"; "6"; "7"; "8"; "9" ]%char.

(** The months of the years 1678 to 2261, counted from the year 0. *)
Definition year_months (k : Z) : Prop :=
  (12 * 1678 <= k <= 12 * 2261 + 11)%Z.

End Inv.

(* ================================================================= *)
(** * Properties *)

(** Two floats that a comparison tells apart are different. *)
Lemma float_neq_of_eqb (x y : float) :
  PrimFloat.eqb x x = true -> PrimFloat.eqb x y = false -> x <> y.
Proof.
  intros Hxx Hxy Heq. rewrite <- Heq in Hxy. rewrite Hxx in Hxy.
  discriminate.
Qed.

(* ----------------------------------------------------------------- *)
(** ** Currency strings *)

(** C1, at the example of the docstring of [clean_salary]: the comma is
    removed together with the currency sign and the spaces, before the
    separators are told apart, so the value of ["$ 1.235.000,50"] is
    123500050 and not 1235000.50. *)
Theorem clean_salary_loses_decimal_comma :
  Weeks.clean_salary (Some "$ 1.235.000,50") = Some 123500050%float
  /\ Weeks.clean_salary (Some "$ 1.000,50") = Some 100050%float
  /\ Weeks.clean_salary (Some "$ 500,50") = Some 50050%float
  /\ Weeks.clean_salary (Some "$ 1.235.000,50") <> Some 1235000.5%float.
Proof.
  assert (E : Weeks.clean_salary (Some "$ 1.235.000,50")
              = Some 123500050%float) by (vm_compute; reflexivity).
  split; [exact E|].
  split; [vm_compute; reflexivity|].
  split; [vm_compute; reflexivity|].
  rewrite E. intros H.
  apply (f_equal (fun o => match o with Some x => x | None => 0%float end))
    in H.
  revert H. apply float_neq_of_eqb; vm_compute; reflexivity.
Qed.

(* ----------------------------------------------------------------- *)
(** ** Periods *)

(** C4, at a string of seven digits: the pattern is matched at the start
    of the string and what follows the six digits is not looked at, so a
    period is returned for an input that is not six digits. *)
Theorem normalize_period_accepts_longer_input :
  Payments.normalize_period (Some "1997123") = Some "1997-12"
  /\ Payments.normalize_period (Some "199712abc") = Some "1997-12".
Proof. split; vm_compute; reflexivity. Qed.
(* ----------------------------------------------------------------- *)
(** ** Strings *)

Lemma contains_empty (s : str) : contains EmptyString s = true.
Proof. destruct s; reflexivity. Qed.

Lemma lstrip_all (p : ascii -> bool) (s : str) :
  all_str p s = true -> lstrip_with p s = EmptyString.
Proof.
  induction s as [|c r IH]; simpl; [reflexivity|].
  intros H. apply andb_true_iff in H as [Hc Hr]. rewrite Hc. auto.
Qed.

Lemma strip_blank (s : str) : all_str isspace s = true -> strip s = EmptyString.
Proof.
  intros H. unfold strip, strip_with. rewrite (lstrip_all _ _ H). reflexivity.
Qed.

Lemma cell_text_blank (c : cell) : Spec.blank_cell c -> cell_text c = EmptyString.
Proof.
  destruct c as [s|]; simpl; [|reflexivity].
  intros H. destruct (truthy s); [apply strip_blank; exact H | reflexivity].
Qed.

(* ----------------------------------------------------------------- *)
(** ** The schema matcher *)

Section HeaderMatching.

Import Weeks.

Lemma header_loop_existsb (e : str) (headers : list str) :
  header_loop (lower e) headers
  = existsb (Spec.symmetric_containment e) headers.
Proof.
  induction headers as [|h hs IH]; simpl; [reflexivity|].
  unfold Spec.symmetric_containment at 1.
  rewrite (orb_comm (contains (lower h) (lower e))).
  destruct (contains (lower e) (lower h) || contains (lower h) (lower e));
    simpl; [reflexivity | exact IH].
Qed.

Lemma expected_loop_count (headers expected : list str) (matches : nat) :
  expected_loop matches expected headers
  = matches
    + List.length
        (filter (fun label => existsb (Spec.symmetric_containment label) headers)
           expected).
Proof.
  revert matches.
  induction expected as [|e es IH]; intros matches; simpl; [lia|].
  rewrite IH, header_loop_existsb.
  destruct (existsb (Spec.symmetric_containment e) headers); simpl; lia.
Qed.

Lemma count_header_matches_score (headers : list str) :
  _count_header_matches headers = Spec.acceptance_score headers.
Proof. unfold _count_header_matches. rewrite expected_loop_count. reflexivity. Qed.

Lemma find_table_with_headers_find (tables : list table) :
  find_table_with_headers tables = find table_matches tables.
Proof.
  induction tables as [|t rest IH]; [reflexivity|].
  cbn [find_table_with_headers find]. unfold table_matches.
  destruct (List.length t <? 2); [exact IH|].
  destruct (List.length (headers_of t) =? 9); [|exact IH].
  destruct (6 <=? _count_header_matches (headers_of t)); [reflexivity|exact IH].
Qed.

Lemma table_matches_iff (t : table) :
  table_matches t = true
  <-> 2 <= List.length t
      /\ List.length (hd [] t) = 9
      /\ 6 <= Spec.acceptance_score (headers_of t).
Proof.
  unfold table_matches. rewrite count_header_matches_score.
  assert (L : List.length (headers_of t) = List.length (hd [] t)).
  { destruct t; simpl; [reflexivity | apply length_map]. }
  rewrite L.
  destruct (Nat.ltb_spec (List.length t) 2) as [Hlt|Hge].
  - split; [discriminate | intros [H _]; lia].
  - destruct (Nat.eqb_spec (List.length (hd [] t)) 9) as [H9|H9].
    + rewrite Nat.leb_le. tauto.
    + split; [discriminate | tauto].
Qed.

End HeaderMatching.


(** C10: a raw table of at least two rows whose first row is nine blank
    cells (missing, empty or white space) scores nine and is accepted. *)
Theorem blank_header_row_is_accepted (r : row) (rest : list row) :
  rest <> [] ->
  List.length r = 9 ->
  Forall Spec.blank_cell r ->
  Weeks._count_header_matches (Weeks.headers_of (r :: rest)) = 9
  /\ Weeks.find_table_with_headers [r :: rest] = Some (r :: rest).
Proof.
  intros Hrest Hlen Hblank.
  assert (Hscore : Weeks._count_header_matches (Weeks.headers_of (r :: rest)) = 9).
  { rewrite count_header_matches_score. unfold Spec.acceptance_score.
    destruct r as [|c r']; [discriminate|]. simpl Weeks.headers_of.
    inversion Hblank as [|? ? Hc _]; subst.
    rewrite (cell_text_blank c Hc).
    rewrite forallb_filter_id; [reflexivity|].
    apply forallb_forall. intros label _. simpl.
    unfold Spec.symmetric_containment. simpl lower at 1.
    rewrite contains_empty. reflexivity. }
  split; [exact Hscore|].
  rewrite find_table_with_headers_find. cbn [find].
  replace (Weeks.table_matches (r :: rest)) with true; [reflexivity|].
  symmetry. apply table_matches_iff. repeat split.
  - destruct rest; [congruence | simpl; lia].
  - exact Hlen.
  - rewrite <- count_header_matches_score, Hscore. lia.
Qed.

Lemma blank_header_row_is_accepted_witness :
  Weeks._count_header_matches
    (Weeks.headers_of
       ([None; Some ""; Some "  "; None; None; Some ""; None; None; None]
          :: [[Some "890326878"]])) = 9
  /\ Weeks.find_table_with_headers
       [[None; Some ""; Some "  "; None; None; Some ""; None; None; None]
          :: [[Some "890326878"]]]
     = Some ([None; Some ""; Some "  "; None; None; Some ""; None; None; None]
               :: [[Some "890326878"]]).
Proof.
  apply blank_header_row_is_accepted.
  - discriminate.
  - reflexivity.
  - repeat constructor.
Defined.

(* ----------------------------------------------------------------- *)
(** ** The page loop of the weeks schema *)

Section PageLoop.

Import Weeks.

Lemma existsb_find (A : Type) (f : A -> bool) (l : list A) :
  existsb f l = match find f l with Some _ => true | None => false end.
Proof.
  induction l as [|x l IH]; simpl; [reflexivity|].
  destruct (f x); [reflexivity | exact IH].
Qed.

Lemma has_matching_table_find (p : page) (t : table) :
  find table_matches (extract_tables p) = Some t ->
  Spec.has_matching_table p = true.
Proof.
  intros H. unfold Spec.has_matching_table. rewrite existsb_find, H.
  reflexivity.
Qed.

Lemma check_for_table_end_valid_table (p : page) (cache : option (list table)) :
  existsb table_matches
    (match cache with None => extract_tables p | Some c => c end) = true ->
  check_for_table_end p cache = false.
Proof. intros H. unfold check_for_table_end. rewrite H. reflexivity. Qed.

Lemma tables_loop_found (p : page) (s : session) (tables : list table)
  (t : table) :
  find table_matches tables = Some t ->
  tables_loop p s tables
  = {| all_rows :=
         rows_loop (all_rows s) (skipn (if headers_processed s then 0 else 1) t);
       summary_values :=
         merge_summary (summary_values s) (extract_summary_values p);
       table_found := true;
       headers_processed := true |}.
Proof.
  induction tables as [|u rest IH]; simpl; [discriminate|].
  destruct (table_matches u); [|exact IH].
  intros H. injection H as ->. reflexivity.
Qed.

Lemma page_step_matching (s : session) (p : page) (t : table) :
  find table_matches (extract_tables p) = Some t ->
  page_step s p
  = ({| all_rows :=
          rows_loop (all_rows s)
            (skipn (if headers_processed s then 0 else 1) t);
        summary_values :=
          merge_summary (summary_values s) (extract_summary_values p);
        table_found := true;
        headers_processed := true |}, Continue).
Proof.
  intros H. unfold page_step.
  pose proof (has_matching_table_find p t H) as Hm.
  unfold Spec.has_matching_table in Hm.
  unfold _has_table_headers_cached. rewrite Hm. cbn [negb].
  rewrite (check_for_table_end_valid_table p (Some (extract_tables p)) Hm).
  rewrite (tables_loop_found p s _ t H). reflexivity.
Qed.

Lemma page_step_no_table (s : session) (p : page) :
  Spec.has_matching_table p = false ->
  page_step s p
  = (with_summary s
       (merge_summary (summary_values s) (extract_summary_values p)),
     if table_found s then Break else Continue).
Proof.
  intros H. unfold page_step, _has_table_headers_cached.
  unfold Spec.has_matching_table in H. rewrite H. reflexivity.
Qed.

(** Either a page has a first matching table or it has none. *)
Lemma matching_table_cases (p : page) :
  (exists t, find table_matches (extract_tables p) = Some t)
  \/ Spec.has_matching_table p = false.
Proof.
  unfold Spec.has_matching_table. rewrite existsb_find.
  destruct (find table_matches (extract_tables p)) as [t|];
    [left; exists t; reflexivity | right; reflexivity].
Qed.





Lemma page_step_summary (s : session) (p : page) :
  summary_values (fst (page_step s p))
  = merge_summary (summary_values s) (extract_summary_values p).
Proof.
  destruct (matching_table_cases p) as [[t Ht]|Hn].
  - rewrite (page_step_matching s p t Ht). reflexivity.
  - rewrite (page_step_no_table s p Hn). reflexivity.
Qed.

Lemma pages_loop_summary (pages : list page) (s : session) :
  summary_values (pages_loop s pages)
  = fold_left merge_summary
      (map extract_summary_values (Spec.mined_pages (table_found s) pages))
      (summary_values s).
Proof.
  revert s. induction pages as [|p rest IH]; intros s; simpl; [reflexivity|].
  destruct (matching_table_cases p) as [[t Ht]|Hn].
  - rewrite (page_step_matching s p t Ht), (has_matching_table_find p t Ht).
    rewrite IH. reflexivity.
  - rewrite (page_step_no_table s p Hn), Hn.
    destruct (table_found s) eqn:Hf; simpl; [reflexivity|].
    rewrite IH. simpl. rewrite Hf. reflexivity.
Qed.

Lemma fold_merge_total (l : list summary) (init : summary) :
  weeks_total_report (fold_left merge_summary l init)
  = match Spec.last_non_null (map weeks_total_report l) with
    | Some v => Some v
    | None => weeks_total_report init
    end.
Proof.
  revert init. induction l as [|x l IH]; intros init; simpl; [reflexivity|].
  rewrite IH. simpl.
  destruct (Spec.last_non_null (map weeks_total_report l)); [reflexivity|].
  destruct (weeks_total_report x); reflexivity.
Qed.

Lemma fold_merge_high_risk (l : list summary) (init : summary) :
  weeks_high_risk (fold_left merge_summary l init)
  = match Spec.last_non_null (map weeks_high_risk l) with
    | Some v => Some v
    | None => weeks_high_risk init
    end.
Proof.
  revert init. induction l as [|x l IH]; intros init; simpl; [reflexivity|].
  rewrite IH. simpl.
  destruct (Spec.last_non_null (map weeks_high_risk l)); [reflexivity|].
  destruct (weeks_high_risk x); reflexivity.
Qed.

Lemma last_non_null_app (A : Type) (l : list (option A)) (o : option A) :
  Spec.last_non_null (l ++ [o])
  = match o with Some v => Some v | None => Spec.last_non_null l end.
Proof.
  induction l as [|x l IH]; simpl; [destruct o; reflexivity|].
  rewrite IH. destruct o; [reflexivity|].
  destruct (Spec.last_non_null l); reflexivity.
Qed.

End PageLoop.






(** C8, amended: each field of the summary that the run returns is the
    last value that is not null among the values mined from the pages the
    run visits, in page order: among these a later value replaces an
    earlier one and a null leaves it as it was.  The pages visited are
    [Spec.mined_pages]: every page up to and including the first page
    without a matching table that comes after a page with one; the pages
    after it are not read. *)
Theorem summary_is_last_non_null (pages : list page)
  (earlier : list (option float)) (v : float) :
  let mined :=
    map Weeks.extract_summary_values (Spec.mined_pages false pages) in
  Weeks.weeks_total_report (snd (Weeks.extract_table_and_summary_from_pdf pages))
  = Spec.last_non_null (map Weeks.weeks_total_report mined)
  /\ Weeks.weeks_high_risk (snd (Weeks.extract_table_and_summary_from_pdf pages))
     = Spec.last_non_null (map Weeks.weeks_high_risk mined)
  /\ Spec.last_non_null (earlier ++ [Some v]) = Some v
  /\ Spec.last_non_null (earlier ++ [None]) = Spec.last_non_null earlier.
Proof.
  intros mined. unfold Weeks.extract_table_and_summary_from_pdf. cbn [snd].
  rewrite (pages_loop_summary pages Weeks.initial_session).
  cbn [Weeks.table_found Weeks.summary_values Weeks.initial_session].
  fold mined. rewrite fold_merge_total, fold_merge_high_risk.
  split; [destruct (Spec.last_non_null _); reflexivity|].
  split; [destruct (Spec.last_non_null (map Weeks.weeks_high_risk mined));
          reflexivity|].
  split; apply last_non_null_app.
Qed.

(** The example of the specification: 1193,00 two lines under the marker
    on one page, 1250,00 under the same marker on a later page. *)
Example summary_overwritten_by_later_page :
  snd (Weeks.extract_table_and_summary_from_pdf [Examples.total_page "1193,00"])
  = {| Weeks.weeks_total_report := Some 1193%float;
       Weeks.weeks_high_risk := None |}
  /\ snd (Weeks.extract_table_and_summary_from_pdf
            [Examples.total_page "1193,00"; Examples.total_page "1250,00"])
     = {| Weeks.weeks_total_report := Some 1250%float;
          Weeks.weeks_high_risk := None |}.
Proof. split; vm_compute; reflexivity. Qed.

(** C8 as stated fails over the pages of the document: after a page with
    the table, the page with 1193,00 has no table and ends the run, so the
    value 1250,00 of the page after it does not replace 1193,00. *)
Lemma summary_after_stop_counterexample :
  map (fun p => Weeks.weeks_total_report (Weeks.extract_summary_values p))
    [Examples.plain_page; Examples.total_page "1193,00";
     Examples.total_page "1250,00"]
  = [None; Some 1193%float; Some 1250%float]
  /\ Weeks.weeks_total_report
       (snd (Weeks.extract_table_and_summary_from_pdf
               [Examples.plain_page; Examples.total_page "1193,00";
                Examples.total_page "1250,00"]))
     = Some 1193%float
  /\ Spec.mined_pages false
       [Examples.plain_page; Examples.total_page "1193,00";
        Examples.total_page "1250,00"]
     = [Examples.plain_page; Examples.total_page "1193,00"].
Proof. repeat split; vm_compute; reflexivity. Qed.

(* ----------------------------------------------------------------- *)
(** ** Payment records *)

Section PaymentRecords.

Import Payments.

Lemma isdigit_char_not_space (c : ascii) :
  isdigit_char c = true -> isspace c = false.
Proof.
  destruct c as [[] [] [] [] [] [] [] []]; vm_compute; congruence.
Qed.

Lemma rstrip_no_space (s : str) :
  all_str (fun c => negb (isspace c)) s = true -> rstrip_with isspace s = s.
Proof.
  induction s as [|c r IH]; simpl; [reflexivity|].
  intros H. apply andb_true_iff in H as [Hc Hr].
  rewrite (IH Hr). apply negb_true_iff in Hc. rewrite Hc, andb_false_r.
  reflexivity.
Qed.

Lemma strip_digits (s : str) : all_str isdigit_char s = true -> strip s = s.
Proof.
  intros H. unfold strip, strip_with.
  assert (Hn : all_str (fun c => negb (isspace c)) s = true).
  { induction s as [|c r IH]; simpl in *; [reflexivity|].
    apply andb_true_iff in H as [Hc Hr].
    rewrite (isdigit_char_not_space c Hc). simpl. auto. }
  assert (Hl : lstrip_with isspace s = s).
  { destruct s as [|c r]; simpl in *; [reflexivity|].
    apply andb_true_iff in Hn as [Hc _]. apply negb_true_iff in Hc.
    rewrite Hc. reflexivity. }
  rewrite Hl. apply rstrip_no_space. exact Hn.
Qed.

(** A cell that the fallback takes for a day count gives a day in range. *)
Lemma clean_days_value_sniffed (cs : str) (n : Z) :
  isdigit cs = true -> int_ cs = Some n -> (1 <= n <= 31)%Z ->
  Spec.day_in_range (clean_days_value (Some cs)).
Proof.
  intros Hd Hi Hn. unfold clean_days_value.
  destruct (blank_or_in (Some cs) _); [exact I|].
  unfold isdigit in Hd. apply andb_true_iff in Hd as [_ Hd].
  rewrite (strip_digits cs Hd), Hi. exact Hn.
Qed.

Lemma sniff_days_invariant (cells : row) (k : nat) (rep cot rep' cot' : option Z) :
  sniff_days k rep cot cells = Ret (rep', cot') ->
  (rep' = rep \/ Spec.day_in_range rep') /\ (cot' = cot \/ Spec.day_in_range cot').
Proof.
  revert k rep cot.
  induction cells as [|c rest IH]; intros k rep cot; simpl.
  - intros H. injection H as <- <-. auto.
  - destruct (cell_has_text c); [|apply IH].
    destruct (isdigit (cell_str c)) eqn:Hd; [|apply IH].
    destruct (int_ (cell_str c)) as [n|] eqn:Hi; [|discriminate].
    destruct ((1 <=? n)%Z && (n <=? 31)%Z) eqn:Hn; [|apply IH].
    assert (Hr : Spec.day_in_range (clean_days_value (Some (cell_str c)))).
    { apply (clean_days_value_sniffed _ n Hd Hi). lia. }
    destruct (k =? 0).
    + intros H. apply IH in H as [[->|H1] H2]; auto.
    + destruct (k =? 1); [|apply IH].
      intros H. injection H as <- <-. auto.
Qed.

Lemma cell_strip_or_none_truthy (c : cell) (x : str) :
  cell_strip_or_none c = Some x -> cell_text c = x.
Proof.
  destruct c as [s|]; simpl; [|discriminate].
  destruct (truthy s); [congruence | discriminate].
Qed.

Lemma opt_str_truthy_some (o : option str) :
  opt_str_truthy o = true -> exists x, o = Some x /\ truthy x = true.
Proof.
  destruct o as [x|]; simpl; [|discriminate]. intros H. exists x. auto.
Qed.

End PaymentRecords.

(** C2, amended: a record is returned only for a row whose first two cells
    are not empty once stripped, and they are its identifier and its name;
    each of its two day fields is null, or an integer from 1 to 31, or, in
    a row of thirteen cells or more, the integer that cell 10 (reported
    days) or cell 11 (contributed days) holds, which is taken without a
    check of its range. *)
Theorem payment_record_invariant (r : row) (rec : Payments.payment_record) :
  Payments.clean_row_data r = Ret (Some rec) ->
  (Payments.cont_id rec = Some (cell_text (nth_cell r 0))
   /\ truthy (cell_text (nth_cell r 0)) = true)
  /\ (Payments.cont_name rec = Some (cell_text (nth_cell r 1))
      /\ truthy (cell_text (nth_cell r 1)) = true)
  /\ (Spec.day_in_range (Payments.cont_reported_days rec)
      \/ (13 <= List.length r
          /\ Payments.cont_reported_days rec
             = Payments.clean_days_value (nth_cell r 10)))
  /\ (Spec.day_in_range (Payments.cont_contributed_days rec)
      \/ (13 <= List.length r
          /\ Payments.cont_contributed_days rec
             = Payments.clean_days_value (nth_cell r 11))).
Proof.
  unfold Payments.clean_row_data.
  destruct (List.length r <? 3); [discriminate|].
  set (positional := 13 <=? List.length r).
  set (rep0 := if positional then Payments.clean_days_value (nth_cell r 10)
               else None).
  set (cot0 := if positional then Payments.clean_days_value (nth_cell r 11)
               else None).
  assert (Hpos : forall (o : option Z) (x : option Z),
            o = (if positional then x else None) ->
            Spec.day_in_range o \/ (13 <= List.length r /\ o = x)).
  { intros o x ->. unfold positional.
    destruct (Nat.leb_spec 13 (List.length r)); [right; auto | left; exact I]. }
  assert (Hkeep : forall (o o0 x : option Z),
            o0 = (if positional then x else None) ->
            o = o0 \/ Spec.day_in_range o ->
            Spec.day_in_range o \/ (13 <= List.length r /\ o = x)).
  { intros o o0 x E [->|H]; [apply Hpos; exact E | left; exact H]. }
  match goal with
  | |- context [if ?b then Ret (rep0, cot0) else ?e] =>
      set (days := if b then Ret (rep0, cot0) else e)
  end.
  assert (Hdays : forall rep cot, days = Ret (rep, cot) ->
            (rep = rep0 \/ Spec.day_in_range rep)
            /\ (cot = cot0 \/ Spec.day_in_range cot)).
  { intros rep cot. unfold days.
    destruct (Payments.opt_int_truthy rep0 && Payments.opt_int_truthy cot0).
    - intros H. injection H as <- <-. auto.
    - apply sniff_days_invariant. }
  destruct days as [[rep cot]|e]; [|discriminate].
  destruct (Hdays rep cot eq_refl) as [Hrep Hcot].
  destruct (Payments.opt_str_truthy (cell_strip_or_none (nth_cell r 0))) eqn:Hid;
    [|discriminate].
  destruct (Payments.opt_str_truthy (cell_strip_or_none (nth_cell r 1))) eqn:Hname;
    [|discriminate].
  cbn [andb]. intros H. injection H as <-. cbn.
  apply opt_str_truthy_some in Hid as [i [Ei Ti]].
  apply opt_str_truthy_some in Hname as [n [En Tn]].
  rewrite Ei, En.
  rewrite (cell_strip_or_none_truthy _ _ Ei), (cell_strip_or_none_truthy _ _ En).
  repeat split; auto.
  - apply (Hkeep rep rep0 _ eq_refl Hrep).
  - apply (Hkeep cot cot0 _ eq_refl Hcot).
Qed.

Lemma payment_record_invariant_witness :
  (Some "16610898" = Some (cell_text (nth_cell Examples.short_payment_row 0))
   /\ truthy (cell_text (nth_cell Examples.short_payment_row 0)) = true)
  /\ (Some "ACME SA" = Some (cell_text (nth_cell Examples.short_payment_row 1))
      /\ truthy (cell_text (nth_cell Examples.short_payment_row 1)) = true)
  /\ (Spec.day_in_range (Some 30%Z)
      \/ (13 <= List.length Examples.short_payment_row
          /\ Some 30%Z
             = Payments.clean_days_value (nth_cell Examples.short_payment_row 10)))
  /\ (Spec.day_in_range (Some 28%Z)
      \/ (13 <= List.length Examples.short_payment_row
          /\ Some 28%Z
             = Payments.clean_days_value (nth_cell Examples.short_payment_row 11))).
Proof.
  apply (payment_record_invariant Examples.short_payment_row
           {| Payments.cont_id := Some "16610898";
              Payments.cont_name := Some "ACME SA";
              Payments.cont_period := Some "1997-12";
              Payments.cont_reported_ibc := Some 471800%float;
              Payments.cont_reported_days := Some 30%Z;
              Payments.cont_contributed_days := Some 28%Z |}).
  vm_compute. reflexivity.
Defined.

(** C2 as stated fails: in a row of thirteen cells the day cells are taken
    as they are, and 45 is outside 1..31. *)
Lemma payment_days_counterexample :
  exists rec,
    Payments.clean_row_data Examples.payment_row_45_days = Ret (Some rec)
    /\ Payments.cont_reported_days rec = Some 45%Z
    /\ Payments.cont_contributed_days rec = Some 45%Z
    /\ ~ Spec.day_in_range (Payments.cont_reported_days rec)
    /\ ~ Spec.day_in_range (Payments.cont_contributed_days rec).
Proof.
  eexists. split; [vm_compute; reflexivity|].
  cbn. repeat split; lia.
Qed.

(* ----------------------------------------------------------------- *)
(** ** Summary mining *)

Section SummaryMining.

Import Weeks.

Variable extract : str -> option float.
Variable accept : float -> bool.
Variable lines : list str.

(** The loop over the following lines returns the value of the first line
    of the range that yields one, and nothing when no line does. *)
Lemma lookahead_first (n a : nat) :
  match lookahead extract accept lines (seq a n) with
  | Some v =>
      exists j, a <= j < a + n
                /\ Spec.line_yields extract accept lines j v
                /\ forall j' w, a <= j' < j ->
                                ~ Spec.line_yields extract accept lines j' w
  | None =>
      forall j w, a <= j < a + n -> ~ Spec.line_yields extract accept lines j w
  end.
Proof.
  revert a. induction n as [|n IH]; intros a; [simpl; intros; lia|].
  cbn [seq lookahead].
  assert (Hskip : (forall w, ~ Spec.line_yields extract accept lines a w) ->
    match lookahead extract accept lines (seq (S a) n) with
    | Some v =>
        exists j, a <= j < a + S n
                  /\ Spec.line_yields extract accept lines j v
                  /\ forall j' w, a <= j' < j ->
                                  ~ Spec.line_yields extract accept lines j' w
    | None =>
        forall j w, a <= j < a + S n ->
                    ~ Spec.line_yields extract accept lines j w
    end).
  { intros Ha. specialize (IH (S a)).
    destruct (lookahead extract accept lines (seq (S a) n)) as [v|].
    - destruct IH as [j [Hj [Hy Hb]]]. exists j.
      split; [lia|]. split; [exact Hy|].
      intros j' w Hj'. destruct (Nat.eq_dec j' a) as [->|Hne];
        [apply Ha | apply Hb; lia].
    - intros j w Hj. destruct (Nat.eq_dec j a) as [->|Hne];
        [apply Ha | apply IH; lia]. }
  destruct (truthy (strip (nth a lines EmptyString))) eqn:Ht.
  - destruct (extract (strip (nth a lines EmptyString))) as [v|] eqn:He.
    + destruct (accept v) eqn:Ha.
      * exists a. split; [lia|]. split; [repeat split; assumption|].
        intros; lia.
      * apply Hskip. intros w [_ [Hw Hacc]]. congruence.
    + apply Hskip. intros w [_ [Hw _]]. congruence.
  - apply Hskip. intros w [Hw _]. congruence.
Qed.

End SummaryMining.

Lemma line_yields_in_text (extract : str -> option float)
  (accept : float -> bool) (lines : list str) (j : nat) (v : float) :
  Spec.line_yields extract accept lines j v -> j < List.length lines.
Proof.
  intros [Ht _]. destruct (Nat.lt_ge_cases j (List.length lines)) as [H|H];
    [exact H|].
  rewrite (nth_overflow lines EmptyString H) in Ht. discriminate.
Qed.

(** C3, amended: on a line that holds the marker [26] and the phrase total
    semanas, a value read on the line itself is accepted as soon as it is
    not 26, whatever its size; when the line gives no such value, the four
    lines that follow are scanned, the empty ones are passed over, and the
    first value that is not 26 and is above 100 is accepted; when no line
    gives one, the summary is left as it was. *)
Theorem primary_total_marker (lines : list str) (sv : Weeks.summary) (i : nat) :
  let line := strip (nth i lines EmptyString) in
  contains "[26]" line = true ->
  contains "total semanas" (lower line) = true ->
  (forall v, Weeks.extract_summary_numeric line = Some v ->
             Weeks.differs 26 v = true ->
             Weeks.line_step lines sv i = Weeks.set_total sv v)
  /\ ((forall v, Weeks.extract_summary_numeric line = Some v ->
                 Weeks.differs 26 v = false) ->
      (exists j v,
          i < j < i + 5
          /\ j < List.length lines
          /\ Spec.line_yields Weeks.extract_summary_numeric
               Spec.plausible_total lines j v
          /\ (forall j' w, i < j' < j ->
                ~ Spec.line_yields Weeks.extract_summary_numeric
                    Spec.plausible_total lines j' w)
          /\ Weeks.line_step lines sv i = Weeks.set_total sv v)
      \/ ((forall j w, i < j < i + 5 ->
             ~ Spec.line_yields Weeks.extract_summary_numeric
                 Spec.plausible_total lines j w)
          /\ Weeks.line_step lines sv i = sv)).
Proof.
  intros line Hm Hp. unfold Weeks.line_step. fold line. rewrite Hm, Hp.
  cbn [andb]. split.
  - intros v Hv Hd. rewrite Hv, Hd. reflexivity.
  - intros Hnone.
    assert (Hsame : match Weeks.extract_summary_numeric line with
                    | Some value =>
                        if Weeks.differs 26 value then Some value else None
                    | None => None
                    end = None).
    { destruct (Weeks.extract_summary_numeric line) as [v|]; [|reflexivity].
      rewrite (Hnone v eq_refl). reflexivity. }
    rewrite Hsame. unfold Weeks.range.
    pose proof (lookahead_first Weeks.extract_summary_numeric
                  Spec.plausible_total lines
                  (Nat.min (i + 5) (List.length lines) - (i + 1)) (i + 1))
      as Hl.
    change (fun value => Weeks.differs 26 value && Weeks.above_100 value)
      with Spec.plausible_total.
    destruct (Weeks.lookahead Weeks.extract_summary_numeric
                Spec.plausible_total lines _) as [v|].
    + left. destruct Hl as [j [Hj [Hy Hb]]]. exists j, v.
      split; [lia|]. split; [lia|]. split; [exact Hy|].
      split; [|reflexivity]. intros j' w Hj'. apply Hb. lia.
    + right. split; [|reflexivity]. intros j w Hj Hy.
      pose proof (line_yields_in_text _ _ _ _ _ Hy) as Hlen.
      apply (Hl j w); [lia | exact Hy].
Qed.

Lemma primary_total_marker_witness :
  let lines := ["[26] TOTAL SEMANAS"; ""; "1193,00"] in
  let line := strip (nth 0 lines EmptyString) in
  (forall v, Weeks.extract_summary_numeric line = Some v ->
             Weeks.differs 26 v = true ->
             Weeks.line_step lines Weeks.no_summary 0
             = Weeks.set_total Weeks.no_summary v)
  /\ ((forall v, Weeks.extract_summary_numeric line = Some v ->
                 Weeks.differs 26 v = false) ->
      (exists j v,
          0 < j < 0 + 5
          /\ j < List.length lines
          /\ Spec.line_yields Weeks.extract_summary_numeric
               Spec.plausible_total lines j v
          /\ (forall j' w, 0 < j' < j ->
                ~ Spec.line_yields Weeks.extract_summary_numeric
                    Spec.plausible_total lines j' w)
          /\ Weeks.line_step lines Weeks.no_summary 0
             = Weeks.set_total Weeks.no_summary v)
      \/ ((forall j w, 0 < j < 0 + 5 ->
             ~ Spec.line_yields Weeks.extract_summary_numeric
                 Spec.plausible_total lines j w)
          /\ Weeks.line_step lines Weeks.no_summary 0 = Weeks.no_summary)).
Proof.
  apply (primary_total_marker ["[26] TOTAL SEMANAS"; ""; "1193,00"]
           Weeks.no_summary 0).
  - vm_compute. reflexivity.
  - vm_compute. reflexivity.
Defined.

(** C3 as stated fails twice: a value of 50 on the line of the marker is
    accepted though it is not above 100; and a value on the first line
    that is not empty is not found when four empty lines come before
    it. *)
Lemma primary_total_counterexample :
  Weeks.weeks_total_report
    (Weeks.extract_summary_values
       (Examples.text_page ["[26] TOTAL SEMANAS 50,00"])) = Some 50%float
  /\ Weeks.above_100 50 = false
  /\ Weeks.weeks_total_report
       (Weeks.extract_summary_values
          (Examples.text_page ["[26] TOTAL SEMANAS"; ""; ""; ""; ""; "1193,00"]))
     = None
  /\ Weeks.weeks_total_report
       (Weeks.extract_summary_values
          (Examples.text_page ["[26] TOTAL SEMANAS"; ""; ""; ""; "1193,00"]))
     = Some 1193%float.
Proof. repeat split; vm_compute; reflexivity. Qed.

(* ----------------------------------------------------------------- *)
(** ** Missing periods *)

Section GapAnalyzer.

Import Payments.



Lemma insert_sorted_perm (t : timestamp) (l : list timestamp) :
  Permutation (insert_sorted t l) (t :: l).
Proof.
  induction l as [|u rest IH]; simpl; [apply Permutation_refl|].
  destruct (ts_leb t u); [apply Permutation_refl|].
  apply perm_trans with (u :: t :: rest);
    [apply perm_skip; exact IH | apply perm_swap].
Qed.


Lemma sort_values_perm (l : list timestamp) : Permutation (sort_values l) l.
Proof.
  induction l as [|t l IH]; simpl; [constructor|].
  eapply perm_trans; [apply insert_sorted_perm|]. apply perm_skip. exact IH.
Qed.


Lemma last_in (A : Type) (l : list A) (d : A) : l <> [] -> In (last l d) l.
Proof.
  induction l as [|x l IH]; [congruence|]. intros _.
  destruct l as [|y l']; [left; reflexivity|].
  right. apply IH. discriminate.
Qed.


Lemma to_datetime_all (f : date_format) (col : list cell) (ms : list Z) :
  Forall2 (fun c n => to_datetime_one f c = Ret (MonthStart n)) col ms ->
  to_datetime f col = Ret (map MonthStart ms).
Proof.
  induction 1 as [|c n col ms Hc _ IH]; simpl; [reflexivity|].
  rewrite Hc, IH. reflexivity.
Qed.


Lemma ts_mem_in (n : Z) (ms : list Z) (l : list timestamp) :
  Permutation l (map MonthStart ms) ->
  ts_mem n l = true <-> In n ms.
Proof.
  intros P. unfold ts_mem. rewrite existsb_exists. split.
  - intros [t [Hin Ht]]. apply (Permutation_in _ P) in Hin.
    apply in_map_iff in Hin as [m [<- Hm]]. apply Z.eqb_eq in Ht. congruence.
  - intros Hin. exists (MonthStart n). split; [|apply Z.eqb_refl].
    apply (Permutation_in _ (Permutation_sym P)). apply in_map. exact Hin.
Qed.

Lemma date_range_in (a b n : Z) : In n (date_range a b) <-> (a <= n <= b)%Z.
Proof.
  unfold date_range. rewrite in_map_iff. split.
  - intros [i [<- Hi]]. apply in_seq in Hi. lia.
  - intros H. exists (Z.to_nat (n - a)). split; [lia|]. apply in_seq. lia.
Qed.



End GapAnalyzer.



(** The example of the specification. *)
Example missing_periods_2020 :
  Payments.get_missing_periods_json Examples.periods_2020
  = Ret {| Payments.missing_periods := ["2020-02"];
           Payments.start_period := "2020-01";
           Payments.end_period := "2020-04";
           Payments.n_missing := 1 |}
  /\ Payments.get_missing_periods_json [] = Raise IndexError
  /\ Payments.get_missing_periods_json [Some "2020-01"; Some "2020-13"]
     = Raise ValueError
  /\ Payments.get_missing_periods_json [Some "2020-01"; None]
     = Raise ValueError.
Proof. repeat split; vm_compute; reflexivity. Qed.

(* ================================================================= *)
(** * Further properties *)

(* ----------------------------------------------------------------- *)
(** ** Digits and strings *)

Lemma append_assoc (a b c : str) :
  String.append (String.append a b) c = String.append a (String.append b c).
Proof. induction a as [|x a IH]; simpl; [reflexivity | rewrite IH; reflexivity]. Qed.

Lemma len_append (a b : str) : len (String.append a b) = len a + len b.
Proof. induction a as [|x a IH]; simpl; [reflexivity | unfold len in *; simpl; lia]. Qed.

Lemma all_str_append (p : ascii -> bool) (a b : str) :
  all_str p (String.append a b) = all_str p a && all_str p b.
Proof.
  induction a as [|x a IH]; simpl; [reflexivity|].
  rewrite IH, andb_assoc. reflexivity.
Qed.

Lemma digits_upto_spec (n : nat) (s a b : str) :
  Re.digits_upto n s = (a, b) ->
  s = String.append a b /\ all_str isdecimal a = true /\ len a <= n.
Proof.
  revert s a b. induction n as [|n IH]; intros s a b; simpl.
  - intros H. injection H as <- <-. simpl. auto.
  - destruct s as [|c r]; [intros H; injection H as <- <-; simpl; auto with arith|].
    destruct (isdecimal c) eqn:Hc.
    + destruct (Re.digits_upto n r) as [a' b'] eqn:E.
      intros H. injection H as <- <-.
      destruct (IH _ _ _ E) as [-> [Ha Hl]]. simpl. rewrite Hc, Ha.
      unfold len in *. simpl. repeat split; auto with arith.
    + intros H. injection H as <- <-. simpl. auto with arith.
Qed.

Lemma digits_exactly_spec (n : nat) (s a b : str) :
  Re.digits_exactly n s = Some (a, b) ->
  s = String.append a b /\ all_str isdecimal a = true /\ len a = n.
Proof.
  unfold Re.digits_exactly. destruct (Re.digits_upto n s) as [a' b'] eqn:E.
  destruct (Nat.eqb_spec (len a') n) as [Hl|]; [|discriminate].
  intros H. injection H as <- <-.
  destruct (digits_upto_spec _ _ _ _ E) as [-> [Ha _]]. auto.
Qed.

Lemma digits_upto_all (a b : str) :
  all_str isdecimal a = true ->
  Re.digits_upto (len a) (String.append a b) = (a, b).
Proof.
  induction a as [|c a IH]; simpl; [reflexivity|].
  intros H. apply andb_true_iff in H as [Hc Ha].
  change (len (String c a)) with (S (len a)). simpl. rewrite Hc.
  rewrite (IH Ha). reflexivity.
Qed.

Lemma digits_exactly_all (a b : str) :
  all_str isdecimal a = true ->
  Re.digits_exactly (len a) (String.append a b) = Some (a, b).
Proof.
  intros H. unfold Re.digits_exactly. rewrite (digits_upto_all a b H).
  rewrite Nat.eqb_refl. reflexivity.
Qed.

Lemma append_empty_r (a : str) : String.append a EmptyString = a.
Proof. induction a as [|c a IH]; simpl; [reflexivity | rewrite IH; reflexivity]. Qed.

(** Character facts, by inspection of the 256 code points. *)
Lemma isdecimal_char_facts (c : ascii) :
  isdecimal c = true ->
  isspace c = false /\ c_isspace c = false /\ to_ascii_space c = c
  /\ Ascii.eqb c "+" = false /\ Ascii.eqb c "-" = false
  /\ Ascii.eqb c "N" = false /\ Ascii.eqb c "_" = false
  /\ isdigit_char c = true.
Proof.
  destruct c as [[] [] [] [] [] [] [] []]; vm_compute; intros H;
    first [discriminate H | repeat split].
Qed.

Lemma lstrip_first (p : ascii -> bool) (c : ascii) (r : str) :
  p c = false -> lstrip_with p (String c r) = String c r.
Proof. intros H. simpl. rewrite H. reflexivity. Qed.

Lemma rstrip_none (p : ascii -> bool) (s : str) :
  all_str (fun c => negb (p c)) s = true -> rstrip_with p s = s.
Proof.
  induction s as [|c r IH]; simpl; [reflexivity|].
  intros H. apply andb_true_iff in H as [Hc Hr].
  rewrite (IH Hr). apply negb_true_iff in Hc. rewrite Hc, andb_false_r.
  reflexivity.
Qed.

Lemma strip_with_none (p : ascii -> bool) (s : str) :
  all_str (fun c => negb (p c)) s = true -> strip_with p s = s.
Proof.
  intros H. unfold strip_with.
  assert (Hl : lstrip_with p s = s).
  { destruct s as [|c r]; [reflexivity|]. simpl in H.
    apply andb_true_iff in H as [Hc _]. apply negb_true_iff in Hc.
    apply lstrip_first. exact Hc. }
  rewrite Hl. apply rstrip_none. exact H.
Qed.

Lemma all_str_impl (p q : ascii -> bool) (s : str) :
  (forall c, p c = true -> q c = true) ->
  all_str p s = true -> all_str q s = true.
Proof.
  intros Hpq. induction s as [|c r IH]; simpl; [reflexivity|].
  intros H. apply andb_true_iff in H as [Hc Hr].
  rewrite (Hpq c Hc), (IH Hr). reflexivity.
Qed.

Lemma strip_decimal (s : str) : all_str isdecimal s = true -> strip s = s.
Proof.
  intros H. apply strip_with_none. revert H. apply all_str_impl.
  intros c Hc. destruct (isdecimal_char_facts c Hc) as [-> _]. reflexivity.
Qed.

Lemma map_to_ascii_space_decimal (s : str) :
  all_str isdecimal s = true -> map_str to_ascii_space s = s.
Proof.
  induction s as [|c r IH]; simpl; [reflexivity|].
  intros H. apply andb_true_iff in H as [Hc Hr].
  destruct (isdecimal_char_facts c Hc) as [_ [_ [-> _]]].
  rewrite (IH Hr). reflexivity.
Qed.

Lemma digitpart_tail_decimal (s : str) :
  all_str isdecimal s = true -> digitpart_tail s = true.
Proof.
  induction s as [|c r IH]; simpl; [reflexivity|].
  intros H. apply andb_true_iff in H as [Hc Hr]. rewrite Hc. auto.
Qed.

Lemma count_digits_decimal (s : str) :
  all_str isdecimal s = true -> count_digits s = Z.of_nat (len s).
Proof.
  induction s as [|c r IH]; [reflexivity|]. cbn [all_str count_digits].
  intros H. apply andb_true_iff in H as [Hc Hr]. rewrite Hc, (IH Hr).
  change (len (String c r)) with (S (len r)). lia.
Qed.

(** A run of [n] digits, [n] within the limit of [int]. *)
Lemma few_digits (s : str) (n : nat) :
  len s = n -> (Z.of_nat n <=? int_max_str_digits)%Z = true ->
  (Z.of_nat (len s) <= int_max_str_digits)%Z.
Proof. intros -> H. apply Z.leb_le. exact H. Qed.

(** [int] of a non-empty run of decimal digits, no more of them than it
    converts, is its value. *)
Lemma int_decimal (s : str) :
  all_str isdecimal s = true -> truthy s = true ->
  (Z.of_nat (len s) <= int_max_str_digits)%Z ->
  int_ s = Some (digits_value 0 s).
Proof.
  intros H Hne Hlen. unfold int_.
  assert (Hcount : (count_digits s <=? int_max_str_digits)%Z = true)
    by (rewrite (count_digits_decimal s H); apply Z.leb_le; exact Hlen).
  rewrite (map_to_ascii_space_decimal s H).
  assert (Hs : strip_with c_isspace s = s).
  { apply strip_with_none. revert H. apply all_str_impl.
    intros c Hc. destruct (isdecimal_char_facts c Hc) as [_ [-> _]].
    reflexivity. }
  rewrite Hs. destruct s as [|c r]; [discriminate|].
  simpl in H. apply andb_true_iff in H as [Hc Hr].
  destruct (isdecimal_char_facts c Hc) as [_ [_ [_ [Hp [Hm _]]]]].
  assert (Hsign : split_sign (String c r) = (false, String c r)).
  { unfold split_sign.
    destruct c as [[] [] [] [] [] [] [] []]; try reflexivity;
      vm_compute in Hp, Hm; discriminate. }
  rewrite Hsign, Hcount. cbn [digitpart].
  rewrite Hc, (digitpart_tail_decimal r Hr). reflexivity.
Qed.

(* ----------------------------------------------------------------- *)
(** ** Periods, continued *)

(** X1: a period that [normalize_period] returns is always canonical: the
    first four characters of the stripped input, a dash, and its next two
    characters, all six decimal digits, the last two a month from 01 to
    12. *)
Theorem normalize_period_canonical (c : cell) (p : str) :
  Payments.normalize_period c = Some p ->
  exists s y m rest,
    c = Some s
    /\ strip s = String.append y (String.append m rest)
    /\ p = String.append y (String.append "-" m)
    /\ len y = 4 /\ len m = 2
    /\ all_str isdecimal y = true /\ all_str isdecimal m = true
    /\ (1 <= digits_value 0 m <= 12)%Z.
Proof.
  unfold Payments.normalize_period.
  destruct (blank_or_in c _); [discriminate|].
  destruct c as [s|]; [|discriminate].
  unfold Re.period_yyyymm.
  destruct (Re.digits_exactly 4 (strip s)) as [[y r1]|] eqn:Ey; [|discriminate].
  destruct (Re.digits_exactly 2 r1) as [[m r2]|] eqn:Em; [|discriminate].
  destruct (digits_exactly_spec _ _ _ _ Ey) as [Hs [Hy Ly]].
  destruct (digits_exactly_spec _ _ _ _ Em) as [Hr [Hm Lm]].
  assert (Hne : truthy m = true) by (destruct m; [discriminate Lm | reflexivity]).
  rewrite (int_decimal m Hm Hne (few_digits m 2 Lm eq_refl)).
  destruct ((1 <=? digits_value 0 m)%Z && (digits_value 0 m <=? 12)%Z) eqn:Hb;
    [|discriminate].
  intros H. injection H as <-.
  exists s, y, m, r2. rewrite Hs, Hr.
  apply andb_true_iff in Hb as [H1 H2].
  apply Z.leb_le in H1. apply Z.leb_le in H2.
  repeat split; auto.
Qed.

Lemma normalize_period_canonical_witness :
  exists s y m rest,
    Some " 199712 " = Some s
    /\ strip s = String.append y (String.append m rest)
    /\ "1997-12" = String.append y (String.append "-" m)
    /\ len y = 4 /\ len m = 2
    /\ all_str isdecimal y = true /\ all_str isdecimal m = true
    /\ (1 <= digits_value 0 m <= 12)%Z.
Proof.
  apply (normalize_period_canonical (Some " 199712 ") "1997-12").
  vm_compute. reflexivity.
Defined.

(** X2: on six decimal digits [normalize_period] answers by the month
    alone: the period with a dash when the last two digits are a month
    from 01 to 12, null when they are 00 or 13 to 99. *)
Theorem normalize_period_six_digits (y m : str) :
  len y = 4 -> len m = 2 ->
  all_str isdecimal y = true -> all_str isdecimal m = true ->
  Payments.normalize_period (Some (String.append y m))
  = if ((1 <=? digits_value 0 m) && (digits_value 0 m <=? 12))%Z
    then Some (String.append y (String.append "-" m))
    else None.
Proof.
  intros Ly Lm Hy Hm.
  assert (Hall : all_str isdecimal (String.append y m) = true)
    by (rewrite all_str_append, Hy, Hm; reflexivity).
  unfold Payments.normalize_period.
  assert (Hguard : blank_or_in (Some (String.append y m)) [""; "--"; "N/A"]
                   = false).
  { unfold blank_or_in. rewrite (strip_decimal _ Hall).
    destruct y as [|c y']; [discriminate Ly|].
    simpl in Hy. apply andb_true_iff in Hy as [Hc _].
    destruct (isdecimal_char_facts c Hc) as [_ [_ [_ [_ [Hd [Hn _]]]]]].
    simpl. rewrite Hd, Hn. reflexivity. }
  rewrite Hguard, (strip_decimal _ Hall).
  unfold Re.period_yyyymm.
  rewrite <- Ly, (digits_exactly_all y m Hy).
  rewrite <- (append_empty_r m) at 1.
  rewrite <- Lm, (digits_exactly_all m EmptyString Hm).
  assert (Hne : truthy m = true) by (destruct m; [discriminate Lm | reflexivity]).
  rewrite (int_decimal m Hm Hne (few_digits m 2 Lm eq_refl)). reflexivity.
Qed.

Lemma normalize_period_six_digits_witness :
  Payments.normalize_period (Some (String.append "1997" "13"))
  = if ((1 <=? digits_value 0 "13") && (digits_value 0 "13" <=? 12))%Z
    then Some (String.append "1997" (String.append "-" "13"))
    else None.
Proof.
  apply (normalize_period_six_digits "1997" "13"); reflexivity.
Defined.

(* ----------------------------------------------------------------- *)
(** ** Summary mining, continued *)

Section SummaryFloor.

Import Weeks.

Lemma pattern_loop_floor (standard : str -> str)
  (patterns : list (str -> option (str * str))) (line : str) (v : float) :
  pattern_loop standard patterns line = Some v ->
  PrimFloat.ltb v float_0_01 = false.
Proof.
  induction patterns as [|pattern rest IH]; simpl; [discriminate|].
  destruct (Re.findall pattern line) as [|w ws]; [exact IH|].
  destruct ((len (last_match (w :: ws)) <=? 2) && isdigit (last_match (w :: ws)));
    [exact IH|].
  destruct (float_ (standard (last_match (w :: ws)))) as [result|];
    [|discriminate].
  destruct (PrimFloat.ltb result float_0_01) eqn:E; [exact IH|].
  intros H.
  apply (f_equal (fun o => match o with Some x => x | None => 0%float end))
    in H. simpl in H. rewrite <- H. exact E.
Qed.

Lemma extract_summary_numeric_floor (line : str) (v : float) :
  extract_summary_numeric line = Some v -> PrimFloat.ltb v float_0_01 = false.
Proof.
  unfold extract_summary_numeric. destruct (Re.header_flag (strip line));
    [discriminate | apply pattern_loop_floor].
Qed.

Lemma extract_numeric_from_line_floor (line : str) (v : float) :
  extract_numeric_from_line line = Some v ->
  PrimFloat.ltb v float_0_01 = false.
Proof.
  unfold extract_numeric_from_line. destruct (Re.header_flag (strip line));
    [discriminate | apply pattern_loop_floor].
Qed.

(** What the scan of the following lines returns was read by [extract] on
    one of the lines. *)
Lemma lookahead_extracted (extract : str -> option float)
  (accept : float -> bool) (lines : list str) (js : list nat) (v : float) :
  lookahead extract accept lines js = Some v ->
  exists j, In j js /\ extract (strip (nth j lines EmptyString)) = Some v.
Proof.
  induction js as [|j rest IH]; simpl; [discriminate|].
  assert (Hrest : lookahead extract accept lines rest = Some v ->
                  exists j', (j = j' \/ In j' rest)
                             /\ extract (strip (nth j' lines EmptyString)) = Some v).
  { intros H. destruct (IH H) as [j' [Hin He]]. eauto. }
  destruct (truthy (strip (nth j lines EmptyString))); [|exact Hrest].
  destruct (extract (strip (nth j lines EmptyString))) as [w|] eqn:E;
    [|exact Hrest].
  destruct (accept w); [|exact Hrest].
  intros H. exists j. split; [left; reflexivity|]. rewrite E. exact H.
Qed.

Lemma some_float_inj (x y : float) : Some x = Some y -> x = y.
Proof.
  intros H.
  apply (f_equal (fun o => match o with Some z => z | None => 0%float end)) in H.
  exact H.
Qed.

Section SummaryInvariant.

Variable P : float -> Prop.
Hypothesis P_summary : forall l v, extract_summary_numeric l = Some v -> P v.
Hypothesis P_line : forall l v, extract_numeric_from_line l = Some v -> P v.

Lemma set_total_all (sv : summary) (v : float) :
  P v -> Inv.summary_all P sv -> Inv.summary_all P (set_total sv v).
Proof.
  intros Hv [Ht Hh]. split; simpl; [|exact Hh].
  intros w Hw. apply some_float_inj in Hw. subst w. exact Hv.
Qed.

Lemma set_high_risk_all (sv : summary) (v : float) :
  P v -> Inv.summary_all P sv -> Inv.summary_all P (set_high_risk sv v).
Proof.
  intros Hv [Ht Hh]. split; simpl; [exact Ht|].
  intros w Hw. apply some_float_inj in Hw. subst w. exact Hv.
Qed.

Lemma line_step_all (lines : list str) (sv : summary) (i : nat) :
  Inv.summary_all P sv -> Inv.summary_all P (line_step lines sv i).
Proof.
  intros Hsv. unfold line_step.
  set (line := strip (nth i lines EmptyString)).
  destruct (contains "[26]" line && contains "total semanas" (lower line)).
  - destruct (extract_summary_numeric line) as [v|] eqn:E.
    + destruct (differs 26 v);
        [apply set_total_all; [apply (P_summary line v E) | exact Hsv]|].
      destruct (lookahead _ _ _ _) as [w|] eqn:L; [|exact Hsv].
      apply lookahead_extracted in L as [j [_ Hj]].
      apply set_total_all; [apply (P_summary _ _ Hj) | exact Hsv].
    + destruct (lookahead _ _ _ _) as [w|] eqn:L; [|exact Hsv].
      apply lookahead_extracted in L as [j [_ Hj]].
      apply set_total_all; [apply (P_summary _ _ Hj) | exact Hsv].
  - destruct (contains "total semanas" (lower line)
              && negb (opt_float_truthy (weeks_total_report sv))).
    + destruct (extract_summary_numeric line) as [v|] eqn:E; [|exact Hsv].
      destruct (above_100 v); [|exact Hsv].
      apply set_total_all; [apply (P_summary line v E) | exact Hsv].
    + destruct (contains "[11]" line && _); [|exact Hsv].
      destruct (extract_numeric_from_line line) as [v|] eqn:E.
      * destruct (differs 11 v);
          [apply set_high_risk_all; [apply (P_line line v E) | exact Hsv]|].
        destruct (lookahead _ _ _ _) as [w|] eqn:L; [|exact Hsv].
        apply lookahead_extracted in L as [j [_ Hj]].
        apply set_high_risk_all; [apply (P_line _ _ Hj) | exact Hsv].
      * destruct (lookahead _ _ _ _) as [w|] eqn:L; [|exact Hsv].
        apply lookahead_extracted in L as [j [_ Hj]].
        apply set_high_risk_all; [apply (P_line _ _ Hj) | exact Hsv].
Qed.

Lemma no_summary_all : Inv.summary_all P no_summary.
Proof. split; simpl; discriminate. Qed.

Lemma extract_summary_values_all (p : page) :
  Inv.summary_all P (extract_summary_values p).
Proof.
  unfold extract_summary_values.
  destruct (extract_text p) as [text|]; [|apply no_summary_all].
  destruct (is_empty text); [apply no_summary_all|].
  generalize (range 0 (List.length (split newline text))) as js.
  generalize no_summary_all. generalize no_summary as sv.
  intros sv Hsv js. revert sv Hsv.
  induction js as [|j js IH]; intros sv Hsv; simpl; [exact Hsv|].
  apply IH. apply line_step_all. exact Hsv.
Qed.

Lemma merge_summary_all (a b : summary) :
  Inv.summary_all P a -> Inv.summary_all P b ->
  Inv.summary_all P (merge_summary a b).
Proof.
  intros [Hat Hah] [Hbt Hbh]. split; simpl.
  - destruct (weeks_total_report b) as [v|]; [|exact Hat].
    intros w Hw. apply Hbt. exact Hw.
  - destruct (weeks_high_risk b) as [v|]; [|exact Hah].
    intros w Hw. apply Hbh. exact Hw.
Qed.

Lemma pages_loop_summary_all (pages : list page) (s : session) :
  Inv.summary_all P (summary_values s) ->
  Inv.summary_all P (summary_values (pages_loop s pages)).
Proof.
  intros Hs.
  assert (Hl : forall l : list summary,
             (forall x, In x l -> exists p, x = extract_summary_values p) ->
             forall sv, Inv.summary_all P sv ->
                        Inv.summary_all P (fold_left merge_summary l sv)).
  { induction l as [|x l IH]; intros Hx sv Hsv; simpl; [exact Hsv|].
    apply IH; [intros y Hy; apply Hx; right; exact Hy|].
    apply merge_summary_all; [exact Hsv|].
    destruct (Hx x (or_introl eq_refl)) as [p ->].
    apply extract_summary_values_all. }
  rewrite pages_loop_summary. apply Hl; [|exact Hs].
  intros x Hx. apply in_map_iff in Hx as [p [<- _]]. eauto.
Qed.

End SummaryInvariant.

End SummaryFloor.

(** X3: the summary values that a run returns are never below 0.01: a
    value read from the text is dropped when it is smaller, so a total of
    zero is never reported. *)
Theorem summary_values_at_least_cent (pages : list page) :
  Inv.summary_all Inv.at_least_cent
    (snd (Weeks.extract_table_and_summary_from_pdf pages)).
Proof.
  unfold Weeks.extract_table_and_summary_from_pdf. cbn [snd].
  apply pages_loop_summary_all.
  - intros l v. apply extract_summary_numeric_floor.
  - intros l v. apply extract_numeric_from_line_floor.
  - split; simpl; discriminate.
Qed.

(* ----------------------------------------------------------------- *)
(** ** Substrings *)

Lemma prefix_iff (a s : str) :
  String.prefix a s = true <-> exists post, s = String.append a post.
Proof.
  revert s. induction a as [|c a IH]; intros s.
  - split; [intros _; exists s; reflexivity | destruct s; reflexivity].
  - destruct s as [|d s]; simpl;
      [split; [discriminate | intros [post H]; discriminate]|].
    destruct (Ascii.ascii_dec c d) as [->|Hne].
    + rewrite IH. split; intros [post H]; exists post; congruence.
    + split; [discriminate | intros [post H]; congruence].
Qed.

Lemma contains_iff (sub s : str) :
  contains sub s = true
  <-> exists pre post, s = String.append pre (String.append sub post).
Proof.
  induction s as [|c s IH].
  - change (contains sub EmptyString)
      with (String.prefix sub EmptyString || false).
    rewrite orb_false_r, prefix_iff. split.
    + intros [post H]. exists EmptyString, post. exact H.
    + intros [pre [post H]]. destruct pre; [eauto | discriminate].
  - change (contains sub (String c s))
      with (String.prefix sub (String c s) || contains sub s).
    rewrite orb_true_iff, prefix_iff, IH. split.
    + intros [[post H]|[pre [post H]]].
      * exists EmptyString, post. exact H.
      * exists (String c pre), post. simpl. congruence.
    + intros [pre [post H]]. destruct pre as [|d pre]; simpl in H.
      * left. eauto.
      * right. exists pre, post. congruence.
Qed.

Lemma contains_occurs (sub x s : str) :
  Inv.occurs_in x s -> contains sub x = true -> contains sub s = true.
Proof.
  intros [pre [post ->]] H. apply contains_iff in H as [p1 [p2 ->]].
  apply contains_iff. exists (String.append pre p1), (String.append p2 post).
  rewrite !append_assoc. reflexivity.
Qed.

Lemma occurs_in_trans (x y s : str) :
  Inv.occurs_in x y -> Inv.occurs_in y s -> Inv.occurs_in x s.
Proof.
  intros [p1 [q1 ->]] [p2 [q2 ->]].
  exists (String.append p2 p1), (String.append q1 q2).
  rewrite !append_assoc. reflexivity.
Qed.

Lemma map_str_append (f : ascii -> ascii) (a b : str) :
  map_str f (String.append a b) = String.append (map_str f a) (map_str f b).
Proof. induction a as [|c a IH]; simpl; [reflexivity | rewrite IH; reflexivity]. Qed.

Lemma occurs_in_lower (x s : str) :
  Inv.occurs_in x s -> Inv.occurs_in (lower x) (lower s).
Proof.
  intros [pre [post ->]]. exists (lower pre), (lower post).
  unfold lower. rewrite !map_str_append. reflexivity.
Qed.

Lemma lstrip_occurs (p : ascii -> bool) (s : str) :
  exists pre, s = String.append pre (lstrip_with p s).
Proof.
  induction s as [|c s [pre IH]]; simpl; [exists EmptyString; reflexivity|].
  destruct (p c); [|exists EmptyString; reflexivity].
  exists (String c pre). simpl. congruence.
Qed.

Lemma rstrip_occurs (p : ascii -> bool) (s : str) :
  exists post, s = String.append (rstrip_with p s) post.
Proof.
  induction s as [|c s [post IH]]; simpl; [exists EmptyString; reflexivity|].
  destruct (is_empty (rstrip_with p s) && p c).
  - exists (String c s). reflexivity.
  - exists post. simpl. congruence.
Qed.

Lemma strip_occurs (s : str) : Inv.occurs_in (strip s) s.
Proof.
  unfold strip, strip_with. destruct (lstrip_occurs isspace s) as [pre Hl].
  destruct (rstrip_occurs isspace (lstrip_with isspace s)) as [post Hr].
  exists pre, post. rewrite <- Hr. exact Hl.
Qed.

Lemma split_occurs (c : ascii) (s : str) :
  match split c s with
  | [] => False
  | w :: ws =>
      (exists post, s = String.append w post)
      /\ forall l, In l ws -> Inv.occurs_in l s
  end.
Proof.
  induction s as [|d s IH]; simpl.
  - split; [exists EmptyString; reflexivity | intros l []].
  - destruct (split c s) as [|w ws]; [contradiction|].
    destruct IH as [[post Hw] Hws].
    destruct (Ascii.eqb c d).
    + split; [exists (String d s); reflexivity|].
      intros l [<-|Hl].
      * exists (String d EmptyString), post. simpl. congruence.
      * destruct (Hws l Hl) as [pre [q ->]]. exists (String d pre), q.
        reflexivity.
    + split; [exists post; simpl; congruence|].
      intros l Hl. destruct (Hws l Hl) as [pre [q ->]].
      exists (String d pre), q. reflexivity.
Qed.

Lemma split_line_occurs (c : ascii) (s l : str) :
  In l (split c s) -> Inv.occurs_in l s.
Proof.
  pose proof (split_occurs c s) as H.
  destruct (split c s) as [|w ws]; [contradiction|].
  destruct H as [[post Hw] Hws]. intros [<-|Hl]; [|apply Hws; exact Hl].
  exists EmptyString, post. exact Hw.
Qed.

(* ----------------------------------------------------------------- *)
(** ** Summary values come from marker lines *)

Section SummaryMarkers.

Import Weeks.

Lemma line_occurs (text : str) (i : nat) :
  Inv.occurs_in (strip (nth i (split newline text) EmptyString)) text.
Proof.
  destruct (nth_in_or_default i (split newline text) EmptyString) as [Hin|Hd].
  - eapply occurs_in_trans; [apply strip_occurs|].
    apply (split_line_occurs newline). exact Hin.
  - rewrite Hd. exists EmptyString, text. reflexivity.
Qed.

Lemma line_step_total_unchanged (text : str) (sv : summary) (i : nat) :
  contains "total semanas" (lower text) = false ->
  weeks_total_report (line_step (split newline text) sv i)
  = weeks_total_report sv.
Proof.
  intros Hno. unfold line_step.
  set (line := strip (nth i (split newline text) EmptyString)).
  assert (Hline : contains "total semanas" (lower line) = false).
  { destruct (contains "total semanas" (lower line)) eqn:E; [|reflexivity].
    rewrite <- Hno. symmetry.
    apply (contains_occurs _ (lower line)); [|exact E].
    apply occurs_in_lower, line_occurs. }
  rewrite Hline, andb_false_r. cbn [andb].
  destruct (contains "[11]" line && _); [|reflexivity].
  destruct (extract_numeric_from_line line) as [v|].
  - destruct (differs 11 v); [reflexivity|].
    destruct (lookahead _ _ _ _); reflexivity.
  - destruct (lookahead _ _ _ _); reflexivity.
Qed.

Lemma line_step_high_risk_unchanged (text : str) (sv : summary) (i : nat) :
  contains "[11]" text = false ->
  weeks_high_risk (line_step (split newline text) sv i) = weeks_high_risk sv.
Proof.
  intros Hno. unfold line_step.
  set (line := strip (nth i (split newline text) EmptyString)).
  assert (Hline : contains "[11]" line = false).
  { destruct (contains "[11]" line) eqn:E; [|reflexivity].
    rewrite <- Hno. symmetry.
    apply (contains_occurs _ line); [apply line_occurs | exact E]. }
  rewrite Hline. cbn [andb].
  destruct (contains "[26]" line && _).
  - destruct (extract_summary_numeric line) as [v|].
    + destruct (differs 26 v); [reflexivity|].
      destruct (lookahead _ _ _ _); reflexivity.
    + destruct (lookahead _ _ _ _); reflexivity.
  - destruct (contains "total semanas" (lower line) && _); [|reflexivity].
    destruct (extract_summary_numeric line) as [v|]; [|reflexivity].
    destruct (above_100 v); reflexivity.
Qed.

Lemma extract_summary_values_no_total (p : page) :
  (forall text, extract_text p = Some text ->
                contains "total semanas" (lower text) = false) ->
  weeks_total_report (extract_summary_values p) = None.
Proof.
  intros H. unfold extract_summary_values.
  destruct (extract_text p) as [text|]; [|reflexivity].
  specialize (H text eq_refl).
  destruct (is_empty text); [reflexivity|].
  generalize (range 0 (List.length (split newline text))) as js.
  assert (Hfold : forall js sv, weeks_total_report sv = None ->
            weeks_total_report (fold_left (line_step (split newline text)) js sv)
            = None).
  { induction js as [|j js IH]; intros sv Hsv; simpl; [exact Hsv|].
    apply IH. rewrite (line_step_total_unchanged text sv j H). exact Hsv. }
  intros js. apply Hfold. reflexivity.
Qed.

Lemma extract_summary_values_no_high_risk (p : page) :
  (forall text, extract_text p = Some text -> contains "[11]" text = false) ->
  weeks_high_risk (extract_summary_values p) = None.
Proof.
  intros H. unfold extract_summary_values.
  destruct (extract_text p) as [text|]; [|reflexivity].
  specialize (H text eq_refl).
  destruct (is_empty text); [reflexivity|].
  generalize (range 0 (List.length (split newline text))) as js.
  assert (Hfold : forall js sv, weeks_high_risk sv = None ->
            weeks_high_risk (fold_left (line_step (split newline text)) js sv)
            = None).
  { induction js as [|j js IH]; intros sv Hsv; simpl; [exact Hsv|].
    apply IH. rewrite (line_step_high_risk_unchanged text sv j H). exact Hsv. }
  intros js. apply Hfold. reflexivity.
Qed.

Lemma mined_pages_in (pages : list page) (found : bool) (p : page) :
  In p (Spec.mined_pages found pages) -> In p pages.
Proof.
  revert found. induction pages as [|q rest IH]; intros found; simpl; [auto|].
  destruct (Spec.has_matching_table q).
  - intros [->|H]; [left; reflexivity | right; apply (IH true); exact H].
  - destruct found.
    + intros [->|[]]. left; reflexivity.
    + intros [->|H]; [left; reflexivity | right; apply (IH false); exact H].
Qed.

Lemma last_non_null_none (A : Type) (l : list (option A)) :
  (forall o, In o l -> o = None) -> Spec.last_non_null l = None.
Proof.
  induction l as [|o l IH]; intros H; simpl; [reflexivity|].
  rewrite IH; [apply H; left; reflexivity|].
  intros x Hx. apply H. right. exact Hx.
Qed.

End SummaryMarkers.

(** X4: a summary value needs its marker in the text: when no page text
    holds the phrase total semanas, in any case, the run reports no total
    of weeks; when no page text holds the tag [11], it reports no
    high-risk weeks. *)
Theorem summary_needs_marker (pages : list page) :
  ((forall p text, In p pages -> extract_text p = Some text ->
                   contains "total semanas" (lower text) = false) ->
   Weeks.weeks_total_report
     (snd (Weeks.extract_table_and_summary_from_pdf pages)) = None)
  /\ ((forall p text, In p pages -> extract_text p = Some text ->
                      contains "[11]" text = false) ->
      Weeks.weeks_high_risk
        (snd (Weeks.extract_table_and_summary_from_pdf pages)) = None).
Proof.
  unfold Weeks.extract_table_and_summary_from_pdf. cbn [snd].
  rewrite (pages_loop_summary pages Weeks.initial_session).
  cbn [Weeks.table_found Weeks.summary_values Weeks.initial_session].
  rewrite fold_merge_total, fold_merge_high_risk. split; intros H.
  - rewrite last_non_null_none; [reflexivity|].
    intros o Ho. apply in_map_iff in Ho as [sv [<- Hsv]].
    apply in_map_iff in Hsv as [p [<- Hp]].
    apply extract_summary_values_no_total. intros text Ht.
    apply (H p text); [|exact Ht]. apply (mined_pages_in _ _ _ Hp).
  - rewrite last_non_null_none; [reflexivity|].
    intros o Ho. apply in_map_iff in Ho as [sv [<- Hsv]].
    apply in_map_iff in Hsv as [p [<- Hp]].
    apply extract_summary_values_no_high_risk. intros text Ht.
    apply (H p text); [|exact Ht]. apply (mined_pages_in _ _ _ Hp).
Qed.

Lemma summary_needs_marker_witness :
  Weeks.weeks_total_report
    (snd (Weeks.extract_table_and_summary_from_pdf
            [Examples.text_page ["Semanas 1193,00"; "[11] 12,50"]])) = None.
Proof.
  apply (proj1 (summary_needs_marker
                  [Examples.text_page ["Semanas 1193,00"; "[11] 12,50"]])).
  intros p text [<-|[]] H. injection H as <-. vm_compute. reflexivity.
Defined.

(* ----------------------------------------------------------------- *)
(** ** The header score *)

Section HeaderScore.

Import Weeks.

Lemma header_loop_lowered (e : str) (headers : list str) :
  header_loop e headers
  = existsb (fun h => contains e h || contains h e) (map lower headers).
Proof.
  induction headers as [|h hs IH]; simpl; [reflexivity|].
  destruct (contains e (lower h) || contains (lower h) e); simpl;
    [reflexivity | exact IH].
Qed.

Lemma existsb_same_elements (A : Type) (f : A -> bool) (l l' : list A) :
  (forall x, In x l <-> In x l') -> existsb f l = existsb f l'.
Proof.
  intros H. destruct (existsb f l) eqn:E; symmetry.
  - apply existsb_exists in E as [x [Hx Hf]]. apply existsb_exists.
    exists x. split; [apply H; exact Hx | exact Hf].
  - destruct (existsb f l') eqn:E'; [|reflexivity].
    apply existsb_exists in E' as [x [Hx Hf]].
    rewrite <- E. symmetry. apply existsb_exists.
    exists x. split; [apply H; exact Hx | exact Hf].
Qed.

Lemma expected_loop_same (hs hs' expected : list str) (matches : nat) :
  (forall e, header_loop e hs = header_loop e hs') ->
  expected_loop matches expected hs = expected_loop matches expected hs'.
Proof.
  intros H. revert matches.
  induction expected as [|e es IH]; intros matches; simpl; [reflexivity|].
  rewrite H. apply IH.
Qed.

Lemma expected_loop_bound (hs expected : list str) (matches : nat) :
  expected_loop matches expected hs <= matches + List.length expected.
Proof.
  revert matches. induction expected as [|e es IH]; intros matches; simpl;
    [lia|].
  specialize (IH (if header_loop (lower e) hs then matches + 1 else matches)).
  destruct (header_loop (lower e) hs); lia.
Qed.

End HeaderScore.

(** X5: the header score looks at the header cells only as a set of
    lower-case strings: two header rows with the same cells up to case,
    order and repetition have the same score; and the score never exceeds
    nine, one for each expected label. *)
Theorem header_score_ignores_case_and_order (hs hs' : list str) :
  (forall x, In x (map lower hs) <-> In x (map lower hs')) ->
  Weeks._count_header_matches hs = Weeks._count_header_matches hs'
  /\ Weeks._count_header_matches hs <= 9.
Proof.
  intros H. split.
  - apply expected_loop_same. intros e. rewrite !header_loop_lowered.
    apply existsb_same_elements. exact H.
  - apply (expected_loop_bound hs Weeks.expected_headers 0).
Qed.

Lemma header_score_ignores_case_and_order_witness :
  Weeks._count_header_matches ["DESDE"; "Hasta"; "total"]
  = Weeks._count_header_matches ["Total"; "desde"; "HASTA"; "hasta"]
  /\ Weeks._count_header_matches ["DESDE"; "Hasta"; "total"] <= 9.
Proof.
  apply header_score_ignores_case_and_order.
  intros x. vm_compute. tauto.
Defined.

(* ----------------------------------------------------------------- *)
(** ** Commas in currency values *)

Section Commas.

Lemma remove_chars_append (p : ascii -> bool) (a b : str) :
  remove_chars p (String.append a b)
  = String.append (remove_chars p a) (remove_chars p b).
Proof.
  induction a as [|c a IH]; simpl; [reflexivity|].
  destruct (p c); rewrite IH; reflexivity.
Qed.

Lemma remove_chars_strip (p : ascii -> bool) (s : str) :
  (forall c, isspace c = true -> p c = true) ->
  remove_chars p (strip s) = remove_chars p s.
Proof.
  intros Hp. unfold strip, strip_with.
  assert (Hr : forall x, remove_chars p (rstrip_with isspace x)
                         = remove_chars p x).
  { induction x as [|c r IH]; simpl; [reflexivity|].
    destruct (is_empty (rstrip_with isspace r)) eqn:Ee;
      destruct (isspace c) eqn:Ec; simpl.
    - rewrite (Hp c Ec), <- IH.
      destruct (rstrip_with isspace r); [reflexivity | discriminate].
    - rewrite IH. reflexivity.
    - rewrite IH. reflexivity.
    - rewrite IH. reflexivity. }
  rewrite Hr. induction s as [|c r IH]; simpl; [reflexivity|].
  destruct (isspace c) eqn:Ec; [rewrite (Hp c Ec); exact IH | reflexivity].
Qed.

Lemma has_char_append (c : ascii) (a b : str) :
  has_char c (String.append a b) = has_char c a || has_char c b.
Proof.
  induction a as [|d a IH]; simpl; [reflexivity|].
  rewrite IH, orb_assoc. reflexivity.
Qed.

Lemma has_char_strip (c : ascii) (s : str) :
  isspace c = false -> has_char c (strip s) = has_char c s.
Proof.
  intros Hc. unfold strip, strip_with.
  assert (Heq : forall d, isspace d = true -> Ascii.eqb c d = false).
  { intros d Hd. destruct (Ascii.eqb_spec c d) as [->|]; [congruence|reflexivity]. }
  assert (Hr : forall x, has_char c (rstrip_with isspace x) = has_char c x).
  { induction x as [|d r IH]; simpl; [reflexivity|].
    destruct (is_empty (rstrip_with isspace r)) eqn:Ee;
      destruct (isspace d) eqn:Ed; simpl; rewrite <- IH; try reflexivity.
    rewrite (Heq d Ed).
    destruct (rstrip_with isspace r); [reflexivity | discriminate]. }
  rewrite Hr. induction s as [|d r IH]; simpl; [reflexivity|].
  destruct (isspace d) eqn:Ed; [rewrite (Heq d Ed); exact IH | reflexivity].
Qed.

(** A string with a comma passes the guard of the cleaning functions. *)
Lemma comma_not_blank (a b : str) :
  blank_or_in (Some (String.append a (String "," b))) [""; "--"; "N/A"; "0"]
  = false.
Proof.
  unfold blank_or_in.
  assert (Hne : is_empty (String.append a (String "," b)) = false)
    by (destruct a; reflexivity).
  rewrite Hne. cbn [orb].
  assert (Hc : has_char "," (strip (String.append a (String "," b))) = true).
  { rewrite has_char_strip by reflexivity. rewrite has_char_append. simpl.
    apply orb_true_r. }
  destruct (in_list _ _) eqn:E; [|reflexivity].
  unfold in_list in E. apply existsb_exists in E as [x [Hx Hs]].
  apply String.eqb_eq in Hs. rewrite Hs in Hc.
  simpl in Hx. destruct Hx as [<-|[<-|[<-|[<-|[]]]]]; discriminate Hc.
Qed.

Lemma cleaned_without_comma (a b : str) :
  remove_chars Weeks.currency_noise (strip (String.append a (String "," b)))
  = remove_chars Weeks.currency_noise (strip (String.append a b)).
Proof.
  assert (Hp : forall c, isspace c = true -> Weeks.currency_noise c = true).
  { intros c Hc. unfold Weeks.currency_noise. rewrite Hc. apply orb_true_r. }
  rewrite !remove_chars_strip by exact Hp.
  rewrite !remove_chars_append. reflexivity.
Qed.

End Commas.

(** With a comma a blank text passes the guard, and fails in [float]. *)
Lemma blank_with_comma (a b x : str) :
  strip (String.append a b) = x -> In x [""; "--"; "N/A"] ->
  Weeks.clean_salary (Some (String.append a (String "," b))) = None
  /\ Payments.clean_ibc_value (Some (String.append a (String "," b))) = None.
Proof.
  intros Hx Hin. unfold Weeks.clean_salary, Payments.clean_ibc_value.
  rewrite (comma_not_blank a b), (cleaned_without_comma a b), Hx.
  destruct Hin as [<-|[<-|[<-|[]]]]; split; vm_compute; reflexivity.
Qed.

(** The texts that the guard of the cleaners stops. *)
Lemma blank_cases (s : str) :
  blank_or_in (Some s) [""; "--"; "N/A"; "0"] = true ->
  In (strip s) [""; "--"; "N/A"; "0"].
Proof.
  unfold blank_or_in. intros H. apply orb_true_iff in H as [H|H].
  - destruct s; [left; reflexivity | discriminate H].
  - unfold in_list in H. apply existsb_exists in H as [x [Hx Hs]].
    apply String.eqb_eq in Hs. rewrite Hs. exact Hx.
Qed.

(** X6: a comma is never a decimal separator for [clean_salary] and
    [clean_ibc_value]: it is removed with the currency sign before the
    separators are looked at.  A comma put anywhere in a text leaves the
    result as it was, unless the text stripped is exactly 0: then the
    guard answers null without the comma, and with it the text passes the
    guard and gives the number 0. *)
Theorem comma_is_ignored_in_currency (a b : str) :
  (strip (String.append a b) <> "0" ->
   Weeks.clean_salary (Some (String.append a (String "," b)))
   = Weeks.clean_salary (Some (String.append a b))
   /\ Payments.clean_ibc_value (Some (String.append a (String "," b)))
      = Payments.clean_ibc_value (Some (String.append a b)))
  /\ (strip (String.append a b) = "0" ->
      Weeks.clean_salary (Some (String.append a b)) = None
      /\ Weeks.clean_salary (Some (String.append a (String "," b)))
         = Some 0%float
      /\ Payments.clean_ibc_value (Some (String.append a b)) = None
      /\ Payments.clean_ibc_value (Some (String.append a (String "," b)))
         = Some 0%float).
Proof.
  split.
  - intros Hzero.
    destruct (blank_or_in (Some (String.append a b)) [""; "--"; "N/A"; "0"])
      eqn:Hg.
    + assert (Hin : In (strip (String.append a b)) [""; "--"; "N/A"]).
      { destruct (blank_cases _ Hg) as [H|[H|[H|[H|[]]]]];
          [left | right; left | right; right; left | congruence]; exact H. }
      destruct (blank_with_comma a b _ eq_refl Hin) as [-> ->].
      unfold Weeks.clean_salary, Payments.clean_ibc_value. rewrite Hg.
      split; reflexivity.
    + unfold Weeks.clean_salary, Payments.clean_ibc_value.
      rewrite (comma_not_blank a b), Hg, (cleaned_without_comma a b).
      split; reflexivity.
  - intros Hzero.
    assert (Hg : blank_or_in (Some (String.append a b))
                   [""; "--"; "N/A"; "0"] = true).
    { unfold blank_or_in. rewrite Hzero. apply orb_true_r. }
    unfold Weeks.clean_salary, Payments.clean_ibc_value.
    rewrite (comma_not_blank a b), Hg, (cleaned_without_comma a b), Hzero.
    repeat split; vm_compute; reflexivity.
Qed.

Lemma comma_is_ignored_in_currency_witness :
  (Weeks.clean_salary (Some (String.append "1235000" (String "," "50")))
   = Weeks.clean_salary (Some (String.append "1235000" "50"))
   /\ Payments.clean_ibc_value
        (Some (String.append "1235000" (String "," "50")))
      = Payments.clean_ibc_value (Some (String.append "1235000" "50")))
  /\ (Weeks.clean_salary (Some (String.append "0" "")) = None
      /\ Weeks.clean_salary (Some (String.append "0" (String "," "")))
         = Some 0%float
      /\ Payments.clean_ibc_value (Some (String.append "0" "")) = None
      /\ Payments.clean_ibc_value (Some (String.append "0" (String "," "")))
         = Some 0%float).
Proof.
  split.
  - apply (proj1 (comma_is_ignored_in_currency "1235000" "50")).
    vm_compute. discriminate.
  - apply (proj2 (comma_is_ignored_in_currency "0" "")).
    vm_compute. reflexivity.
Defined.

(* ----------------------------------------------------------------- *)
(** ** Payment records, continued *)

Section PaymentRows.

Import Payments.

Lemma all_str_lstrip (p q : ascii -> bool) (s : str) :
  all_str p s = true -> all_str p (lstrip_with q s) = true.
Proof.
  induction s as [|c r IH]; simpl; [reflexivity|].
  intros H. destruct (q c); [|exact H].
  apply andb_true_iff in H as [_ Hr]. auto.
Qed.

Lemma all_str_rstrip (p q : ascii -> bool) (s : str) :
  all_str p s = true -> all_str p (rstrip_with q s) = true.
Proof.
  induction s as [|c r IH]; simpl; [reflexivity|].
  intros H. apply andb_true_iff in H as [Hc Hr].
  destruct (is_empty (rstrip_with q r) && q c); [reflexivity|].
  simpl. rewrite Hc, (IH Hr). reflexivity.
Qed.

Lemma all_str_strip (p : ascii -> bool) (s : str) :
  all_str p s = true -> all_str p (strip s) = true.
Proof.
  intros H. unfold strip, strip_with. apply all_str_rstrip, all_str_lstrip.
  exact H.
Qed.

Lemma ascii_digit_is_decimal (c : ascii) :
  (ord c <? 128) = true -> isdigit_char c = true -> isdecimal c = true.
Proof.
  destruct c as [[] [] [] [] [] [] [] []]; vm_compute; congruence.
Qed.

Lemma ascii_isdigit_int (s : str) :
  all_str (fun ch => ord ch <? 128) s = true -> isdigit s = true ->
  (Z.of_nat (len s) <= int_max_str_digits)%Z ->
  exists n, int_ s = Some n.
Proof.
  intros Ha Hd Hlen. unfold isdigit in Hd.
  apply andb_true_iff in Hd as [Hne Hd].
  exists (digits_value 0 s). apply int_decimal; [|exact Hne|exact Hlen].
  clear Hne Hlen. induction s as [|c r IH]; simpl in *; [reflexivity|].
  apply andb_true_iff in Ha as [Hac Har].
  apply andb_true_iff in Hd as [Hdc Hdr].
  rewrite (ascii_digit_is_decimal c Hac Hdc), (IH Har Hdr). reflexivity.
Qed.

Lemma len_strip_le (s : str) : len (strip s) <= len s.
Proof.
  destruct (strip_occurs s) as [pre [post H]].
  rewrite H at 2. rewrite !len_append. lia.
Qed.

Lemma sniff_days_ascii (cells : row) (k : nat) (rep cot : option Z) :
  Forall Inv.short_ascii_cell cells ->
  exists x, sniff_days k rep cot cells = Ret x.
Proof.
  intros H. revert k rep cot.
  induction H as [|c rest Hc _ IH]; intros k rep cot; simpl; [eauto|].
  destruct (cell_has_text c); [|apply IH].
  destruct (isdigit (cell_str c)) eqn:Hd; [|apply IH].
  assert (Hi : exists n, int_ (cell_str c) = Some n).
  { destruct c as [s|]; [|discriminate Hd].
    cbn [Inv.short_ascii_cell] in Hc. apply andb_true_iff in Hc as [Ha Hl].
    apply Z.leb_le in Hl. pose proof (len_strip_le s) as Hle.
    apply ascii_isdigit_int; [|exact Hd|]; cbn [cell_str];
      [apply all_str_strip; exact Ha | lia]. }
  destruct Hi as [n ->].
  destruct ((1 <=? n)%Z && (n <=? 31)%Z); [|apply IH].
  destruct (k =? 0); [apply IH|].
  destruct (k =? 1); [eauto | apply IH].
Qed.

Lemma normalize_period_is_canonical (c : cell) (p : str) :
  normalize_period c = Some p -> Inv.canonical_period p.
Proof.
  unfold normalize_period.
  destruct (blank_or_in c _); [discriminate|].
  destruct c as [s|]; [|discriminate].
  unfold Re.period_yyyymm.
  destruct (Re.digits_exactly 4 (strip s)) as [[y r1]|] eqn:Ey; [|discriminate].
  destruct (Re.digits_exactly 2 r1) as [[m r2]|] eqn:Em; [|discriminate].
  destruct (digits_exactly_spec _ _ _ _ Ey) as [_ [Hy Ly]].
  destruct (digits_exactly_spec _ _ _ _ Em) as [_ [Hm Lm]].
  assert (Hne : truthy m = true) by (destruct m; [discriminate Lm | reflexivity]).
  rewrite (int_decimal m Hm Hne (few_digits m 2 Lm eq_refl)).
  destruct ((1 <=? digits_value 0 m)%Z && (digits_value 0 m <=? 12)%Z) eqn:Hb;
    [|discriminate].
  intros H. injection H as <-. exists y, m.
  apply andb_true_iff in Hb as [H1 H2].
  apply Z.leb_le in H1. apply Z.leb_le in H2. repeat split; auto.
Qed.

Lemma sniff_period_origin (old : option str) (cells : row) :
  sniff_period old cells = old
  \/ exists c, sniff_period old cells = normalize_period c.
Proof.
  induction cells as [|c rest IH]; simpl; [left; reflexivity|].
  destruct (cell_has_text c); [|exact IH].
  destruct ((len (cell_str c) =? 6) && isdigit (cell_str c)); [|exact IH].
  right. eauto.
Qed.

End PaymentRows.

(** X7: on a row whose cells hold ASCII text, no cell longer than the
    4300 digits that [int] converts, the payments record builder never
    raises: it returns a record or null. *)
Theorem payments_clean_row_data_total_on_short_ascii (r : row) :
  Forall Inv.short_ascii_cell r ->
  exists o, Payments.clean_row_data r = Ret o.
Proof.
  intros H. unfold Payments.clean_row_data.
  destruct (List.length r <? 3); [eauto|].
  match goal with
  | |- context [if ?b then Ret (?x, ?y) else Payments.sniff_days 0 ?x ?y r] =>
      destruct b;
      [|destruct (sniff_days_ascii r 0 x y H) as [[rep cot] ->]]
  end;
    match goal with
    | |- context [if ?b then _ else _] => destruct b; eauto
    end.
Qed.

Lemma payments_clean_row_data_total_on_short_ascii_witness :
  exists o, Payments.clean_row_data Examples.short_payment_row = Ret o.
Proof.
  apply (payments_clean_row_data_total_on_short_ascii
           Examples.short_payment_row).
  repeat constructor.
Defined.

(** Both conditions are needed: a cell of 4301 digits and a cell made of
    a superscript two pass [isdigit] and make [int] raise. *)
Example payments_clean_row_data_raises :
  Payments.clean_row_data Examples.long_digit_row = Raise ValueError
  /\ Payments.clean_row_data Examples.superscript_row = Raise ValueError.
Proof. split; vm_compute; reflexivity. Qed.

(** X8: the period of a payment record is null or canonical: four digits,
    a dash and a month from 01 to 12, whichever of the positional mapping
    and the scan of the cells found it. *)
Theorem payment_record_period_canonical (r : row)
  (rec : Payments.payment_record) :
  Payments.clean_row_data r = Ret (Some rec) ->
  match Payments.cont_period rec with
  | None => True
  | Some p => Inv.canonical_period p
  end.
Proof.
  unfold Payments.clean_row_data.
  destruct (List.length r <? 3); [discriminate|].
  set (p0 := if 13 <=? List.length r
             then Payments.normalize_period (nth_cell r 3) else None).
  assert (Hp0 : match p0 with
                | None => True
                | Some p => Inv.canonical_period p
                end).
  { unfold p0. destruct (13 <=? List.length r); [|exact I].
    destruct (Payments.normalize_period (nth_cell r 3)) as [p|] eqn:E;
      [|exact I].
    apply (normalize_period_is_canonical _ _ E). }
  set (period := if Payments.opt_str_truthy p0 then p0
                 else Payments.sniff_period p0 r).
  assert (Hperiod : match period with
                    | None => True
                    | Some p => Inv.canonical_period p
                    end).
  { unfold period. destruct (Payments.opt_str_truthy p0); [exact Hp0|].
    destruct (sniff_period_origin p0 r) as [->|[c ->]]; [exact Hp0|].
    destruct (Payments.normalize_period c) as [p|] eqn:E; [|exact I].
    apply (normalize_period_is_canonical _ _ E). }
  match goal with
  | |- context [match ?d with Ret _ => _ | Raise _ => _ end] =>
      destruct d as [[rep cot]|e]; [|discriminate]
  end.
  destruct (_ && _); [|discriminate].
  intros H. injection H as <-. exact Hperiod.
Qed.

Lemma payment_record_period_canonical_witness :
  Inv.canonical_period "1997-12".
Proof.
  apply (payment_record_period_canonical Examples.short_payment_row
           {| Payments.cont_id := Some "16610898";
              Payments.cont_name := Some "ACME SA";
              Payments.cont_period := Some "1997-12";
              Payments.cont_reported_ibc := Some 471800%float;
              Payments.cont_reported_days := Some 30%Z;
              Payments.cont_contributed_days := Some 28%Z |}).
  vm_compute. reflexivity.
Defined.

(* ----------------------------------------------------------------- *)
(** ** Tables stitched across pages *)

Section Stitching.

Import Weeks.

Lemma rows_loop_app (acc : list week_record) (a b : list row) :
  rows_loop acc (a ++ b) = rows_loop (rows_loop acc a) b.
Proof.
  revert acc. induction a as [|r a IH]; intros acc; simpl; [reflexivity|].
  apply IH.
Qed.

Lemma rows_loop_acc (acc : list week_record) (rows : list row) :
  rows_loop acc rows = acc ++ rows_loop [] rows.
Proof.
  revert acc. induction rows as [|r rows IH]; intros acc; simpl;
    [rewrite app_nil_r; reflexivity|].
  rewrite IH. rewrite (IH (if row_not_empty r then _ else _)).
  rewrite app_assoc. f_equal.
  destruct (row_not_empty r); [|rewrite app_nil_r; reflexivity].
  destruct (is_data_row r); [|rewrite app_nil_r; reflexivity].
  destruct (clean_row_data r); [reflexivity | rewrite app_nil_r; reflexivity].
Qed.

Lemma find_none_no_match (p : page) :
  Spec.has_matching_table p = false ->
  find table_matches (extract_tables p) = None.
Proof.
  unfold Spec.has_matching_table. rewrite existsb_find.
  destruct (find table_matches (extract_tables p)); [discriminate|reflexivity].
Qed.

Lemma table_only_tables_loop_found (s : table_session) (tables : list table)
  (t : table) :
  find table_matches tables = Some t ->
  table_only_tables_loop s tables
  = {| t_all_rows :=
         rows_loop (t_all_rows s)
           (skipn (if t_headers_processed s then 0 else 1) t);
       t_table_found := true;
       t_headers_processed := true |}.
Proof.
  induction tables as [|u rest IH]; simpl; [discriminate|].
  destruct (table_matches u); [|exact IH].
  intros H. injection H as ->. reflexivity.
Qed.

Lemma table_only_page_step_matching (s : table_session) (p : page) (t : table) :
  find table_matches (extract_tables p) = Some t ->
  table_only_page_step s p
  = ({| t_all_rows :=
          rows_loop (t_all_rows s)
            (skipn (if t_headers_processed s then 0 else 1) t);
        t_table_found := true;
        t_headers_processed := true |}, Continue).
Proof.
  intros H. unfold table_only_page_step.
  pose proof (has_matching_table_find p t H) as Hm.
  unfold Spec.has_matching_table in Hm.
  unfold _has_table_headers_cached. rewrite Hm. cbn [negb].
  rewrite (check_for_table_end_valid_table p (Some (extract_tables p)) Hm).
  rewrite (table_only_tables_loop_found s _ t H). reflexivity.
Qed.

Lemma table_only_page_step_no_table (s : table_session) (p : page) :
  Spec.has_matching_table p = false ->
  table_only_page_step s p = (s, Continue).
Proof.
  intros H. unfold table_only_page_step, _has_table_headers_cached.
  unfold Spec.has_matching_table in H. rewrite H. reflexivity.
Qed.

Lemma pending_rows_cons (headers_done : bool) (t : table) (ts : list table) :
  Inv.pending_rows headers_done (t :: ts)
  = skipn (if headers_done then 0 else 1) t ++ Inv.pending_rows true ts.
Proof. destruct headers_done; reflexivity. Qed.

Lemma table_only_pages_loop_rows (pages : list page) (s : table_session) :
  t_all_rows (table_only_pages_loop s pages)
  = rows_loop (t_all_rows s)
      (Inv.pending_rows (t_headers_processed s) (Inv.first_tables pages)).
Proof.
  revert s. induction pages as [|p rest IH]; intros s.
  - simpl. destruct (t_headers_processed s); reflexivity.
  - cbn [table_only_pages_loop Inv.first_tables].
    destruct (matching_table_cases p) as [[t Ht]|Hn].
    + rewrite (table_only_page_step_matching s p t Ht), Ht, IH.
      cbn [t_all_rows t_headers_processed].
      rewrite pending_rows_cons, rows_loop_app. reflexivity.
    + rewrite (table_only_page_step_no_table s p Hn), (find_none_no_match p Hn).
      apply IH.
Qed.

Lemma pages_loop_rows (pages : list page) (s : session) :
  table_found s = headers_processed s ->
  all_rows (pages_loop s pages)
  = rows_loop (all_rows s)
      (Inv.pending_rows (headers_processed s)
         (Inv.first_tables (Spec.mined_pages (table_found s) pages))).
Proof.
  revert s. induction pages as [|p rest IH]; intros s Hs.
  - simpl. destruct (headers_processed s); reflexivity.
  - cbn [pages_loop Spec.mined_pages].
    destruct (matching_table_cases p) as [[t Ht]|Hn].
    + rewrite (page_step_matching s p t Ht), (has_matching_table_find p t Ht).
      cbn [Inv.first_tables]. rewrite Ht, IH by reflexivity.
      cbn [all_rows headers_processed table_found].
      rewrite pending_rows_cons, rows_loop_app. reflexivity.
    + rewrite (page_step_no_table s p Hn), Hn.
      destruct (table_found s) eqn:Hf.
      * cbn [Inv.first_tables]. rewrite (find_none_no_match p Hn).
        cbn [fst all_rows with_summary Inv.first_tables].
        rewrite <- Hs. reflexivity.
      * cbn [Inv.first_tables]. rewrite (find_none_no_match p Hn).
        rewrite IH by (cbn; congruence).
        cbn [all_rows with_summary headers_processed table_found].
        rewrite Hf. reflexivity.
Qed.

Lemma first_tables_mined_prefix (pages : list page) (found : bool) :
  exists later,
    Inv.first_tables pages
    = Inv.first_tables (Spec.mined_pages found pages) ++ later.
Proof.
  revert found. induction pages as [|p rest IH]; intros found;
    [exists []; reflexivity|].
  cbn [Spec.mined_pages].
  destruct (matching_table_cases p) as [[t Ht]|Hn].
  - rewrite (has_matching_table_find p t Ht). cbn [Inv.first_tables].
    rewrite Ht. destruct (IH true) as [later ->]. exists later. reflexivity.
  - rewrite Hn. destruct found.
    + cbn [Inv.first_tables]. rewrite (find_none_no_match p Hn).
      exists (Inv.first_tables rest). reflexivity.
    + cbn [Inv.first_tables]. rewrite (find_none_no_match p Hn). apply IH.
Qed.

Lemma stitched_rows_app (a b : list table) :
  exists more, Inv.stitched_rows (a ++ b) = Inv.stitched_rows a ++ more.
Proof.
  destruct a as [|t a]; simpl; [eauto|].
  rewrite concat_app, app_assoc. eauto.
Qed.

End Stitching.

(** X9: the records of both extractions are those of one table stitched
    from the first matching table of every page read: the first row of
    the first such table is skipped as the header, every later row of
    every table, first rows included, goes through the row loop. *)
Theorem weeks_tables_are_stitched (pages : list page) :
  Weeks.extract_table_from_pdf pages
  = Weeks.rows_loop [] (Inv.stitched_rows (Inv.first_tables pages))
  /\ fst (Weeks.extract_table_and_summary_from_pdf pages)
     = Weeks.rows_loop []
         (Inv.stitched_rows
            (Inv.first_tables (Spec.mined_pages false pages))).
Proof.
  split.
  - unfold Weeks.extract_table_from_pdf.
    rewrite table_only_pages_loop_rows. reflexivity.
  - unfold Weeks.extract_table_and_summary_from_pdf. cbn [fst].
    rewrite pages_loop_rows by reflexivity. reflexivity.
Qed.

(** X10: the two extractions differ in when they stop.  The one with the
    summary stops at the first page without a matching table that follows
    a page with one; the one without reads every page.  So the first
    returns what the second returns on the pages up to that stop, which is
    a prefix of what the second returns on the whole document. *)
Theorem table_extractions_compared (pages : list page) :
  fst (Weeks.extract_table_and_summary_from_pdf pages)
  = Weeks.extract_table_from_pdf (Spec.mined_pages false pages)
  /\ exists more,
       Weeks.extract_table_from_pdf pages
       = fst (Weeks.extract_table_and_summary_from_pdf pages) ++ more.
Proof.
  unfold Weeks.extract_table_from_pdf,
    Weeks.extract_table_and_summary_from_pdf. cbn [fst].
  rewrite !table_only_pages_loop_rows, pages_loop_rows by reflexivity.
  cbn [Weeks.t_all_rows Weeks.t_headers_processed Weeks.initial_table_session
       Weeks.all_rows Weeks.headers_processed Weeks.table_found
       Weeks.initial_session Inv.pending_rows].
  split; [reflexivity|].
  destruct (first_tables_mined_prefix pages false) as [later ->].
  destruct (stitched_rows_app
              (Inv.first_tables (Spec.mined_pages false pages)) later)
    as [more ->].
  rewrite rows_loop_app.
  rewrite (rows_loop_acc (Weeks.rows_loop [] _) more). eauto.
Qed.

(** A document where the two differ: a table, a page with nothing, a
    second table. *)
Example table_after_gap_is_read_by_one_only :
  map Weeks.cont_id
    (fst (Weeks.extract_table_and_summary_from_pdf
            [Examples.table_and_end_text; Examples.empty_page;
             Examples.second_table_page]))
  = [Some "890326878"]
  /\ map Weeks.cont_id
       (Weeks.extract_table_from_pdf
          [Examples.table_and_end_text; Examples.empty_page;
           Examples.second_table_page])
     = [Some "890326878"; Some "800123456"].
Proof. split; vm_compute; reflexivity. Qed.

Section EmittedRecords.

Import Weeks.

Lemma data_row_record_id (r : row) (rec : week_record) :
  is_data_row r = true -> clean_row_data r = Some rec ->
  Inv.plausible_id rec.
Proof.
  unfold is_data_row, clean_row_data.
  destruct (List.length r <? 3); [discriminate|].
  set (first_cell := cell_text (nth_cell r 0)).
  destruct (existsb _ total_indicators) eqn:Ht; [discriminate|].
  destruct (existsb _ header_indicators) eqn:Hh; [discriminate|].
  destruct (is_empty first_cell) eqn:He; [discriminate|].
  destruct (Nat.ltb_spec (len first_cell) 2) as [|Hl]; [discriminate|].
  intros _. destruct (negb (List.length r =? 9)); [discriminate|].
  intros H. injection H as <-. exists first_cell. cbn [cont_id].
  split.
  - unfold first_cell in *. destruct (nth_cell r 0) as [s|]; simpl in *;
      [|discriminate].
    destruct (truthy s); [reflexivity | discriminate].
  - split; [exact Hl|]. rewrite existsb_app, Ht, Hh. reflexivity.
Qed.

Lemma rows_loop_forall (Q : week_record -> Prop) (rows : list row)
  (acc : list week_record) :
  (forall r rec, is_data_row r = true -> clean_row_data r = Some rec -> Q rec) ->
  Forall Q acc -> Forall Q (rows_loop acc rows).
Proof.
  intros HQ. revert acc.
  induction rows as [|r rows IH]; intros acc Hacc; simpl; [exact Hacc|].
  apply IH. destruct (row_not_empty r); [|exact Hacc].
  destruct (is_data_row r) eqn:Hd; [|exact Hacc].
  destruct (clean_row_data r) as [rec|] eqn:Hc; [|exact Hacc].
  apply Forall_app. split; [exact Hacc|].
  constructor; [apply (HQ r rec Hd Hc) | constructor].
Qed.

End EmittedRecords.

(** X11: every record that either extraction of the weeks schema emits has
    an identifier of two characters or more that holds none of the words
    total, suma, resumen, subtotal, and neither identificación nor
    identificacion, in any case: a total row or a repeated header that
    starts with one of these words never becomes a record. *)
Theorem weeks_records_have_plausible_ids (pages : list page) :
  Forall Inv.plausible_id (Weeks.extract_table_from_pdf pages)
  /\ Forall Inv.plausible_id
       (fst (Weeks.extract_table_and_summary_from_pdf pages)).
Proof.
  unfold Weeks.extract_table_from_pdf,
    Weeks.extract_table_and_summary_from_pdf. cbn [fst].
  rewrite table_only_pages_loop_rows, pages_loop_rows by reflexivity.
  split; apply rows_loop_forall; try apply data_row_record_id; constructor.
Qed.

(* ----------------------------------------------------------------- *)
(** ** The page loop of the payments schema *)

Section PaymentsLoop.

Import Payments.

Lemma payments_rows_loop_app (acc : list payment_record) (a b : list row) :
  rows_loop acc (a ++ b)
  = match rows_loop acc a with
    | Raise e => Raise e
    | Ret acc' => rows_loop acc' b
    end.
Proof.
  revert acc. induction a as [|r a IH]; intros acc; simpl; [reflexivity|].
  destruct (Weeks.row_not_empty r); [|apply IH].
  destruct (is_data_row r); [|apply IH].
  destruct (clean_row_data r) as [[rec|]|e]; [apply IH | apply IH | reflexivity].
Qed.

Lemma payments_tables_loop_spec (s : session) (tables : list table) :
  tables_loop s tables
  = match find Inv.payments_table tables with
    | None => Ret s
    | Some t =>
        match rows_loop (all_rows s)
                (skipn (if headers_processed s then 0 else 1) t) with
        | Raise e => Raise e
        | Ret rows =>
            Ret {| all_rows := rows; table_found := true;
                   headers_processed := true |}
        end
    end.
Proof.
  induction tables as [|t rest IH]; [reflexivity|].
  cbn [tables_loop find]. unfold Inv.payments_table at 1.
  destruct (List.length t <? 2); [exact IH|]. cbn [negb andb].
  destruct (is_payments_table (Weeks.headers_of t)); [reflexivity | exact IH].
Qed.

Lemma payments_pages_loop_rows (pages : list page) (s : session) :
  match pages_loop s pages with
  | Raise e => Raise e
  | Ret s' => Ret (all_rows s')
  end
  = rows_loop (all_rows s)
      (Inv.pending_rows (headers_processed s) (Inv.first_payment_tables pages)).
Proof.
  revert s. induction pages as [|p rest IH]; intros s.
  - simpl. destruct (headers_processed s); reflexivity.
  - cbn [pages_loop Inv.first_payment_tables].
    rewrite payments_tables_loop_spec.
    destruct (find Inv.payments_table (extract_tables p)) as [t|]; [|apply IH].
    rewrite pending_rows_cons, payments_rows_loop_app.
    destruct (rows_loop (all_rows s) _) as [rows|e]; [|reflexivity].
    rewrite IH. reflexivity.
Qed.

End PaymentsLoop.

(** X12: the payments extraction reads every page and never stops early:
    its records are those of one table stitched from the first payments
    table of every page, the first row of the first such table skipped as
    the header; pages without a payments table change nothing, wherever
    they stand.  An exception of the record builder ends the run. *)
Theorem payments_tables_are_stitched (pages : list page) :
  Payments.extract_post1995_payments_from_pdf pages
  = Payments.rows_loop []
      (Inv.stitched_rows (Inv.first_payment_tables pages)).
Proof.
  unfold Payments.extract_post1995_payments_from_pdf.
  rewrite (payments_pages_loop_rows pages Payments.initial_session).
  reflexivity.
Qed.

Section PaymentsRecords.

Import Payments.

Lemma clean_row_data_id_name (r : row) (rec : payment_record) :
  clean_row_data r = Ret (Some rec) ->
  cont_id rec = Some (cell_text (nth_cell r 0))
  /\ truthy (cell_text (nth_cell r 0)) = true
  /\ cont_name rec = Some (cell_text (nth_cell r 1))
  /\ truthy (cell_text (nth_cell r 1)) = true.
Proof.
  unfold clean_row_data.
  destruct (List.length r <? 3); [discriminate|].
  match goal with
  | |- context [match ?d with Ret _ => _ | Raise _ => _ end] =>
      destruct d as [[rep cot]|e]; [|discriminate]
  end.
  destruct (opt_str_truthy (cell_strip_or_none (nth_cell r 0))) eqn:Hid;
    [|discriminate].
  destruct (opt_str_truthy (cell_strip_or_none (nth_cell r 1))) eqn:Hname;
    [|discriminate].
  cbn [andb]. intros H. injection H as <-. cbn.
  apply opt_str_truthy_some in Hid as [i [Ei Ti]].
  apply opt_str_truthy_some in Hname as [n [En Tn]].
  rewrite Ei, En.
  rewrite (cell_strip_or_none_truthy _ _ Ei), (cell_strip_or_none_truthy _ _ En).
  auto.
Qed.

Lemma clean_row_data_period (r : row) (rec : payment_record) :
  clean_row_data r = Ret (Some rec) ->
  match cont_period rec with
  | None => True
  | Some p => Inv.canonical_period p
  end.
Proof.
  unfold clean_row_data.
  destruct (List.length r <? 3); [discriminate|].
  set (p0 := if 13 <=? List.length r
             then normalize_period (nth_cell r 3) else None).
  assert (Hp0 : match p0 with
                | None => True
                | Some p => Inv.canonical_period p
                end).
  { unfold p0. destruct (13 <=? List.length r); [|exact I].
    destruct (normalize_period (nth_cell r 3)) as [p|] eqn:E; [|exact I].
    apply (normalize_period_is_canonical _ _ E). }
  set (period := if opt_str_truthy p0 then p0 else sniff_period p0 r).
  assert (Hperiod : match period with
                    | None => True
                    | Some p => Inv.canonical_period p
                    end).
  { unfold period. destruct (opt_str_truthy p0); [exact Hp0|].
    destruct (sniff_period_origin p0 r) as [->|[c ->]]; [exact Hp0|].
    destruct (normalize_period c) as [p|] eqn:E; [|exact I].
    apply (normalize_period_is_canonical _ _ E). }
  match goal with
  | |- context [match ?d with Ret _ => _ | Raise _ => _ end] =>
      destruct d as [[rep cot]|e]; [|discriminate]
  end.
  destruct (_ && _); [|discriminate].
  intros H. injection H as <-. exact Hperiod.
Qed.

Lemma data_row_no_total (r : row) :
  is_data_row r = true ->
  existsb (fun indicator => contains indicator (lower (cell_text (nth_cell r 0))))
    total_indicators = false.
Proof.
  unfold is_data_row.
  destruct (List.length r <? 3); [discriminate|].
  destruct (existsb _ total_indicators); [discriminate | reflexivity].
Qed.

Lemma payments_row_record_ok (r : row) (rec : payment_record) :
  is_data_row r = true -> clean_row_data r = Ret (Some rec) ->
  Inv.payment_record_ok rec.
Proof.
  intros Hd Hc.
  destruct (clean_row_data_id_name r rec Hc) as [Hi [Ti [Hn Tn]]].
  split; [|split].
  - exists (cell_text (nth_cell r 0)).
    split; [exact Hi|]. split; [exact Ti | apply data_row_no_total; exact Hd].
  - exists (cell_text (nth_cell r 1)). auto.
  - apply (clean_row_data_period r rec Hc).
Qed.

Lemma payments_rows_loop_ok (rows : list row) (acc out : list payment_record) :
  Forall Inv.payment_record_ok acc ->
  rows_loop acc rows = Ret out ->
  Forall Inv.payment_record_ok out.
Proof.
  revert acc. induction rows as [|r rows IH]; intros acc Hacc; simpl.
  - intros H. injection H as <-. exact Hacc.
  - destruct (Weeks.row_not_empty r); [|apply IH; exact Hacc].
    destruct (is_data_row r) eqn:Hd; [|apply IH; exact Hacc].
    destruct (clean_row_data r) as [[rec|]|e] eqn:Hc;
      [|apply IH; exact Hacc | discriminate].
    apply IH. apply Forall_app. split; [exact Hacc|].
    constructor; [apply (payments_row_record_ok r rec Hd Hc) | constructor].
Qed.

Lemma clean_row_data_ret_ascii (r : row) :
  Forall Inv.short_ascii_cell r -> exists o, clean_row_data r = Ret o.
Proof.
  intros H. unfold clean_row_data.
  destruct (List.length r <? 3); [eauto|].
  match goal with
  | |- context [if ?b then Ret (?x, ?y) else sniff_days 0 ?x ?y r] =>
      destruct b;
      [|destruct (sniff_days_ascii r 0 x y H) as [[rep cot] ->]]
  end;
    match goal with
    | |- context [if ?b then _ else _] => destruct b; eauto
    end.
Qed.

Lemma payments_rows_loop_ascii (rows : list row) (acc : list payment_record) :
  Forall (Forall Inv.short_ascii_cell) rows ->
  exists out, rows_loop acc rows = Ret out.
Proof.
  intros H. revert acc.
  induction H as [|r rows Hr _ IH]; intros acc; simpl; [eauto|].
  destruct (Weeks.row_not_empty r); [|apply IH].
  destruct (is_data_row r); [|apply IH].
  destruct (clean_row_data_ret_ascii r Hr) as [[rec|] ->]; apply IH.
Qed.

Lemma find_in (A : Type) (f : A -> bool) (l : list A) (x : A) :
  find f l = Some x -> In x l.
Proof.
  induction l as [|y l IH]; simpl; [discriminate|].
  destruct (f y); [intros H; injection H as ->; left; reflexivity|].
  intros H. right. apply IH. exact H.
Qed.

Lemma first_payment_tables_ascii (pages : list page) :
  Forall Inv.short_ascii_page pages ->
  Forall (Forall (Forall Inv.short_ascii_cell)) (Inv.first_payment_tables pages).
Proof.
  induction 1 as [|p rest Hp _ IH]; simpl; [constructor|].
  destruct (find Inv.payments_table (extract_tables p)) as [t|] eqn:E;
    [|exact IH].
  constructor; [|exact IH].
  unfold Inv.short_ascii_page in Hp. rewrite Forall_forall in Hp.
  apply Hp. apply (find_in _ _ _ _ E).
Qed.

Lemma stitched_rows_ascii (tables : list table) :
  Forall (Forall (Forall Inv.short_ascii_cell)) tables ->
  Forall (Forall Inv.short_ascii_cell) (Inv.stitched_rows tables).
Proof.
  intros H. destruct H as [|t ts Ht Hts]; simpl; [constructor|].
  apply Forall_app. split.
  - destruct t as [|r t']; [constructor|]. simpl. inversion Ht; assumption.
  - apply Forall_concat. exact Hts.
Qed.

End PaymentsRecords.

(** X13: every record that the payments extraction returns has an
    identifier that is not empty and holds none of the words total, suma,
    resumen, subtotal, a name that is not empty, and a period that is null
    or canonical. *)
Theorem payments_records_are_ok (pages : list page)
  (out : list Payments.payment_record) :
  Payments.extract_post1995_payments_from_pdf pages = Ret out ->
  Forall Inv.payment_record_ok out.
Proof.
  unfold Payments.extract_post1995_payments_from_pdf.
  rewrite (payments_pages_loop_rows pages Payments.initial_session).
  apply payments_rows_loop_ok. constructor.
Qed.

Lemma payments_records_are_ok_witness :
  exists out,
    Payments.extract_post1995_payments_from_pdf [Examples.payments_page]
    = Ret out
    /\ List.length out = 1
    /\ Forall Inv.payment_record_ok out.
Proof.
  eexists. split; [vm_compute; reflexivity|]. split; [reflexivity|].
  apply (payments_records_are_ok [Examples.payments_page]).
  vm_compute. reflexivity.
Defined.

(** X14: on a document whose table cells hold ASCII characters only, none
    longer than the 4300 digits that [int] converts, the payments
    extraction never raises, and so neither does the unified extraction,
    which returns the weeks records, the summary and the payments records
    of the separate extractions. *)
Theorem unified_extraction_total_on_short_ascii (pages : list page) :
  Forall Inv.short_ascii_page pages ->
  exists payments,
    Payments.extract_post1995_payments_from_pdf pages = Ret payments
    /\ Unified.extract_all_from_pdf pages
       = Ret (fst (Weeks.extract_table_and_summary_from_pdf pages),
              snd (Weeks.extract_table_and_summary_from_pdf pages),
              payments).
Proof.
  intros H.
  assert (Hp : exists payments,
             Payments.extract_post1995_payments_from_pdf pages = Ret payments).
  { unfold Payments.extract_post1995_payments_from_pdf.
    rewrite (payments_pages_loop_rows pages Payments.initial_session).
    apply payments_rows_loop_ascii, stitched_rows_ascii,
      first_payment_tables_ascii. exact H. }
  destruct Hp as [payments Hp]. exists payments. split; [exact Hp|].
  unfold Unified.extract_all_from_pdf. rewrite Hp.
  destruct (Weeks.extract_table_and_summary_from_pdf pages). reflexivity.
Qed.

Lemma unified_extraction_total_on_short_ascii_witness :
  exists payments,
    Payments.extract_post1995_payments_from_pdf [Examples.ascii_payments_page]
    = Ret payments
    /\ Unified.extract_all_from_pdf [Examples.ascii_payments_page]
       = Ret (fst (Weeks.extract_table_and_summary_from_pdf
                     [Examples.ascii_payments_page]),
              snd (Weeks.extract_table_and_summary_from_pdf
                     [Examples.ascii_payments_page]),
              payments).
Proof.
  apply (unified_extraction_total_on_short_ascii
           [Examples.ascii_payments_page]).
  repeat constructor.
Defined.

(** A data row with a cell of 4301 digits makes both extractions raise. *)
Example long_digit_cell_stops_the_extraction :
  Payments.extract_post1995_payments_from_pdf [Examples.long_digit_page]
  = Raise ValueError
  /\ Unified.extract_all_from_pdf [Examples.long_digit_page]
     = Raise ValueError.
Proof. split; vm_compute; reflexivity. Qed.

(* ----------------------------------------------------------------- *)
(** ** Dates *)

Section Dates.

Import Weeks.

Lemma digits_ofb_spec (n : nat) (v : Z) (s : str) :
  Inv.digits_ofb n v s = true -> Inv.digits_of n v s.
Proof.
  unfold Inv.digits_ofb, Inv.digits_of. intros H.
  apply andb_true_iff in H as [H Hv]. apply andb_true_iff in H as [Hl Hd].
  apply Nat.eqb_eq in Hl. apply Z.eqb_eq in Hv. auto.
Qed.

(** Every integer from [lo] up, [k] of them, satisfies [f]. *)
Lemma forall_range (f : Z -> bool) (lo k : Z) :
  forallb f (map (fun i => (lo + Z.of_nat i)%Z) (seq 0 (Z.to_nat k))) = true ->
  forall z, (lo <= z < lo + k)%Z -> f z = true.
Proof.
  intros H z Hz. rewrite forallb_forall in H. apply H.
  apply in_map_iff. exists (Z.to_nat (z - lo)). split; [lia|].
  apply in_seq. lia.
Qed.

(** The years of four digits, each one printed and read back. *)
Lemma years_checked :
  forallb (fun z => Inv.digits_ofb 4 z (str_of_Z z))
    (map (fun i => (1000 + Z.of_nat i)%Z) (seq 0 (Z.to_nat 9000))) = true.
Proof. vm_cast_no_check (eq_refl true). Qed.

Lemma days_checked :
  forallb (fun z => Inv.digits_ofb 2 z (pad2 z))
    (map (fun i => (1 + Z.of_nat i)%Z) (seq 0 (Z.to_nat 31))) = true.
Proof. vm_cast_no_check (eq_refl true). Qed.

Lemma year_digits (y : Z) :
  (1000 <= y <= 9999)%Z -> Inv.digits_of 4 y (str_of_Z y).
Proof.
  intros H. apply digits_ofb_spec.
  apply (forall_range _ 1000 9000 years_checked). lia.
Qed.

Lemma pad2_digits (z : Z) : (1 <= z <= 31)%Z -> Inv.digits_of 2 z (pad2 z).
Proof.
  intros H. apply digits_ofb_spec.
  apply (forall_range _ 1 31 days_checked). lia.
Qed.

Lemma days_in_month_le (y m : Z) : (days_in_month y m <= 31)%Z.
Proof.
  unfold days_in_month.
  destruct (m =? 2)%Z; [destruct (is_leap y); lia|].
  destruct ((m =? 4) || (m =? 6) || (m =? 9) || (m =? 11))%Z; lia.
Qed.

(** What [datetime_strftime] accepts. *)
Lemma datetime_strftime_some (y m d : Z) (s : str) :
  datetime_strftime y m d = Some s ->
  (1 <= y <= 9999)%Z /\ (1 <= m <= 12)%Z /\ (1 <= d <= days_in_month y m)%Z
  /\ s = String.append (str_of_Z y)
           (String.append "-" (String.append (pad2 m)
              (String.append "-" (pad2 d)))).
Proof.
  unfold datetime_strftime.
  destruct ((1 <=? y) && (y <=? 9999) && (1 <=? m) && (m <=? 12)
            && (1 <=? d) && (d <=? days_in_month y m))%Z eqn:Hb; [|discriminate].
  intros H. injection H as <-.
  repeat (apply andb_true_iff in Hb as [Hb ?]).
  repeat match goal with
         | H : (_ <=? _)%Z = true |- _ => apply Z.leb_le in H
         end.
  repeat split; auto.
Qed.

Lemma date_of_groups_some (y m d s : str) :
  date_of_groups y m d = Some s ->
  exists y' m' d', datetime_strftime y' m' d' = Some s.
Proof.
  unfold date_of_groups.
  destruct (int_ y) as [y'|]; [|discriminate].
  destruct (int_ m) as [m'|]; [|discriminate].
  destruct (int_ d) as [d'|]; [|discriminate].
  intros H. exists y', m', d'. exact H.
Qed.

(** Every date that [normalize_date] returns was printed from a date of
    the calendar. *)
Lemma normalize_date_some (c : cell) (s : str) :
  normalize_date c = Some s ->
  exists y m d, datetime_strftime y m d = Some s.
Proof.
  unfold normalize_date.
  destruct (blank_or_in c _); [discriminate|].
  destruct c as [raw|]; [|discriminate].
  destruct (Re.date_dd_mm_yyyy_sep "/" (strip raw)) as [[[d1 m1] y1]|].
  - destruct (date_of_groups y1 m1 d1) as [r1|] eqn:E1.
    + intros H. injection H as <-. exact (date_of_groups_some _ _ _ _ E1).
    + destruct (Re.date_dd_mm_yyyy_sep "-" (strip raw)) as [[[d2 m2] y2]|].
      * destruct (date_of_groups y2 m2 d2) as [r2|] eqn:E2.
        -- intros H. injection H as <-. exact (date_of_groups_some _ _ _ _ E2).
        -- destruct (Re.date_yyyy_mm_dd (strip raw)) as [[[y3 m3] d3]|];
             [|discriminate].
           intros H. exact (date_of_groups_some _ _ _ _ H).
      * destruct (Re.date_yyyy_mm_dd (strip raw)) as [[[y3 m3] d3]|];
          [|discriminate].
        intros H. exact (date_of_groups_some _ _ _ _ H).
  - destruct (Re.date_dd_mm_yyyy_sep "-" (strip raw)) as [[[d2 m2] y2]|].
    + destruct (date_of_groups y2 m2 d2) as [r2|] eqn:E2.
      * intros H. injection H as <-. exact (date_of_groups_some _ _ _ _ E2).
      * destruct (Re.date_yyyy_mm_dd (strip raw)) as [[[y3 m3] d3]|];
          [|discriminate].
        intros H. exact (date_of_groups_some _ _ _ _ H).
    + destruct (Re.date_yyyy_mm_dd (strip raw)) as [[[y3 m3] d3]|];
        [|discriminate].
      intros H. exact (date_of_groups_some _ _ _ _ H).
Qed.

Lemma decimal_not_separator (c : ascii) :
  isdecimal c = true ->
  Ascii.eqb "/" c = false /\ Ascii.eqb "-" c = false.
Proof.
  destruct c as [[] [] [] [] [] [] [] []]; vm_compute; intros H;
    first [discriminate H | split; reflexivity].
Qed.

Lemma decimal_not_space (s : str) :
  all_str isdecimal s = true ->
  all_str (fun c => negb (isspace c)) s = true.
Proof.
  apply all_str_impl.
  intros c Hc. destruct (isdecimal_char_facts c Hc) as [-> _]. reflexivity.
Qed.

(** A date in the form year, dash, two digits, dash, two digits, the year
    of four digits, is read by the third pattern alone. *)
Lemma normalize_date_iso (Y M D : str) (y m d : Z) :
  Inv.digits_of 4 y Y -> Inv.digits_of 2 m M -> Inv.digits_of 2 d D ->
  normalize_date
    (Some (String.append Y (String.append "-" (String.append M
             (String.append "-" D)))))
  = datetime_strftime y m d.
Proof.
  intros [LY [HY VY]] [LM [HM VM]] [LD [HD VD]].
  set (s := String.append Y (String.append "-" (String.append M
              (String.append "-" D)))).
  assert (Hs : strip s = s).
  { apply strip_with_none. unfold s.
    rewrite !all_str_append. cbn [all_str].
    rewrite (decimal_not_space Y HY), (decimal_not_space M HM),
      (decimal_not_space D HD).
    reflexivity. }
  assert (HneY : truthy Y = true) by (destruct Y; [discriminate LY | reflexivity]).
  assert (HneM : truthy M = true) by (destruct M; [discriminate LM | reflexivity]).
  assert (HneD : truthy D = true) by (destruct D; [discriminate LD | reflexivity]).
  assert (E3 : Re.date_yyyy_mm_dd s = Some (Y, M, D)).
  { unfold Re.date_yyyy_mm_dd, s.
    rewrite <- LY at 1. rewrite (digits_exactly_all Y _ HY).
    cbn [String.append Re.lit]. rewrite Ascii.eqb_refl.
    unfold Re.day_or_month.
    rewrite <- LM at 1. rewrite (digits_upto_all M _ HM).
    unfold truthy in HneM. apply negb_true_iff in HneM. rewrite HneM.
    cbn [Re.lit]. rewrite Ascii.eqb_refl.
    rewrite <- (append_empty_r D) at 1.
    rewrite <- LD at 1. rewrite (digits_upto_all D _ HD).
    unfold truthy in HneD. apply negb_true_iff in HneD. rewrite HneD.
    reflexivity. }
  assert (E12 : forall sep, sep = "/"%char \/ sep = "-"%char ->
                  Re.date_dd_mm_yyyy_sep sep s = None).
  { intros sep Hsep. unfold Re.date_dd_mm_yyyy_sep, Re.day_or_month, s.
    destruct Y as [|c1 [|c2 [|c3 Y']]]; try discriminate LY.
    cbn [all_str] in HY.
    apply andb_true_iff in HY as [H1 HY]. apply andb_true_iff in HY as [H2 HY].
    apply andb_true_iff in HY as [H3 HY].
    cbn [String.append Re.digits_upto]. rewrite H1, H2.
    cbn [is_empty Re.lit].
    destruct (decimal_not_separator c3 H3) as [Hslash Hdash].
    destruct Hsep as [-> | ->]; [rewrite Hslash | rewrite Hdash]; reflexivity. }
  assert (Hguard : blank_or_in (Some s) [""; "--"; "N/A"] = false).
  { unfold blank_or_in. rewrite Hs. unfold s.
    destruct Y as [|c Y']; [discriminate LY|].
    cbn [all_str] in HY. apply andb_true_iff in HY as [Hc _].
    destruct (isdecimal_char_facts c Hc) as [_ [_ [_ [_ [Hd [Hn _]]]]]].
    simpl. rewrite Hd, Hn. reflexivity. }
  unfold normalize_date. rewrite Hguard, Hs.
  rewrite (E12 "/"%char (or_introl eq_refl)), (E12 "-"%char (or_intror eq_refl)), E3.
  unfold date_of_groups.
  rewrite (int_decimal Y HY HneY (few_digits Y 4 LY eq_refl)),
    (int_decimal M HM HneM (few_digits M 2 LM eq_refl)),
    (int_decimal D HD HneD (few_digits D 2 LD eq_refl)), VY, VM, VD.
  reflexivity.
Qed.

(** X15: every date that [normalize_date] returns is a date of the
    calendar, printed as the year, a dash, the month in two digits, a dash
    and the day in two digits; when its year has four digits
    [normalize_date] reads it back unchanged. *)
Theorem normalize_date_returns_calendar_date (c : cell) (s : str) :
  normalize_date c = Some s ->
  exists y m d,
    (1 <= y <= 9999)%Z /\ (1 <= m <= 12)%Z /\ (1 <= d <= days_in_month y m)%Z
    /\ s = String.append (str_of_Z y)
             (String.append "-" (String.append (pad2 m)
                (String.append "-" (pad2 d))))
    /\ ((1000 <= y)%Z -> normalize_date (Some s) = Some s).
Proof.
  intros H. destruct (normalize_date_some c s H) as [y [m [d E]]].
  destruct (datetime_strftime_some y m d s E) as [Hy [Hm [Hd Hs]]].
  exists y, m, d. repeat split; try lia; [exact Hs|].
  intros Hy4. pose proof (days_in_month_le y m) as Hle.
  assert (Hiso := normalize_date_iso (str_of_Z y) (pad2 m) (pad2 d) y m d).
  rewrite <- Hs in Hiso.
  transitivity (datetime_strftime y m d); [apply Hiso | exact E].
  - apply year_digits. lia.
  - apply pad2_digits. lia.
  - apply pad2_digits. lia.
Qed.

Lemma normalize_date_returns_calendar_date_witness :
  exists y m d,
    (1 <= y <= 9999)%Z /\ (1 <= m <= 12)%Z /\ (1 <= d <= days_in_month y m)%Z
    /\ "1987-03-05"
       = String.append (str_of_Z y)
           (String.append "-" (String.append (pad2 m)
              (String.append "-" (pad2 d))))
    /\ ((1000 <= y)%Z -> normalize_date (Some "1987-03-05") = Some "1987-03-05").
Proof.
  apply (normalize_date_returns_calendar_date (Some " 5/3/1987 ") "1987-03-05").
  vm_compute. reflexivity.
Defined.

(** A year of fewer than four digits is printed without padding, and the
    date is then not read back. *)
Example short_year_is_not_read_back :
  normalize_date (Some "01/01/0005") = Some "5-01-01"
  /\ normalize_date (Some "5-01-01") = None.
Proof. split; vm_compute; reflexivity. Qed.

End Dates.

(* ----------------------------------------------------------------- *)
(** ** Rows that the payments schema accepts *)

Section PaymentsAccepts.

Import Payments.

Lemma lower_char_idem (c : ascii) : lower_char (lower_char c) = lower_char c.
Proof. destruct c as [[] [] [] [] [] [] [] []]; vm_compute; reflexivity. Qed.

Lemma lower_idem (s : str) : lower (lower s) = lower s.
Proof.
  unfold lower. induction s as [|c s IH]; simpl; [reflexivity|].
  rewrite lower_char_idem, IH. reflexivity.
Qed.

(** A word found in a part of [s] is found in [s]. *)
Lemma existsb_contains_occurs (l : list str) (x s : str) :
  Inv.occurs_in x s ->
  existsb (fun w => contains w s) l = false ->
  existsb (fun w => contains w x) l = false.
Proof.
  intros Hocc H. apply not_true_iff_false. intros Hx.
  apply existsb_exists in Hx as [w [Hw Hc]].
  assert (Hs : existsb (fun w => contains w s) l = true).
  { apply existsb_exists. exists w. split; [exact Hw|].
    exact (contains_occurs w x s Hocc Hc). }
  congruence.
Qed.

Lemma strip_lower_occurs (s : str) : Inv.occurs_in (lower (strip s)) (lower s).
Proof. apply occurs_in_lower, strip_occurs. Qed.

(** No part of a text without header words holds one. *)
Lemma line_parts_plain (s t : str) :
  Inv.occurs_in (lower s) t ->
  has_header_indicator t = false ->
  forall part, In part (line_parts s) -> has_header_indicator part = false.
Proof.
  intros Hocc Ht part Hin. unfold line_parts in Hin.
  apply in_map_iff in Hin as [p [<- Hp]].
  unfold has_header_indicator in *.
  apply (existsb_contains_occurs _ _ t); [|exact Ht].
  eapply occurs_in_trans; [apply strip_lower_occurs|].
  eapply occurs_in_trans; [|exact Hocc].
  apply occurs_in_lower. exact (split_line_occurs _ _ _ Hp).
Qed.

Lemma existsb_false (A : Type) (f : A -> bool) (l : list A) :
  (forall x, In x l -> f x = false) -> existsb f l = false.
Proof.
  intros H. induction l as [|x l IH]; simpl; [reflexivity|].
  rewrite (H x (or_introl eq_refl)). apply IH.
  intros y Hy. apply H. right. exact Hy.
Qed.

Lemma filter_none (A : Type) (f : A -> bool) (l : list A) :
  (forall x, In x l -> f x = false) -> filter f l = [].
Proof.
  intros H. induction l as [|x l IH]; simpl; [reflexivity|].
  rewrite (H x (or_introl eq_refl)). apply IH.
  intros y Hy. apply H. right. exact Hy.
Qed.

Lemma numbered_header_cell_plain (c : cell) :
  Inv.no_header_word c = true -> numbered_header_cell c = false.
Proof.
  destruct c as [raw|]; [|reflexivity]. simpl. intros H.
  apply negb_true_iff in H.
  rewrite (existsb_false _ _ (line_parts (lower (strip raw))));
    [rewrite andb_false_r; reflexivity|].
  intros part Hin.
  rewrite (line_parts_plain (lower (strip raw)) (lower raw)); auto.
  - apply andb_false_r.
  - rewrite lower_idem. apply strip_lower_occurs.
Qed.

Lemma header_count_plain (r : row) :
  forallb Inv.no_header_word r = true -> header_count r = 0.
Proof.
  intros H. unfold header_count. rewrite filter_none; [reflexivity|].
  intros c Hc.
  assert (Hin : In c r).
  { rewrite <- (firstn_skipn 3 r). apply in_or_app. left. exact Hc. }
  rewrite forallb_forall in H. specialize (H c Hin).
  destruct c as [raw|]; [|reflexivity]. simpl in H.
  apply negb_true_iff in H.
  unfold has_header_indicator in *.
  rewrite (existsb_contains_occurs _ _ _ (strip_lower_occurs raw) H).
  apply andb_false_r.
Qed.

(** X16: the payments [is_data_row] never rejects a row for the form of
    its identifier: a row of three cells or more whose first cell is not
    blank and holds no word of a total, and none of whose cells holds a
    header indicator, in any case of the letters, is a data row. *)
Theorem payments_row_without_header_words_is_data (r : row) (raw : str) :
  3 <= List.length r ->
  nth_cell r 0 = Some raw ->
  truthy (strip raw) = true ->
  existsb (fun indicator => contains indicator (lower raw)) total_indicators
  = false ->
  forallb Inv.no_header_word r = true ->
  is_data_row r = true.
Proof.
  intros Hlen H0 Hne Htot Hplain.
  assert (Hraw : truthy raw = true).
  { destruct raw; [discriminate Hne | reflexivity]. }
  assert (Hfirst : cell_text (nth_cell r 0) = strip raw).
  { rewrite H0. simpl. rewrite Hraw. reflexivity. }
  assert (Hin0 : In (Some raw) r).
  { rewrite <- H0. apply nth_In. lia. }
  assert (Hhead : has_header_indicator (lower raw) = false).
  { rewrite forallb_forall in Hplain. specialize (Hplain _ Hin0).
    simpl in Hplain. apply negb_true_iff in Hplain. exact Hplain. }
  unfold is_data_row. rewrite Hfirst.
  apply Nat.ltb_ge in Hlen. rewrite Hlen.
  rewrite (existsb_contains_occurs _ _ _ (strip_lower_occurs raw) Htot).
  assert (H1 : has_header_indicator (lower (strip raw)) = false).
  { exact (existsb_contains_occurs _ _ _ (strip_lower_occurs raw) Hhead). }
  rewrite H1.
  rewrite (existsb_false _ has_header_indicator (line_parts (strip raw)));
    [|apply (line_parts_plain (strip raw) (lower raw));
      [apply strip_lower_occurs | exact Hhead]].
  rewrite andb_false_r.
  rewrite (existsb_false _ numbered_header_cell r);
    [|intros c Hc; apply numbered_header_cell_plain;
      rewrite forallb_forall in Hplain; exact (Hplain c Hc)].
  rewrite (header_count_plain r Hplain).
  unfold truthy in Hne. apply negb_true_iff in Hne. rewrite Hne.
  cbn [Nat.leb andb]. rewrite !andb_false_r. cbn [andb].
  repeat match goal with
         | |- (if ?b then _ else _) = _ => destruct b
         end; reflexivity.
Qed.

Lemma payments_row_without_header_words_is_data_witness :
  is_data_row Examples.one_letter_row = true.
Proof.
  apply (payments_row_without_header_words_is_data Examples.one_letter_row "x");
    [simpl; lia | reflexivity | reflexivity | reflexivity
     | vm_compute; reflexivity].
Defined.

(** The weeks schema is stricter: it wants two characters. *)
Example one_letter_row_is_not_a_weeks_row :
  Weeks.is_data_row Examples.one_letter_row = false.
Proof. vm_compute. reflexivity. Qed.

End PaymentsAccepts.

(* ----------------------------------------------------------------- *)
(** ** The two detections of the payments table *)

Section PaymentsDetection.

Import Payments.

Lemma find_table_with_headers_spec (tables : list table) (t : table) :
  find_table_with_headers tables = Some t ->
  In t tables /\ Inv.payments_table t = true.
Proof.
  induction tables as [|u rest IH]; [discriminate|].
  cbn [find_table_with_headers].
  destruct (List.length u <? 2) eqn:Hlen;
    [intros H; destruct (IH H); split; [right|]; assumption|].
  destruct (List.length (Weeks.headers_of u) =? 13) eqn:H13;
    [|intros H; destruct (IH H); split; [right|]; assumption].
  destruct (8 <=? expected_loop 0 expected_headers (Weeks.headers_of u)) eqn:H8;
    [|intros H; destruct (IH H); split; [right|]; assumption].
  intros H. injection H as <-. split; [left; reflexivity|].
  unfold Inv.payments_table, is_payments_table.
  rewrite Hlen, H13, H8. cbn [negb andb]. rewrite orb_true_r. reflexivity.
Qed.

(** X17: a table that [find_table_with_headers] returns for a page is a
    table of the page that passes the test of the page loop of
    [extract_post1995_payments_from_pdf]; the loop therefore reads a table
    of that page, the first that passes its test. *)
Theorem header_matched_table_passes_page_loop (p : page) (t : table) :
  find_table_with_headers (extract_tables p) = Some t ->
  In t (extract_tables p) /\ Inv.payments_table t = true
  /\ exists t', find Inv.payments_table (extract_tables p) = Some t'
                /\ Inv.first_payment_tables [p] = [t'].
Proof.
  intros H. destruct (find_table_with_headers_spec _ _ H) as [Hin Hp].
  split; [exact Hin|]. split; [exact Hp|].
  cbn [Inv.first_payment_tables].
  destruct (find Inv.payments_table (extract_tables p)) as [t'|] eqn:E.
  - exists t'. split; reflexivity.
  - pose proof (find_none _ _ E t Hin) as Hn. congruence.
Qed.

Lemma header_matched_table_passes_page_loop_witness :
  In (nth 1 (extract_tables Examples.titled_page) [])
    (extract_tables Examples.titled_page)
  /\ Inv.payments_table (nth 1 (extract_tables Examples.titled_page) []) = true
  /\ exists t',
       find Inv.payments_table (extract_tables Examples.titled_page) = Some t'
       /\ Inv.first_payment_tables [Examples.titled_page] = [t'].
Proof.
  apply (header_matched_table_passes_page_loop Examples.titled_page).
  vm_compute. reflexivity.
Defined.

(** The table read need not be the one returned: a table with the title
    in its first row comes first here. *)
Example page_loop_reads_an_earlier_table :
  find_table_with_headers (extract_tables Examples.titled_page)
  = Some (nth 1 (extract_tables Examples.titled_page) [])
  /\ find Inv.payments_table (extract_tables Examples.titled_page)
     = Some (nth 0 (extract_tables Examples.titled_page) []).
Proof. split; vm_compute; reflexivity. Qed.

End PaymentsDetection.

(* ----------------------------------------------------------------- *)
(** ** The gap analyzer on canonical periods *)

Section GapOnPeriods.

Import Payments.

Lemma decimal_cases (c : ascii) :
  isdecimal c = true -> In c Inv.decimal_digits.
Proof.
  destruct c as [[] [] [] [] [] [] [] []]; intros H;
    try (vm_compute in H; discriminate H); simpl; auto 11.
Qed.

Lemma digit_value_decimal (c : ascii) :
  isdecimal c = true -> (0 <= digit_value c <= 9)%Z.
Proof.
  intros H. apply decimal_cases in H. simpl in H.
  repeat (destruct H as [<-|H]; [vm_compute; split; discriminate|]).
  contradiction.
Qed.

Lemma digit_value_inj (a b : ascii) :
  isdecimal a = true -> isdecimal b = true ->
  digit_value a = digit_value b -> a = b.
Proof.
  intros Ha Hb. apply decimal_cases in Ha. apply decimal_cases in Hb.
  simpl in Ha, Hb.
  repeat (destruct Ha as [<-|Ha]; [
    repeat (destruct Hb as [<-|Hb];
            [intros H; first [reflexivity | vm_compute in H; discriminate H]|]);
    contradiction|]).
  contradiction.
Qed.

Lemma digits_value_acc (s : str) :
  all_str isdecimal s = true ->
  forall acc,
    digits_value acc s = (acc * 10 ^ Z.of_nat (len s) + digits_value 0 s)%Z.
Proof.
  induction s as [|c r IH]; intros H acc.
  - simpl. lia.
  - simpl in H. apply andb_true_iff in H as [Hc Hr].
    cbn [digits_value]. rewrite Hc.
    rewrite (IH Hr (10 * acc + digit_value c)%Z),
      (IH Hr (10 * 0 + digit_value c)%Z).
    change (len (String c r)) with (S (len r)).
    rewrite Nat2Z.inj_succ, Z.pow_succ_r by lia. ring.
Qed.

Lemma digits_value_bound (s : str) :
  all_str isdecimal s = true ->
  (0 <= digits_value 0 s < 10 ^ Z.of_nat (len s))%Z.
Proof.
  induction s as [|c r IH]; intros H.
  - simpl. lia.
  - simpl in H. apply andb_true_iff in H as [Hc Hr].
    cbn [digits_value]. rewrite Hc.
    rewrite (digits_value_acc r Hr).
    change (len (String c r)) with (S (len r)).
    rewrite Nat2Z.inj_succ, Z.pow_succ_r by lia.
    pose proof (digit_value_decimal c Hc). specialize (IH Hr). nia.
Qed.

(** Two runs of decimal digits of one length and one value are equal. *)
Lemma digits_value_inj (s t : str) :
  len s = len t ->
  all_str isdecimal s = true -> all_str isdecimal t = true ->
  digits_value 0 s = digits_value 0 t -> s = t.
Proof.
  revert t. induction s as [|c r IH]; intros [|d u] Hl Hs Ht Hv;
    try discriminate Hl; [reflexivity|].
  simpl in Hs, Ht.
  apply andb_true_iff in Hs as [Hc Hr]. apply andb_true_iff in Ht as [Hd Hu].
  assert (Hlen : len r = len u) by (unfold len in *; simpl in Hl; lia).
  cbn [digits_value] in Hv. rewrite Hc, Hd in Hv.
  rewrite (digits_value_acc r Hr), (digits_value_acc u Hu), Hlen in Hv.
  pose proof (digit_value_decimal c Hc) as Bc.
  pose proof (digit_value_decimal d Hd) as Bd.
  pose proof (digits_value_bound r Hr) as Br. rewrite Hlen in Br.
  pose proof (digits_value_bound u Hu) as Bu.
  assert (Hcd : digit_value c = digit_value d) by nia.
  rewrite (digit_value_inj c d Hc Hd Hcd).
  rewrite (IH u Hlen Hr Hu); [reflexivity|]. nia.
Qed.

Lemma digits_of_inj (n : nat) (v : Z) (s t : str) :
  Inv.digits_of n v s -> Inv.digits_of n v t -> s = t.
Proof.
  intros [Ls [Hs Vs]] [Lt [Ht Vt]].
  apply digits_value_inj; congruence.
Qed.

(** The directive of the month on two digits from 01 to 12. *)
Lemma month_directive_two (m : str) :
  len m = 2 -> all_str isdecimal m = true ->
  (1 <= digits_value 0 m <= 12)%Z ->
  month_directive m = Some (digits_value 0 m, EmptyString).
Proof.
  intros Hl Hm Hv.
  destruct m as [|a [|b [|]]]; try discriminate Hl.
  simpl in Hm. rewrite andb_true_r in Hm.
  apply andb_true_iff in Hm as [Ha Hb].
  assert (Hbool : ((1 <=? digits_value 0 (String a (String b EmptyString)))
                   && (digits_value 0 (String a (String b EmptyString)) <=? 12))%Z
                  = true).
  { apply andb_true_intro. split; apply Z.leb_le; lia. }
  clear Hv. apply decimal_cases in Ha. apply decimal_cases in Hb.
  simpl in Ha, Hb.
  repeat (destruct Ha as [<-|Ha]; [
    repeat (destruct Hb as [<-|Hb];
            [first [vm_compute; reflexivity
                   | vm_compute in Hbool; discriminate Hbool]|]);
    contradiction|]).
  contradiction.
Qed.

Lemma has_dash (y m : str) :
  has_char "-" (String.append y (String.append "-" m)) = true.
Proof.
  induction y as [|c y IH]; [reflexivity|].
  cbn [String.append has_char] in *. rewrite IH. apply orb_true_r.
Qed.

Lemma strptime_period (y m : str) :
  len y = 4 -> len m = 2 ->
  all_str isdecimal y = true -> all_str isdecimal m = true ->
  (1 <= digits_value 0 m <= 12)%Z ->
  strptime Y_dash_m (String.append y (String.append "-" m))
  = Some (12 * digits_value 0 y + digits_value 0 m - 1)%Z.
Proof.
  intros Ly Lm Hy Hm Vm.
  unfold strptime. rewrite <- Ly, (digits_exactly_all y _ Hy).
  cbn [String.append Re.lit]. rewrite Ascii.eqb_refl.
  rewrite (month_directive_two m Lm Hm Vm). reflexivity.
Qed.

Lemma to_datetime_period (y m : str) :
  len y = 4 -> len m = 2 ->
  all_str isdecimal y = true -> all_str isdecimal m = true ->
  (1 <= digits_value 0 m <= 12)%Z ->
  (1678 <= digits_value 0 y <= 2261)%Z ->
  to_datetime_one Y_dash_m (Some (String.append y (String.append "-" m)))
  = Ret (MonthStart (12 * digits_value 0 y + digits_value 0 m - 1)).
Proof.
  intros Ly Lm Hy Hm Vm Vy.
  unfold to_datetime_one.
  assert (Hguard : is_empty (String.append y (String.append "-" m))
                   || in_list (String.append y (String.append "-" m))
                        nat_strings = false).
  { destruct y as [|c y']; [discriminate Ly|].
    simpl in Hy. apply andb_true_iff in Hy as [Hc _].
    apply decimal_cases in Hc. simpl in Hc.
    repeat (destruct Hc as [<-|Hc]; [reflexivity|]). contradiction. }
  rewrite Hguard, (strptime_period y m Ly Lm Hy Hm Vm).
  assert (Hb : in_bounds (12 * digits_value 0 y + digits_value 0 m - 1)
               = true).
  { unfold in_bounds. apply andb_true_intro. split; apply Z.leb_le; lia. }
  rewrite Hb. reflexivity.
Qed.

Lemma strftime_period (y m : str) :
  len y = 4 -> len m = 2 ->
  all_str isdecimal y = true -> all_str isdecimal m = true ->
  (1 <= digits_value 0 m <= 12)%Z ->
  (1678 <= digits_value 0 y <= 2261)%Z ->
  strftime_Y_m (12 * digits_value 0 y + digits_value 0 m - 1)
  = String.append y (String.append "-" m).
Proof.
  intros Ly Lm Hy Hm Vm Vy.
  unfold strftime_Y_m.
  assert (Hdiv : ((12 * digits_value 0 y + digits_value 0 m - 1) / 12
                  = digits_value 0 y)%Z).
  { symmetry. apply (Z.div_unique _ 12 _ (digits_value 0 m - 1)); lia. }
  assert (Hmod : ((12 * digits_value 0 y + digits_value 0 m - 1) mod 12 + 1
                  = digits_value 0 m)%Z).
  { rewrite <- (Z.mod_unique _ 12 (digits_value 0 y) (digits_value 0 m - 1));
      lia. }
  rewrite Hdiv, Hmod.
  rewrite (digits_of_inj 4 (digits_value 0 y)
             (Weeks.str_of_Z (digits_value 0 y)) y);
    [|apply year_digits; lia | repeat split; assumption].
  rewrite (digits_of_inj 2 (digits_value 0 m)
             (Weeks.pad2 (digits_value 0 m)) m);
    [reflexivity | apply pad2_digits; lia | repeat split; assumption].
Qed.

(** A period and the month it denotes: read by [to_datetime], and printed
    back by [strftime]. *)
Lemma datable_month (p : str) :
  Inv.datable_period p ->
  exists k, to_datetime_one Y_dash_m (Some p) = Ret (MonthStart k)
            /\ strftime_Y_m k = p /\ Inv.year_months k.
Proof.
  intros [y [m [-> [Ly [Lm [Hy [Hm [Vm Vy]]]]]]]].
  exists (12 * digits_value 0 y + digits_value 0 m - 1)%Z.
  split; [apply to_datetime_period; assumption|].
  split; [apply strftime_period; assumption|].
  unfold Inv.year_months. lia.
Qed.

(** The period that [strftime] prints for a month of these years. *)
Lemma month_datable (k : Z) :
  Inv.year_months k ->
  Inv.datable_period (strftime_Y_m k)
  /\ to_datetime_one Y_dash_m (Some (strftime_Y_m k)) = Ret (MonthStart k).
Proof.
  unfold Inv.year_months. intros Hk.
  assert (Hyear : (1678 <= k / 12 <= 2261)%Z).
  { split; [apply Z.div_le_lower_bound; lia|].
    apply Z.lt_succ_r. apply Z.div_lt_upper_bound; lia. }
  assert (Hmonth : (1 <= k mod 12 + 1 <= 12)%Z).
  { pose proof (Z.mod_pos_bound k 12). lia. }
  destruct (year_digits (k / 12)) as [Ly [Hy Vy]]; [lia|].
  destruct (pad2_digits (k mod 12 + 1)) as [Lm [Hm Vm]]; [lia|].
  split.
  - exists (Weeks.str_of_Z (k / 12)), (Weeks.pad2 (k mod 12 + 1)).
    rewrite Vy, Vm. repeat split; solve [assumption | lia].
  - unfold strftime_Y_m.
    etransitivity;
      [apply (to_datetime_period _ _ Ly Lm Hy Hm); rewrite ?Vy, ?Vm; lia|].
    rewrite Vy, Vm. f_equal. f_equal. pose proof (Z.div_mod k 12). lia.
Qed.

Lemma datable_months (ps : list str) :
  Forall Inv.datable_period ps ->
  exists ms,
    Forall2 (fun c k => to_datetime_one Y_dash_m c = Ret (MonthStart k))
      (map Some ps) ms
    /\ Forall2 (fun p k => strftime_Y_m k = p /\ Inv.year_months k) ps ms.
Proof.
  induction 1 as [|p ps Hp _ [ms [H1 H2]]].
  - exists []. split; constructor.
  - destruct (datable_month p Hp) as [k [Hk [Hs Hb]]].
    exists (k :: ms). split; constructor; auto.
Qed.

Lemma Forall2_in_r (A B : Type) (R : A -> B -> Prop) (l : list A)
  (l' : list B) (b : B) :
  Forall2 R l l' -> In b l' -> exists a, In a l /\ R a b.
Proof.
  induction 1 as [|x y l l' Hxy _ IH]; [intros []|].
  intros [<-|Hin].
  - exists x. split; [left; reflexivity | exact Hxy].
  - destruct (IH Hin) as [a [Ha HR]]. exists a. split; [right|]; assumption.
Qed.

Lemma Forall2_in_l (A B : Type) (R : A -> B -> Prop) (l : list A)
  (l' : list B) (a : A) :
  Forall2 R l l' -> In a l -> exists b, In b l' /\ R a b.
Proof.
  induction 1 as [|x y l l' Hxy _ IH]; [intros []|].
  intros [<-|Hin].
  - exists y. split; [left; reflexivity | exact Hxy].
  - destruct (IH Hin) as [b [Hb HR]]. exists b. split; [right|]; assumption.
Qed.

(** The report on a column whose values all denote a month. *)
Lemma gap_report_of_months (col : list cell) (ms : list Z) :
  col <> [] ->
  Forall2 (fun c k =>
             to_datetime_one
               (if any_contains_dash col then Y_dash_m else Ym) c
             = Ret (MonthStart k)) col ms ->
  exists lo hi missing,
    get_missing_periods_json col
    = Ret {| missing_periods := map strftime_Y_m missing;
             start_period := strftime_Y_m lo;
             end_period := strftime_Y_m hi;
             n_missing := List.length missing |}
    /\ In lo ms /\ In hi ms
    /\ (forall k, In k missing -> (lo <= k <= hi)%Z /\ ~ In k ms).
Proof.
  intros Hne Hall. unfold get_missing_periods_json.
  rewrite (to_datetime_all _ col ms Hall).
  pose proof (sort_values_perm (map MonthStart ms)) as P.
  remember (sort_values (map MonthStart ms)) as sorted eqn:Es.
  assert (Hmonth : forall t, In t sorted ->
            exists k, t = MonthStart k /\ In k ms).
  { intros t Ht. apply (Permutation_in _ P) in Ht.
    apply in_map_iff in Ht as [k [<- Hk]]. eauto. }
  destruct sorted as [|first rest].
  { apply Permutation_nil in P. destruct ms; [|discriminate].
    inversion Hall. congruence. }
  destruct (Hmonth first (or_introl eq_refl)) as [lo [-> Hlo]].
  destruct (Hmonth (last (MonthStart lo :: rest) NaT))
    as [hi [Ehi Hhi]]; [apply last_in; discriminate|].
  rewrite Ehi.
  exists lo, hi.
  exists (filter (fun p => negb (ts_mem p (MonthStart lo :: rest)))
            (date_range lo hi)).
  split; [reflexivity|]. split; [exact Hlo|]. split; [exact Hhi|].
  intros k Hk. apply filter_In in Hk as [Hr Hk].
  apply date_range_in in Hr. split; [exact Hr|].
  apply negb_true_iff in Hk. rewrite <- not_true_iff_false in Hk.
  rewrite (ts_mem_in k ms _ P) in Hk. exact Hk.
Qed.

(** X18: on a column of canonical periods of the years 1678 to 2261 that
    is not empty, [get_missing_periods_json] does not raise; the start and
    the end of its report are periods of the column, character for
    character; every missing period it reports is again a canonical
    period of those years and is not in the column; and the count is the
    number of missing periods listed. *)
Theorem datable_periods_are_analysed (ps : list str) :
  ps <> [] -> Forall Inv.datable_period ps ->
  exists r,
    get_missing_periods_json (map Some ps) = Ret r
    /\ In (start_period r) ps /\ In (end_period r) ps
    /\ (forall q, In q (missing_periods r) ->
          Inv.datable_period q /\ ~ In q ps)
    /\ n_missing r = List.length (missing_periods r).
Proof.
  intros Hne Hall.
  destruct (datable_months ps Hall) as [ms [H1 H2]].
  assert (Hdash : any_contains_dash (map Some ps) = true).
  { destruct ps as [|p ps']; [congruence|].
    inversion Hall as [|? ? [y [m [-> _]]] _]; subst.
    unfold any_contains_dash. cbn [map existsb]. cbv beta iota.
    pose proof (has_dash y m) as Hd. cbn [String.append] in Hd.
    rewrite Hd. reflexivity. }
  destruct (gap_report_of_months (map Some ps) ms) as
    [lo [hi [missing [Hr [Hlo [Hhi Hmiss]]]]]].
  { destruct ps; [congruence | discriminate]. }
  { rewrite Hdash. exact H1. }
  assert (Hprinted : forall k, In k ms ->
            In (strftime_Y_m k) ps /\ Inv.year_months k).
  { intros k Hk. destruct (Forall2_in_r _ _ _ _ _ k H2 Hk) as [p [Hp [Hs Hb]]].
    rewrite Hs. auto. }
  eexists. split; [exact Hr|]. cbn [start_period end_period missing_periods
                                    n_missing].
  split; [apply Hprinted; exact Hlo|].
  split; [apply Hprinted; exact Hhi|].
  split; [|rewrite length_map; reflexivity].
  intros q Hq. apply in_map_iff in Hq as [k [<- Hk]].
  destruct (Hmiss k Hk) as [Hrange Hnot].
  assert (Hb : Inv.year_months k).
  { destruct (Hprinted lo Hlo) as [_ Blo]. destruct (Hprinted hi Hhi) as [_ Bhi].
    unfold Inv.year_months in *. lia. }
  destruct (month_datable k Hb) as [Hd Hread].
  split; [exact Hd|].
  intros Hin. destruct (Forall2_in_l _ _ _ _ _ _ H2 Hin) as [k' [Hk' [Hs' _]]].
  destruct (Forall2_in_l _ _ _ _ _ _ H1 (in_map Some _ _ Hin))
    as [k'' [Hk'' Hread'']].
  rewrite Hread in Hread''. injection Hread'' as <-. contradiction.
Qed.

Lemma datable_periods_are_analysed_witness :
  exists r,
    get_missing_periods_json (map Some ["2020-01"; "2020-03"; "2020-04"])
    = Ret r
    /\ In (start_period r) ["2020-01"; "2020-03"; "2020-04"]
    /\ In (end_period r) ["2020-01"; "2020-03"; "2020-04"]
    /\ (forall q, In q (missing_periods r) ->
          Inv.datable_period q
          /\ ~ In q ["2020-01"; "2020-03"; "2020-04"])
    /\ n_missing r = List.length (missing_periods r).
Proof.
  apply (datable_periods_are_analysed ["2020-01"; "2020-03"; "2020-04"]).
  - discriminate.
  - repeat constructor;
      [exists "2020", "01" | exists "2020", "03" | exists "2020", "04"];
      repeat split; try reflexivity; vm_compute; discriminate.
Defined.

(** The bound on the years is not idle: [normalize_period] returns the
    period of January 1600, which no nanosecond timestamp holds, and on
    it the analyzer raises. *)
Example period_of_the_year_1600_raises :
  normalize_period (Some "160001") = Some "1600-01"
  /\ get_missing_periods_json [Some "1600-01"] = Raise ValueError.
Proof. split; vm_compute; reflexivity. Qed.

End GapOnPeriods.

(* ----------------------------------------------------------------- *)
(** ** The comma of [clean_numeric_colombian] *)

Section NumericComma.

Import Weeks.

Lemma has_char_decimal (c : ascii) (s : str) :
  isdecimal c = false -> all_str isdecimal s = true -> has_char c s = false.
Proof.
  intros Hc. induction s as [|d s IH]; simpl; [reflexivity|].
  intros H. apply andb_true_iff in H as [Hd Hs]. rewrite (IH Hs), orb_false_r.
  destruct (Ascii.eqb_spec c d) as [->|]; [congruence | reflexivity].
Qed.

Lemma replace_absent (c : ascii) (by_ s : str) :
  has_char c s = false -> replace c by_ s = s.
Proof.
  induction s as [|d s IH]; simpl; [reflexivity|].
  intros H. apply orb_false_iff in H as [Hd Hs].
  rewrite Hd, (IH Hs). reflexivity.
Qed.

Lemma replace_append (c : ascii) (by_ a b : str) :
  replace c by_ (String.append a b)
  = String.append (replace c by_ a) (replace c by_ b).
Proof.
  induction a as [|d a IH]; simpl; [reflexivity|].
  rewrite IH. destruct (Ascii.eqb c d); [|reflexivity].
  rewrite append_assoc. reflexivity.
Qed.

Lemma split_absent (c : ascii) (s : str) :
  has_char c s = false -> split c s = [s].
Proof.
  induction s as [|d s IH]; simpl; [reflexivity|].
  intros H. apply orb_false_iff in H as [Hd Hs].
  rewrite Hd, (IH Hs). reflexivity.
Qed.

Lemma split_once (c : ascii) (a b : str) :
  has_char c a = false -> has_char c b = false ->
  split c (String.append a (String c b)) = [a; b].
Proof.
  intros Ha Hb. induction a as [|d a IH].
  - simpl. rewrite Ascii.eqb_refl, (split_absent c b Hb). reflexivity.
  - simpl in Ha. apply orb_false_iff in Ha as [Hd Ha].
    cbn [String.append split]. rewrite Hd, (IH Ha). reflexivity.
Qed.

(** X19: [clean_numeric_colombian] reads a comma between two runs of
    digits as the decimal mark when at most three digits follow it, and
    drops it when more follow: the value is the float of the digits with a
    dot in the place of the comma, or of the digits alone. *)
Theorem comma_is_decimal_for_numeric (a b : str) :
  all_str isdecimal a = true -> all_str isdecimal b = true ->
  clean_numeric_colombian (Some (String.append a (String "," b)))
  = float_ (if len b <=? 3
            then String.append a (String.append dot b)
            else String.append a b).
Proof.
  intros Ha Hb.
  set (s := String.append a (String "," b)).
  assert (Hs : strip s = s).
  { apply strip_with_none. unfold s. rewrite all_str_append. cbn [all_str].
    rewrite (decimal_not_space a Ha), (decimal_not_space b Hb). reflexivity. }
  assert (Hchar : forall c, isdecimal c = false ->
            has_char c s = Ascii.eqb c ",").
  { intros c Hc. unfold s. rewrite has_char_append. cbn [has_char].
    rewrite (has_char_decimal c a Hc Ha), (has_char_decimal c b Hc Hb).
    rewrite orb_false_r. reflexivity. }
  pose proof (comma_not_blank a b) as Hguard. fold s in Hguard.
  unfold clean_numeric_colombian. rewrite Hguard, Hs.
  rewrite (replace_absent " " _ s) by (rewrite Hchar; reflexivity).
  rewrite !Hchar by reflexivity. cbn [Ascii.eqb Bool.eqb andb negb].
  unfold s at 1.
  rewrite (split_once "," a b) by (apply has_char_decimal; auto).
  destruct (len b <=? 3); [reflexivity|].
  unfold s. rewrite replace_append. cbn [replace]. rewrite Ascii.eqb_refl.
  rewrite !replace_absent by (apply has_char_decimal; auto).
  reflexivity.
Qed.

Lemma comma_is_decimal_for_numeric_witness :
  clean_numeric_colombian (Some (String.append "1" (String "," "234")))
  = float_ (if len "234" <=? 3
            then String.append "1" (String.append dot "234")
            else String.append "1" "234").
Proof.
  apply (comma_is_decimal_for_numeric "1" "234"); reflexivity.
Defined.

(** The two cleaners disagree on the same text. *)
Example comma_read_two_ways :
  clean_numeric_colombian (Some "1,234") = float_ "1.234"
  /\ clean_salary (Some "1,234") = float_ "1234"
  /\ clean_numeric_colombian (Some "1,2345") = float_ "12345".
Proof. repeat split; vm_compute; reflexivity. Qed.

End NumericComma.
